(** * Router check-in: a shallow embedding of [checkin.py]

    The development follows the Python module [checkin.py] (class
    [RouterCheckin]).  Python values are modelled as follows.

    - [str] is a Rocq [string] holding the UTF-8 encoding of the text; the
      literals of the source are written as they are.  Operations that count
      characters ([s[:50]]) work on whole code points.
    - [float] is an IEEE-754 binary64 value ([spec_float] with precision 53
      and maximal exponent 1024), [int] is [Z].
    - a [dict] is an association list in insertion order without repeated
      keys; [d[k] = v] overwrites in place or appends.
    - an exception is a value [exn] (an instance of [Exception]); code that
      may raise returns a [result], and the state reached before the
      exception is kept.
    - the browser, the HTTP transport, the clock and the file system are the
      environment: the k-th call of each kind is answered by a stream of the
      record [Env], and every call is recorded in a trace of events.  The
      module is deterministic, so every run against a world that answers by
      the requests and the history is a run against such streams.
      Creating and closing the HTTP client are events that do not fail.
    - functions of the Python runtime that the module only calls
      ([round], [str] of a non-string, [json.dumps] of a string or a float,
      [hashlib.sha256]) and [config.parse_cookies] are fields of the record
      [PyRuntime].
    - the browser-driven login [_login_agentrouter] is one call to the
      environment.
    Diagnostic [print] calls are left out, except the ones recorded as events
    ([EvProcessing], [EvChange], [EvSummary]).  The properties of a run hold
    for every initial object; [__init__] and the loaders of the two state
    files come in the second part, and so do the two browser scripts call
    by call (module [Browser]), with the proof that the browser session of
    this part covers them. *)

From Stdlib Require Import ZArith List String Ascii Bool Lia SpecFloat OrdersEx.
From stdpp Require Import base tactics list sorting.

Local Open Scope Z_scope.
Local Open Scope string_scope.

(** ** Strings *)

Module PyStr.

(** [a + b] on [str]. *)
Definition cat (a b : string) : string := String.append a b.

(** A continuation byte of a UTF-8 sequence ([10xxxxxx]). *)
Definition is_cont (c : ascii) : bool :=
  let n := N_of_ascii c in (128 <=? n)%N && (n <? 192)%N.


(** [s[:n]]: the first [n] code points. *)
Fixpoint take_chars (n : nat) (s : string) : string :=
  match s with
  | EmptyString => EmptyString
  | String c rest =>
      if is_cont c then String c (take_chars n rest)
      else match n with
           | O => EmptyString
           | S n' => String c (take_chars n' rest)
           end
  end.

(** [s.lower()] on the ASCII letters; other characters are kept, which is
    all the search for an ASCII word in the lowered text depends on. *)
Definition lower_ascii (c : ascii) : ascii :=
  let n := N_of_ascii c in
  if (65 <=? n)%N && (n <=? 90)%N then ascii_of_N (n + 32) else c.

Fixpoint lower (s : string) : string :=
  match s with
  | EmptyString => EmptyString
  | String c rest => String (lower_ascii c) (lower rest)
  end.

(** [needle in hay]. *)
Fixpoint contains (needle hay : string) : bool :=
  String.prefix needle hay ||
  match hay with
  | EmptyString => false
  | String _ rest => contains needle rest
  end.

(** [str(n)] of an [int]. *)
Fixpoint uint_digits (d : Decimal.uint) : string :=
  match d with
  | Decimal.Nil => EmptyString
  | Decimal.D0 d => String "0" (uint_digits d)
  | Decimal.D1 d => String "1" (uint_digits d)
  | Decimal.D2 d => String "2" (uint_digits d)
  | Decimal.D3 d => String "3" (uint_digits d)
  | Decimal.D4 d => String "4" (uint_digits d)
  | Decimal.D5 d => String "5" (uint_digits d)
  | Decimal.D6 d => String "6" (uint_digits d)
  | Decimal.D7 d => String "7" (uint_digits d)
  | Decimal.D8 d => String "8" (uint_digits d)
  | Decimal.D9 d => String "9" (uint_digits d)
  end.

Definition of_int (z : Z) : string :=
  match Z.to_int z with
  | Decimal.Pos d => uint_digits d
  | Decimal.Neg d => String "-" (uint_digits d)
  end.

(** [a <= b] on [str]: lexicographic by code point, which on UTF-8 text is
    the lexicographic order of the bytes. *)
Definition leb (a b : string) : bool :=
  match String_as_OT.compare a b with
  | Gt => false
  | _ => true
  end.

End PyStr.

Notation "a +s b" := (PyStr.cat a b) (at level 60, right associativity).

(** ** Numbers *)

Definition float := spec_float.

Module PyFloat.

Definition prec : Z := 53.
Definition emax : Z := 1024.

Definition zero : float := S754_zero false.
Definition one : float := SFone prec emax.

Definition add (x y : float) : float := SFadd prec emax x y.
Definition sub (x y : float) : float := SFsub prec emax x y.
Definition eqb (x y : float) : bool := SFeqb x y.
Definition ltb (x y : float) : bool := SFltb x y.

(** [x != 0], [x > 0], [x < 0]. *)
Definition nonzero (x : float) : bool := negb (eqb x zero).
Definition positive (x : float) : bool := ltb zero x.
Definition negative (x : float) : bool := ltb x zero.

Definition is_finite (x : float) : bool :=
  match x with
  | S754_zero _ | S754_finite _ _ _ => true
  | _ => false
  end.

(** [float(n)], used for the integer literals the module compares with. *)
Definition of_int (n : Z) : float :=
  match n with
  | Z0 => zero
  | Zpos p => binary_normalize prec emax (Zpos p) 0 false
  | Zneg p => binary_normalize prec emax (Zneg p) 0 false
  end.

End PyFloat.

(** ** Exceptions *)

(** An exception [e] with [str(e)]; [exn_http_status] is [Some c] when [e] is
    an [httpx.HTTPStatusError] whose [e.response.status_code] is [c]. *)
Record exn := Exn { exn_text : string; exn_http_status : option Z }.

Inductive result (A : Type) : Type :=
| Ok (a : A)
| Raise (e : exn).
Arguments Ok {A} a.
Arguments Raise {A} e.

(** ** Dictionaries *)

Definition dict (V : Type) : Type := list (string * V).

Section Dict.
Context {V : Type}.

(** [d.get(k)] *)
Fixpoint dict_get (k : string) (d : dict V) : option V :=
  match d with
  | [] => None
  | (k', v) :: rest => if String.eqb k k' then Some v else dict_get k rest
  end.

(** [k in d] *)
Definition dict_mem (k : string) (d : dict V) : bool :=
  match dict_get k d with Some _ => true | None => false end.

(** [d[k] = v] *)
Fixpoint dict_set (k : string) (v : V) (d : dict V) : dict V :=
  match d with
  | [] => [(k, v)]
  | (k', v') :: rest =>
      if String.eqb k k' then (k, v) :: rest else (k', v') :: dict_set k v rest
  end.

(** [{**d1, **d2}] *)
Definition dict_merge (d1 d2 : dict V) : dict V :=
  fold_left (fun acc kv => dict_set (fst kv) (snd kv) acc) d2 d1.

(** [bool(d)] *)
Definition dict_nonempty (d : dict V) : bool :=
  match d with [] => false | _ => true end.

Definition dict_keys (d : dict V) : list string := map fst d.
End Dict.

(** ** JSON values as Python objects *)

#[warnings="-register-all"]
Inductive JValue : Type :=
| JNull
| JBool (b : bool)
| JInt (z : Z)
| JFloat (f : float)
| JStr (s : string)
| JList (l : list JValue)
| JDict (d : list (string * JValue)).

Module Py.

(** [bool(v)] *)
Definition truthy (v : JValue) : bool :=
  match v with
  | JNull => false
  | JBool b => b
  | JInt z => negb (z =? 0)%Z
  | JFloat f => PyFloat.nonzero f
  | JStr s => negb (String.eqb s EmptyString)
  | JList l => match l with [] => false | _ => true end
  | JDict d => dict_nonempty d
  end.

(** [v == n] for an [int] literal [n]; [True == 1] and [1.0 == 1] hold. *)
Definition eq_int (v : JValue) (n : Z) : bool :=
  match v with
  | JBool b => ((if b then 1 else 0) =? n)%Z
  | JInt z => (z =? n)%Z
  | JFloat f => PyFloat.eqb f (PyFloat.of_int n)
  | _ => false
  end.

(** [type(v).__name__] *)
Definition type_name (v : JValue) : string :=
  match v with
  | JNull => "NoneType"
  | JBool _ => "bool"
  | JInt _ => "int"
  | JFloat _ => "float"
  | JStr _ => "str"
  | JList _ => "list"
  | JDict _ => "dict"
  end.

Definition attribute_error (v : JValue) (attr : string) : exn :=
  Exn ("'" +s type_name v +s "' object has no attribute '" +s attr +s "'") None.

(** [v.get(k)]: [None] for a missing key, [AttributeError] when [v] is not
    a [dict]. *)
Definition get (v : JValue) (k : string) : result JValue :=
  match v with
  | JDict d => Ok (match dict_get k d with Some x => x | None => JNull end)
  | _ => Raise (attribute_error v "get")
  end.

(** [v.get(k, default)] *)
Definition get_default (v : JValue) (k : string) (default : JValue)
  : result JValue :=
  match v with
  | JDict d => Ok (match dict_get k d with Some x => x | None => default end)
  | _ => Raise (attribute_error v "get")
  end.

End Py.

(** ** Data of the module *)

(** [{'quota': quota, 'used': used}] *)
Record Balance := { quota : float; used : float }.

(** An entry of [balance_data.json] as [json.load] returns it; the module
    reads it with [.get('quota', 0)] and [.get('used', 0)]. *)
Record StoredBalance := { stored_quota : option float; stored_used : option float }.

Definition stored_of_balance (b : Balance) : StoredBalance :=
  {| stored_quota := Some (quota b); stored_used := Some (used b) |}.

Definition Cookies : Type := dict string.

(** An entry of the account lists; a field is [None] when the key is absent. *)
Record Account := {
  acc_name : option string;
  acc_cookies : option JValue;
  acc_api_user : option string;
  acc_email : option string;
  acc_password : option string
}.

(** An [httpx.Response]: [status_code], [text] and what [json()] gives. *)
Record Response := {
  status_code : Z;
  text : string;
  json : result JValue
}.

(** A cookie of the browser context, read with [cookie.get(...)]. *)
Record BrowserCookie := {
  cookie_name : option string;
  cookie_value : option string
}.

(** One browser session of [_get_waf_cookies]: the launch fails (outside the
    [try]), the navigation or the cookie read fails (inside it), or the
    cookies of the context are read. *)
Inductive BrowseResult : Type :=
| BrLaunchError (e : exn)
| BrPageError (e : exn)
| BrCookies (cs : list BrowserCookie).

(** The dictionary [_login_agentrouter] returns. *)
Record LoginResult := { login_cookies : Cookies; login_api_user : string }.

(** The dictionary [_make_result] builds; [o_balance] is [None] when the key
    ['balance'] is not set. *)
Record Outcome := {
  o_platform : string;
  o_name : string;
  o_success : bool;
  o_message : string;
  o_timestamp : string;
  o_balance : option Balance
}.

(** The lines of a balance change notice. *)
Inductive change_line : Type :=
| LineRecharge (total_recharge last_total current_total : float)
| LineTotalDown (total_recharge last_total current_total : float)
| LineSpent (used_change last_used current_used : float)
| LineUsedDown (used_change last_used current_used : float)
| LineQuotaUp (quota_change last_quota current_quota : float)
| LineQuotaDown (quota_change last_quota current_quota : float)
| LineQuotaSame (current_quota : float).

(** What the run does to the outside, in order. *)
Inductive event : Type :=
| EvProcessing (platform name : string)
| EvBrowse (url : string) (timeout : Z)
| EvLogin (email password : string)
| EvClientOpen
| EvGet (url : string) (cookies : Cookies) (api_user : string)
| EvPost (url : string) (cookies : Cookies) (api_user : string)
| EvClientClose
| EvSleep (seconds : Z)
| EvChange (account_key : string) (lines : list change_line)
| EvSummary (platform : string) (count success_count failed_count : nat)
            (totals : option (float * float))
| EvWriteHash (balance_hash : string)
| EvWriteData (balances : dict Balance).

(** ** The Python runtime and the outside world *)

(** Functions the module calls and does not define. *)
Record PyRuntime := {
  (** [round(v / 500000, 2)]; raises when [v] is not a number *)
  round_div : JValue -> result float;
  (** [str(v)] for a [v] that is not a [str] *)
  str_other : JValue -> string;
  (** [json.dumps(s)] of a [str] and [json.dumps(x)] of a [float] *)
  json_dumps_str : string -> string;
  json_dumps_float : float -> string;
  (** [hashlib.sha256(s.encode()).hexdigest()] *)
  sha256_hexdigest : string -> string;
  (** [config.parse_cookies] *)
  parse_cookies : JValue -> result Cookies
}.

(** The answers of the outside world: the k-th browser session, login, GET,
    POST, file write and clock read of a run. *)
Record Env := {
  env_browse : nat -> BrowseResult;
  env_login : nat -> result (option LoginResult);
  env_get : nat -> result Response;
  env_post : nat -> result Response;
  env_write : nat -> result unit;
  env_now : nat -> string
}.

(** The fields of a [RouterCheckin] object. *)
Record RouterCheckin := {
  last_balance_hash : option string;
  last_balance_data : dict StoredBalance;
  current_balances : dict Balance;
  balance_changed : bool
}.

(** The world: what has happened so far, how many calls of each kind were
    made, and the two state files ([None]: the file does not exist). *)
Record World := {
  trace : list event;
  browses : nat;
  logins : nat;
  gets : nat;
  posts : nat;
  writes : nat;
  clock_reads : nat;
  hash_file : option string;
  data_file : option (dict StoredBalance)
}.

Record State := { self : RouterCheckin; world : World }.

(** ** The monad of the module: state and exceptions *)

Definition M (A : Type) : Type := State -> result A * State.

Definition ret {A} (a : A) : M A := fun s => (Ok a, s).

Definition raise {A} (e : exn) : M A := fun s => (Raise e, s).

Definition bind {A B} (m : M A) (k : A -> M B) : M B :=
  fun s =>
    match m s with
    | (Ok a, s') => k a s'
    | (Raise e, s') => (Raise e, s')
    end.

Notation "x <- m ;; k" := (bind m (fun x => k))
  (at level 100, m at next level, right associativity,
   format "x  <-  m  ;;  '/' k").
Notation "m ;;; k" := (bind m (fun _ => k))
  (at level 100, right associativity, format "m  ;;;  '/' k").

(** A pure computation that may raise. *)
Definition lift {A} (r : result A) : M A := fun s => (r, s).

(** [try: m  except <class> as e: h e], where [catches e] tells whether the
    class of [e] matches. *)
Definition try_except {A} (catches : exn -> bool) (m : M A) (h : exn -> M A)
  : M A :=
  fun s =>
    match m s with
    | (Ok a, s') => (Ok a, s')
    | (Raise e, s') => if catches e then h e s' else (Raise e, s')
    end.

(** [except Exception] *)
Definition is_Exception (e : exn) : bool := true.

(** [except httpx.HTTPStatusError] *)
Definition is_HTTPStatusError (e : exn) : bool :=
  match exn_http_status e with Some _ => true | None => false end.

(** [try: m  finally: fin] *)
Definition try_finally {A} (m : M A) (fin : M unit) : M A :=
  fun s =>
    match m s with
    | (r, s') =>
        match fin s' with
        | (Ok _, s'') => (r, s'')
        | (Raise e, s'') => (Raise e, s'')
        end
    end.

Definition update_world (f : World -> World) : M unit :=
  fun s => (Ok tt, {| self := self s; world := f (world s) |}).

Definition update_self (f : RouterCheckin -> RouterCheckin) : M unit :=
  fun s => (Ok tt, {| self := f (self s); world := world s |}).

Definition get_self : M RouterCheckin := fun s => (Ok (self s), s).
Definition get_world : M World := fun s => (Ok (world s), s).

Definition push (ev : event) (w : World) : World :=
  {| trace := trace w ++ [ev]; browses := browses w; logins := logins w;
     gets := gets w; posts := posts w; writes := writes w;
     clock_reads := clock_reads w;
     hash_file := hash_file w; data_file := data_file w |}.

(** Record an event. *)
Definition emit (ev : event) : M unit := update_world (push ev).

(** ** Constants of the module *)

Definition WAF_COOKIE_NAMES : list string := ["acw_tc"; "cdn_sec_tc"; "acw_sc__v2"].

Definition ANYROUTER_LOGIN_URL : string := "https://anyrouter.top/login".
Definition ANYROUTER_SELF_URL : string := "https://anyrouter.top/api/user/self".
Definition ANYROUTER_SIGN_IN_URL : string := "https://anyrouter.top/api/user/sign_in".
Definition AGENTROUTER_WAF_URLS : list string :=
  ["https://agentrouter.org"; "https://agentrouter.org/console"].
Definition AGENTROUTER_SELF_URL : string := "https://agentrouter.org/api/user/self".
Definition AGENTROUTER_SIGN_IN_URL : string := "https://agentrouter.org/api/user/sign_in".

Definition MSG_CHECKIN_OK : string := "签到成功".
Definition MSG_KEEPALIVE_OK : string := "保活成功（无签到接口）".
Definition MSG_KEEPALIVE_FAILED : string := "保活失败: 无法获取用户信息".
Definition MSG_BAD_FORMAT : string := "签到失败: 响应格式错误".
Definition MSG_UNKNOWN_ERROR : string := "未知错误".
Definition MSG_NO_API_USER : string := "API User ID 未配置".
Definition MSG_BAD_COOKIES : string := "Cookies 格式错误".
Definition MSG_NO_WAF : string := "无法获取 WAF cookies".
Definition MSG_LOGIN_FAILED : string := "账号密码登录失败".

Section Program.

Variable rt : PyRuntime.
Variable env : Env.

(** *** Calls to the outside *)

Definition browse (url : string) (timeout : Z) : M BrowseResult :=
  fun s =>
    let w := world s in
    (Ok (env_browse env (browses w)),
     {| self := self s;
        world := {| trace := trace w ++ [EvBrowse url timeout];
                    browses := S (browses w); logins := logins w;
                    gets := gets w; posts := posts w; writes := writes w;
                    clock_reads := clock_reads w;
                    hash_file := hash_file w; data_file := data_file w |} |}).

Definition client_get (url : string) (cookies : Cookies) (api_user : string)
  : M Response :=
  fun s =>
    let w := world s in
    (env_get env (gets w),
     {| self := self s;
        world := {| trace := trace w ++ [EvGet url cookies api_user];
                    browses := browses w; logins := logins w;
                    gets := S (gets w); posts := posts w; writes := writes w;
                    clock_reads := clock_reads w;
                    hash_file := hash_file w; data_file := data_file w |} |}).

Definition client_post (url : string) (cookies : Cookies) (api_user : string)
  : M Response :=
  fun s =>
    let w := world s in
    (env_post env (posts w),
     {| self := self s;
        world := {| trace := trace w ++ [EvPost url cookies api_user];
                    browses := browses w; logins := logins w;
                    gets := gets w; posts := S (posts w); writes := writes w;
                    clock_reads := clock_reads w;
                    hash_file := hash_file w; data_file := data_file w |} |}).

(** [datetime.now().isoformat()] *)
Definition now_isoformat : M string :=
  fun s =>
    let w := world s in
    (Ok (env_now env (clock_reads w)),
     {| self := self s;
        world := {| trace := trace w;
                    browses := browses w; logins := logins w;
                    gets := gets w; posts := posts w; writes := writes w;
                    clock_reads := S (clock_reads w);
                    hash_file := hash_file w; data_file := data_file w |} |}).

(** [with open(path, 'w') as f: ...]: the event is the attempt; [store]
    changes the file when the write goes through. *)
Definition write_file (ev : event) (store : World -> World) : M unit :=
  fun s =>
    let w := world s in
    let w1 := {| trace := trace w ++ [ev];
                 browses := browses w; logins := logins w;
                 gets := gets w; posts := posts w; writes := S (writes w);
                 clock_reads := clock_reads w;
                 hash_file := hash_file w; data_file := data_file w |} in
    match env_write env (writes w) with
    | Ok _ => (Ok tt, {| self := self s; world := store w1 |})
    | Raise e => (Raise e, {| self := self s; world := w1 |})
    end.

(** [asyncio.sleep(seconds)] *)
Definition sleep (seconds : Z) : M unit := emit (EvSleep seconds).

(** *** [_make_result] *)

Definition _make_result (platform name : string) (success : bool)
  (message : string) (balance : option Balance) : M Outcome :=
  timestamp <- now_isoformat ;;
  ret {| o_platform := platform; o_name := name; o_success := success;
         o_message := message; o_timestamp := timestamp;
         o_balance := balance |}.

(** *** [_get_waf_cookies] *)

Definition keep_waf_cookie (waf_cookies : Cookies) (cookie : BrowserCookie)
  : Cookies :=
  match cookie_name cookie, cookie_value cookie with
  | Some name, Some value =>
      if existsb (String.eqb name) WAF_COOKIE_NAMES
         && negb (String.eqb value EmptyString)
      then dict_set name value waf_cookies
      else waf_cookies
  | _, _ => waf_cookies
  end.

Definition _get_waf_cookies (account_name url : string) (timeout : Z)
  : M (option Cookies) :=
  r <- browse url timeout ;;
  match r with
  | BrLaunchError e => raise e
  | BrPageError e => ret None
  | BrCookies cookies =>
      let waf_cookies := fold_left keep_waf_cookie cookies [] in
      ret (if dict_nonempty waf_cookies then Some waf_cookies else None)
  end.

(** [bool(cookies)] for the value [_get_waf_cookies] returns. *)
Definition cookies_truthy (cookies : option Cookies) : bool :=
  match cookies with
  | Some c => dict_nonempty c
  | None => false
  end.

(** *** [_get_waf_cookies_with_fallback] *)

Fixpoint _get_waf_cookies_with_fallback (account_name : string)
  (urls : list string) : M (option Cookies) :=
  match urls with
  | [] => ret None
  | url :: rest =>
      cookies <- _get_waf_cookies account_name url 20000 ;;
      if cookies_truthy cookies then ret cookies
      else _get_waf_cookies_with_fallback account_name rest
  end.

(** *** [_login_agentrouter]: the browser-driven login is one call to the
    outside, which answers with the dictionary or [None], or raises. *)

Definition _login_agentrouter (email password : string)
  : M (option LoginResult) :=
  fun s =>
    let w := world s in
    (env_login env (logins w),
     {| self := self s;
        world := {| trace := trace w ++ [EvLogin email password];
                    browses := browses w; logins := S (logins w);
                    gets := gets w; posts := posts w; writes := writes w;
                    clock_reads := clock_reads w;
                    hash_file := hash_file w; data_file := data_file w |} |}).

(** *** The two check-in requests *)

(** [str(v)] inside an f-string. *)
Definition py_str (v : JValue) : string :=
  match v with
  | JStr s => s
  | _ => str_other rt v
  end.

(** Step 1 of both [_do_anyrouter_checkin] and [_do_agentrouter_checkin]:
    the inner [try] around the GET of the user's own record.  The two
    functions differ in the address only. *)
Definition fetch_balance (self_url : string) (cookies : Cookies)
  (api_user : string) : M (option Balance) :=
  try_except is_Exception
    (user_response <- client_get self_url cookies api_user ;;
     if (status_code user_response =? 200)%Z then
       user_data <- lift (json user_response) ;;
       success <- lift (Py.get user_data "success") ;;
       if Py.truthy success then
         data <- lift (Py.get_default user_data "data" (JDict [])) ;;
         raw_quota <- lift (Py.get_default data "quota" (JInt 0)) ;;
         quota <- lift (round_div rt raw_quota) ;;
         raw_used <- lift (Py.get_default data "used_quota" (JInt 0)) ;;
         used <- lift (round_div rt raw_used) ;;
         ret (Some {| quota := quota; used := used |})
       else ret None
     else ret None)
    (fun e => ret None).

(** [result.get('ret') == 1 or result.get('code') == 0 or result.get('success')] *)
Definition sign_in_accepted (result : JValue) : M bool :=
  ret_field <- lift (Py.get result "ret") ;;
  if Py.eq_int ret_field 1 then ret true
  else
    code_field <- lift (Py.get result "code") ;;
    if Py.eq_int code_field 0 then ret true
    else
      success_field <- lift (Py.get result "success") ;;
      ret (Py.truthy success_field).

(** [result.get('msg', result.get('message', '未知错误'))] *)
Definition failure_detail (result : JValue) : M JValue :=
  fallback <- lift (Py.get_default result "message" (JStr MSG_UNKNOWN_ERROR)) ;;
  lift (Py.get_default result "msg" fallback).

Definition _do_anyrouter_checkin (account_name : string) (cookies : Cookies)
  (api_user : string) : M (bool * string * option Balance) :=
  emit EvClientOpen ;;;
  try_finally
    (try_except is_Exception
       (balance <- fetch_balance ANYROUTER_SELF_URL cookies api_user ;;
        response <- client_post ANYROUTER_SIGN_IN_URL cookies api_user ;;
        if (status_code response =? 200)%Z then
          try_except is_Exception
            (result <- lift (json response) ;;
             accepted <- sign_in_accepted result ;;
             if accepted then ret (true, MSG_CHECKIN_OK, balance)
             else
               msg <- failure_detail result ;;
               ret (false, "签到失败: " +s py_str msg, balance))
            (fun _ =>
               if PyStr.contains "success" (PyStr.lower (text response))
               then ret (true, MSG_CHECKIN_OK, balance)
               else ret (false, MSG_BAD_FORMAT, balance))
        else
          ret (false, "签到失败: HTTP " +s PyStr.of_int (status_code response),
               balance))
       (fun e =>
          ret (false, "请求异常: " +s PyStr.take_chars 50 (exn_text e), None)))
    (emit EvClientClose).

Definition _do_agentrouter_checkin (account_name : string) (cookies : Cookies)
  (api_user : string) : M (bool * string * option Balance) :=
  emit EvClientOpen ;;;
  try_finally
    (try_except is_Exception
       (balance <- fetch_balance AGENTROUTER_SELF_URL cookies api_user ;;
        try_except is_HTTPStatusError
          (response <- client_post AGENTROUTER_SIGN_IN_URL cookies api_user ;;
           if (status_code response =? 200)%Z then
             result <- lift (json response) ;;
             accepted <- sign_in_accepted result ;;
             if accepted then ret (true, MSG_CHECKIN_OK, balance)
             else
               msg <- failure_detail result ;;
               ret (false, "签到失败: " +s py_str msg, balance)
           else if (status_code response =? 404)%Z then
             match balance with
             | Some _ => ret (true, MSG_KEEPALIVE_OK, balance)
             | None => ret (false, MSG_KEEPALIVE_FAILED, None)
             end
           else
             ret (false, "签到失败: HTTP " +s PyStr.of_int (status_code response),
                  balance))
          (fun e =>
             match exn_http_status e, balance with
             | Some 404%Z, Some _ => ret (true, MSG_KEEPALIVE_OK, balance)
             | _, _ => ret (false, "请求失败: " +s exn_text e, balance)
             end))
       (fun e =>
          ret (false, "请求异常: " +s PyStr.take_chars 50 (exn_text e), None)))
    (emit EvClientClose).

(** *** The ledger *)

Definition set_current_balance (account_key : string) (balance : Balance)
  : M unit :=
  update_self (fun r =>
    {| last_balance_hash := last_balance_hash r;
       last_balance_data := last_balance_data r;
       current_balances := dict_set account_key balance (current_balances r);
       balance_changed := balance_changed r |}).

(** [d.get(key, 0)] on a stored entry; the [int] default [0] acts in the
    sums and differences below as the [float] [0.0]. *)
Definition stored_or_zero (x : option float) : float :=
  match x with Some v => v | None => PyFloat.zero end.

Definition change_lines (last_quota last_used current_quota current_used : float)
  : list change_line :=
  let last_total := PyFloat.add last_quota last_used in
  let current_total := PyFloat.add current_quota current_used in
  let total_recharge := PyFloat.sub current_total last_total in
  let used_change := PyFloat.sub current_used last_used in
  let quota_change := PyFloat.sub current_quota last_quota in
  (if PyFloat.positive total_recharge
   then [LineRecharge total_recharge last_total current_total]
   else if PyFloat.negative total_recharge
   then [LineTotalDown total_recharge last_total current_total]
   else []) ++
  (if PyFloat.positive used_change
   then [LineSpent used_change last_used current_used]
   else if PyFloat.negative used_change
   then [LineUsedDown used_change last_used current_used]
   else []) ++
  (if PyFloat.positive quota_change
   then [LineQuotaUp quota_change last_quota current_quota]
   else if PyFloat.negative quota_change
   then [LineQuotaDown quota_change last_quota current_quota]
   else [LineQuotaSame current_quota]).

Definition _show_balance_change (account_key : string)
  (current_balance : Balance) : M unit :=
  r <- get_self ;;
  match dict_get account_key (last_balance_data r) with
  | None => ret tt
  | Some last_balance =>
      let last_quota := stored_or_zero (stored_quota last_balance) in
      let last_used := stored_or_zero (stored_used last_balance) in
      let current_quota := quota current_balance in
      let current_used := used current_balance in
      let last_total := PyFloat.add last_quota last_used in
      let current_total := PyFloat.add current_quota current_used in
      let total_recharge := PyFloat.sub current_total last_total in
      let used_change := PyFloat.sub current_used last_used in
      if PyFloat.nonzero total_recharge || PyFloat.nonzero used_change then
        emit (EvChange account_key
                (change_lines last_quota last_used current_quota current_used))
      else ret tt
  end.

(** *** [_generate_balance_hash] *)

(** The order of two items of a dictionary when [json.dumps] sorts them. *)
Definition item_le {V : Type} (p q : string * V) : Prop :=
  Is_true (PyStr.leb (fst p) (fst q)).

#[global] Instance item_le_dec {V : Type} : RelDecision (@item_le V).
Proof. intros p q. unfold item_le. apply _. Defined.

Fixpoint join (sep : string) (parts : list string) : string :=
  match parts with
  | [] => EmptyString
  | [x] => x
  | x :: rest => x +s sep +s join sep rest
  end.

(** [json.dumps(d, sort_keys=True)] of a dictionary of floats. *)
Definition json_dumps_sorted (d : dict float) : string :=
  "{" +s
  join ", "
    (map (fun kv => json_dumps_str rt (fst kv) +s ": " +s json_dumps_float rt (snd kv))
         (merge_sort item_le d)) +s
  "}".

(** [{k: v['quota'] for k, v in balances.items()}] *)
Definition simple_balances (balances : dict Balance) : dict float :=
  map (fun kv => (fst kv, quota (snd kv))) balances.

Definition _generate_balance_hash (balances : dict Balance) : string :=
  let balance_json := json_dumps_sorted (simple_balances balances) in
  PyStr.take_chars 16 (sha256_hexdigest rt balance_json).

(** *** Saving the ledger *)

Definition store_hash (balance_hash : string) (w : World) : World :=
  {| trace := trace w; browses := browses w; logins := logins w;
     gets := gets w; posts := posts w; writes := writes w;
     clock_reads := clock_reads w;
     hash_file := Some balance_hash; data_file := data_file w |}.

Definition store_data (balances : dict Balance) (w : World) : World :=
  {| trace := trace w; browses := browses w; logins := logins w;
     gets := gets w; posts := posts w; writes := writes w;
     clock_reads := clock_reads w;
     hash_file := hash_file w;
     data_file := Some (map (fun kv => (fst kv, stored_of_balance (snd kv)))
                            balances) |}.

Definition _save_balance_hash (balance_hash : string) : M unit :=
  try_except is_Exception
    (write_file (EvWriteHash balance_hash) (store_hash balance_hash))
    (fun e => ret tt).

Definition _save_balance_data : M unit :=
  r <- get_self ;;
  try_except is_Exception
    (write_file (EvWriteData (current_balances r))
                (store_data (current_balances r)))
    (fun e => ret tt).

(** *** [_check_balance_change] *)

Definition set_balance_changed (b : bool) : M unit :=
  update_self (fun r =>
    {| last_balance_hash := last_balance_hash r;
       last_balance_data := last_balance_data r;
       current_balances := current_balances r;
       balance_changed := b |}).

Definition _check_balance_change : M unit :=
  r <- get_self ;;
  if negb (dict_nonempty (current_balances r)) then ret tt
  else
    let current_hash := _generate_balance_hash (current_balances r) in
    (match last_balance_hash r with
     | None => set_balance_changed true
     | Some last_hash =>
         if negb (String.eqb current_hash last_hash)
         then set_balance_changed true
         else set_balance_changed false
     end) ;;;
    _save_balance_hash current_hash ;;;
    _save_balance_data.

Definition has_balance_changed : M bool :=
  r <- get_self ;; ret (balance_changed r).

(** *** [_print_platform_summary] *)

(** The loop over the results; [total_quota] and [total_used] start at the
    [int] [0], which the first addition turns into [0.0]. *)
Definition sum_balances (platform_results : list Outcome)
  : bool * float * float :=
  fold_left
    (fun acc result =>
       match o_balance result with
       | Some balance =>
           (true, PyFloat.add (snd (fst acc)) (quota balance),
            PyFloat.add (snd acc) (used balance))
       | None => acc
       end)
    platform_results (false, PyFloat.zero, PyFloat.zero).

Definition _print_platform_summary (platform_name : string)
  (platform_results : list Outcome) : M unit :=
  let success_count := length (List.filter o_success platform_results) in
  let failed_count := (length platform_results - success_count)%nat in
  let '(has_balance, total_quota, total_used) := sum_balances platform_results in
  emit (EvSummary platform_name (length platform_results) success_count
          failed_count
          (if has_balance then Some (total_quota, total_used) else None)).

(** *** [checkin_anyrouter] and [checkin_agentrouter] *)

Definition or_default {A : Type} (x : option A) (default : A) : A :=
  match x with Some v => v | None => default end.

(** The part both functions share after the check-in request: record the
    balance, show its change, build the result. *)
Definition record_and_report (platform key_prefix account_name : string)
  (answer : bool * string * option Balance) : M Outcome :=
  let '(success, message, balance) := answer in
  (match balance with
   | Some b =>
       let account_key := key_prefix +s account_name in
       set_current_balance account_key b ;;;
       _show_balance_change account_key b
   | None => ret tt
   end) ;;;
  _make_result platform account_name success message balance.

Definition checkin_error (platform account_name : string) (e : exn)
  : M Outcome :=
  let error_msg := "签到异常: " +s PyStr.take_chars 50 (exn_text e) in
  _make_result platform account_name false error_msg None.

(** [account.get('name', f'AnyRouter账号{index+1}')] *)
Definition anyrouter_name (account : Account) (index : nat) : string :=
  or_default (acc_name account)
    ("AnyRouter账号" +s PyStr.of_int (Z.of_nat index + 1)).

(** The [try] block of [checkin_anyrouter]. *)
Definition anyrouter_pipeline (platform account_name : string)
  (account : Account) : M Outcome :=
  let cookies_data := or_default (acc_cookies account) (JDict []) in
  let api_user := or_default (acc_api_user account) EmptyString in
  if String.eqb api_user EmptyString then
    _make_result platform account_name false MSG_NO_API_USER None
  else
    user_cookies <- lift (parse_cookies rt cookies_data) ;;
    if negb (dict_nonempty user_cookies) then
      _make_result platform account_name false MSG_BAD_COOKIES None
    else
      waf_cookies <- _get_waf_cookies account_name ANYROUTER_LOGIN_URL 30000 ;;
      match waf_cookies with
      | Some waf =>
          if dict_nonempty waf then
            let all_cookies := dict_merge waf user_cookies in
            answer <- _do_anyrouter_checkin account_name all_cookies api_user ;;
            record_and_report platform "anyrouter_" account_name answer
          else _make_result platform account_name false MSG_NO_WAF None
      | None => _make_result platform account_name false MSG_NO_WAF None
      end.

Definition checkin_anyrouter (account : Account) (index : nat) : M Outcome :=
  let platform := "AnyRouter" in
  let account_name := anyrouter_name account index in
  emit (EvProcessing platform account_name) ;;;
  try_except is_Exception
    (anyrouter_pipeline platform account_name account)
    (checkin_error platform account_name).

(** The first half of [checkin_agentrouter]: either an early [return] with a
    result, or the cookies and the user id to check in with. *)
Definition agentrouter_session (platform account_name : string)
  (account : Account) : M (Outcome + Cookies * string) :=
  let email := or_default (acc_email account) EmptyString in
  let password := or_default (acc_password account) EmptyString in
  if negb (String.eqb email EmptyString)
     && negb (String.eqb password EmptyString) then
    login_result <- _login_agentrouter email password ;;
    match login_result with
    | None =>
        o <- _make_result platform account_name false MSG_LOGIN_FAILED None ;;
        ret (inl o)
    | Some l => ret (inr (login_cookies l, login_api_user l))
    end
  else
    let cookies_data := or_default (acc_cookies account) (JDict []) in
    let api_user := or_default (acc_api_user account) EmptyString in
    if String.eqb api_user EmptyString then
      o <- _make_result platform account_name false MSG_NO_API_USER None ;;
      ret (inl o)
    else
      user_cookies <- lift (parse_cookies rt cookies_data) ;;
      if negb (dict_nonempty user_cookies) then
        o <- _make_result platform account_name false MSG_BAD_COOKIES None ;;
        ret (inl o)
      else
        waf_cookies <- _get_waf_cookies_with_fallback account_name
                         AGENTROUTER_WAF_URLS ;;
        match waf_cookies with
        | Some waf =>
            if dict_nonempty waf
            then ret (inr (dict_merge waf user_cookies, api_user))
            else ret (inr (user_cookies, api_user))
        | None => ret (inr (user_cookies, api_user))
        end.

(** [account.get('name', f'AgentRouter账号{index+1}')] *)
Definition agentrouter_name (account : Account) (index : nat) : string :=
  or_default (acc_name account)
    ("AgentRouter账号" +s PyStr.of_int (Z.of_nat index + 1)).

(** The [try] block of [checkin_agentrouter]. *)
Definition agentrouter_pipeline (platform account_name : string)
  (account : Account) : M Outcome :=
  session <- agentrouter_session platform account_name account ;;
  match session with
  | inl early => ret early
  | inr (all_cookies, api_user) =>
      answer <- _do_agentrouter_checkin account_name all_cookies api_user ;;
      record_and_report platform "agentrouter_" account_name answer
  end.

Definition checkin_agentrouter (account : Account) (index : nat) : M Outcome :=
  let platform := "AgentRouter" in
  let account_name := agentrouter_name account index in
  emit (EvProcessing platform account_name) ;;;
  try_except is_Exception
    (agentrouter_pipeline platform account_name account)
    (checkin_error platform account_name).

(** *** [run_all] *)

(** [for i, account in enumerate(accounts): ...] with the results appended
    in order; [index] is the position of the head of [accounts]. *)
Fixpoint checkin_loop (checkin : Account -> nat -> M Outcome) (index : nat)
  (accounts : list Account) : M (list Outcome) :=
  match accounts with
  | [] => ret []
  | account :: rest =>
      result <- checkin account index ;;
      sleep 2 ;;;
      results <- checkin_loop checkin (S index) rest ;;
      ret (result :: results)
  end.

Definition summary_if_any (platform_name : string) (results : list Outcome)
  : M unit :=
  match results with
  | [] => ret tt
  | _ => _print_platform_summary platform_name results
  end.

Definition run_all (anyrouter_accounts agentrouter_accounts : list Account)
  : M (list Outcome) :=
  anyrouter_results <- checkin_loop checkin_anyrouter 0 anyrouter_accounts ;;
  summary_if_any "AnyRouter" anyrouter_results ;;;
  agentrouter_results <- checkin_loop checkin_agentrouter 0 agentrouter_accounts ;;
  summary_if_any "AgentRouter" agentrouter_results ;;;
  _check_balance_change ;;;
  ret (anyrouter_results ++ agentrouter_results)%list.

End Program.

(** ** Reading a run *)

(** The events a run added to the trace between the states [s] and [s']. *)
Definition events_since (s s' : State) : list event :=
  skipn (length (trace (world s))) (trace (world s')).

(** The state [s] after one more event. *)
Definition after_event (ev : event) (s : State) : State :=
  {| self := self s; world := push ev (world s) |}.

(** Whether the notice is printed for the stored entry [last]. *)
Definition change_notice_due (last : StoredBalance) (current : Balance) : bool :=
  let last_quota := stored_or_zero (stored_quota last) in
  let last_used := stored_or_zero (stored_used last) in
  PyFloat.nonzero
    (PyFloat.sub (PyFloat.add (quota current) (used current))
                 (PyFloat.add last_quota last_used))
  || PyFloat.nonzero (PyFloat.sub (used current) last_used).

(** A state in which nothing has happened yet, apart from [k] GET requests. *)
Definition blank_state (k : nat) : State :=
  {| self := {| last_balance_hash := None; last_balance_data := [];
                current_balances := []; balance_changed := false |};
     world := {| trace := []; browses := 0; logins := 0; gets := k; posts := 0;
                 writes := 0; clock_reads := 0;
                 hash_file := None; data_file := None |} |}.

(** The balance step 1 of a check-in obtains when its GET is the [k]-th of
    the run. *)
Definition step1_balance (rt : PyRuntime) (env : Env) (k : nat) : option Balance :=
  match fst (fetch_balance rt env EmptyString [] EmptyString (blank_state k)) with
  | Ok balance => balance
  | Raise _ => None
  end.

(** A state in which nothing has happened yet, apart from [k] browser
    sessions. *)
Definition blank_browsing_state (k : nat) : State :=
  {| self := {| last_balance_hash := None; last_balance_data := [];
                current_balances := []; balance_changed := false |};
     world := {| trace := []; browses := k; logins := 0; gets := 0; posts := 0;
                 writes := 0; clock_reads := 0;
                 hash_file := None; data_file := None |} |}.

(** What [_get_waf_cookies] gives when its browser session is the [k]-th of
    the run. *)
Definition harvest (env : Env) (k : nat) : result (option Cookies) :=
  fst (_get_waf_cookies env EmptyString EmptyString 0 (blank_browsing_state k)).

(** The state after the four events of a check-in request: the client is
    opened, the GET and the POST are sent, the client is closed. *)
Definition after_requests (env : Env) (self_url sign_in_url : string)
  (cookies : Cookies) (api_user : string) (s : State) : State :=
  snd (emit EvClientClose
    (snd (client_post env sign_in_url cookies api_user
      (snd (client_get env self_url cookies api_user
        (snd (emit EvClientOpen s))))))).

(** The events that tell the pace of a run: the start of an account and the
    delay. *)
Definition is_pace_event (ev : event) : bool :=
  match ev with
  | EvProcessing _ _ | EvSleep _ => true
  | _ => false
  end.

Definition pace_view (evs : list event) : list event :=
  List.filter is_pace_event evs.

(** The pace of a list of accounts handled in order, a delay of two seconds
    after each of them, the last one included. *)
Fixpoint pace_of_accounts (platform : string) (label : Account -> nat -> string)
  (index : nat) (accounts : list Account) : list event :=
  match accounts with
  | [] => []
  | account :: rest =>
      EvProcessing platform (label account index) :: EvSleep 2
      :: pace_of_accounts platform label (S index) rest
  end.

(** The names of a list of accounts, in order. *)
Fixpoint labels_of_accounts (label : Account -> nat -> string) (index : nat)
  (accounts : list Account) : list string :=
  match accounts with
  | [] => []
  | account :: rest =>
      label account index :: labels_of_accounts label (S index) rest
  end.

(** The events of the balance report of [_show_balance_change] for the
    object [r]: the notice when the key was stored and the notice is due. *)
Definition delta_report (account_key : string) (current : Balance)
  (r : RouterCheckin) : list event :=
  match dict_get account_key (last_balance_data r) with
  | Some last =>
      if change_notice_due last current
      then [EvChange account_key
              (change_lines (stored_or_zero (stored_quota last))
                 (stored_or_zero (stored_used last))
                 (quota current) (used current))]
      else []
  | None => []
  end.

(** The four events of a check-in request. *)
Definition request_events (self_url sign_in_url : string) (cookies : Cookies)
  (api_user : string) : list event :=
  [EvClientOpen; EvGet self_url cookies api_user;
   EvPost sign_in_url cookies api_user; EvClientClose].

(** ** Three properties of a computation *)

(** From [s] to [s'] the trace only grew, by events that are not pace
    events. *)
Definition quiet_step (s s' : State) : Prop :=
  exists evs,
    trace (world s') = (trace (world s) ++ evs)%list /\ pace_view evs = [].

Definition quiet {A : Type} (m : M A) : Prop :=
  forall s, quiet_step s (snd (m s)).

Definition never_raises {A : Type} (m : M A) : Prop :=
  forall s, exists a, fst (m s) = Ok a.

Definition yields {A : Type} (P : A -> Prop) (m : M A) : Prop :=
  forall s a, fst (m s) = Ok a -> P a.

(** The result carries this platform and this name. *)
Definition labelled (platform name : string) (o : Outcome) : Prop :=
  o_platform o = platform /\ o_name o = name.

(** The events [evs] are the blocks of the accounts in order: for each
    account its start, its own work, which holds no pace event, and then the
    delay of two seconds. *)
Fixpoint account_blocks (platform : string) (label : Account -> nat -> string)
  (index : nat) (accounts : list Account) (evs : list event) : Prop :=
  match accounts with
  | [] => evs = []
  | account :: rest =>
      exists work more,
        evs = (EvProcessing platform (label account index) :: work
               ++ EvSleep 2 :: more)%list /\
        pace_view work = [] /\
        account_blocks platform label (S index) rest more
  end.

(** ** Sample inputs *)

Module Sample.

(** A runtime for the examples.  [round_multiple] is exact on the multiples
    of 500000, which is all the examples use; [str_simple] covers [None], the
    booleans and the integers; the two [json.dumps] functions and the digest
    are stand-ins (a quoted key, mantissa and exponent of the float, the
    first 64 characters of the text padded with zeros). *)
Definition round_multiple (v : JValue) : result float :=
  match v with
  | JInt z => Ok (PyFloat.of_int (z / 500000))
  | _ => Raise (Exn "unsupported operand type(s) for /" None)
  end.

Definition str_simple (v : JValue) : string :=
  match v with
  | JNull => "None"
  | JBool true => "True"
  | JBool false => "False"
  | JInt z => PyStr.of_int z
  | _ => "<object>"
  end.

Definition quote : string := String (ascii_of_nat 34) EmptyString.

Definition float_text (x : float) : string :=
  match x with
  | S754_zero _ => "0.0"
  | S754_finite s m e =>
      (if s then "-" else EmptyString) +s PyStr.of_int (Zpos m) +s "p"
      +s PyStr.of_int e
  | S754_infinity s => if s then "-Infinity" else "Infinity"
  | S754_nan => "NaN"
  end.

Definition digest (s : string) : string :=
  PyStr.take_chars 64
    (s +s "0000000000000000000000000000000000000000000000000000000000000000").

Definition cookies_of (v : JValue) : result Cookies :=
  match v with
  | JStr s => if String.eqb s EmptyString then Ok [] else Ok [("session", s)]
  | JDict d =>
      Ok (flat_map (fun kv => match snd kv with
                              | JStr x => [(fst kv, x)]
                              | _ => []
                              end) d)
  | JNull => Raise (Exn "cookies must be a string or a mapping" None)
  | _ => Ok []
  end.

Definition rt : PyRuntime :=
  {| round_div := round_multiple;
     str_other := str_simple;
     json_dumps_str := fun s => quote +s s +s quote;
     json_dumps_float := float_text;
     sha256_hexdigest := digest;
     parse_cookies := cookies_of |}.

(** A world that answers every call of a kind in the same way. *)
Definition env (b : BrowseResult) (get post : result Response) : Env :=
  {| env_browse := fun _ => b;
     env_login := fun _ => Ok None;
     env_get := fun _ => get;
     env_post := fun _ => post;
     env_write := fun _ => Ok tt;
     env_now := fun _ => "2024-01-01T00:00:00" |}.

Definition waf_page : BrowseResult :=
  BrCookies [ {| cookie_name := Some "acw_tc"; cookie_value := Some "t1" |};
              {| cookie_name := Some "theme"; cookie_value := Some "dark" |} ].

Definition no_waf_page : BrowseResult :=
  BrCookies [ {| cookie_name := Some "theme"; cookie_value := Some "dark" |} ].

(** [{"success": true, "data": {"quota": 5000000, "used_quota": 1000000}}] *)
Definition self_ok : Response :=
  {| status_code := 200;
     text := "{...}";
     json := Ok (JDict [("success", JBool true);
                        ("data", JDict [("quota", JInt 5000000);
                                        ("used_quota", JInt 1000000)])]) |}.

(** The balance [self_ok] gives: 10.0 and 2.0. *)
Definition balance_10_2 : Balance :=
  {| quota := PyFloat.of_int 10; used := PyFloat.of_int 2 |}.

Definition json_response (body : string) (value : JValue) : Response :=
  {| status_code := 200; text := body; json := Ok value |}.

Definition text_response (status : Z) (body : string) : Response :=
  {| status_code := status; text := body;
     json := Raise (Exn "Expecting value: line 1 column 1 (char 0)" None) |}.

Definition timeout_error : exn := Exn "The read operation timed out" None.


Definition account (name : string) : Account :=
  {| acc_name := Some name; acc_cookies := Some (JStr "s1");
     acc_api_user := Some "42"; acc_email := None; acc_password := None |}.

Definition start : State := blank_state 0.

(** A state whose previous run stored the balance 10.0 and 2.0 for the
    account "anyrouter_a". *)
Definition second_run : State :=
  {| self := {| last_balance_hash := Some "0123456789abcdef";
                last_balance_data :=
                  [("anyrouter_a", stored_of_balance balance_10_2)];
                current_balances := [("anyrouter_a", balance_10_2)];
                balance_changed := false |};
     world := world (blank_state 0) |}.

(** Worlds for the examples: the page gives a WAF cookie and the GET gives
    the balance 10.0 and 2.0, unless said otherwise. *)

Definition not_found : Response := text_response 404 "404 page not found".
Definition env_404 : Env := env waf_page (Ok self_ok) (Ok not_found).

Definition html_success : Response := text_response 200 "<html>SUCCESS</html>".
Definition env_html_success : Env := env waf_page (Ok self_ok) (Ok html_success).

(** The body [{"code": 5, "msg": "cooldown"}]. *)
Definition cooldown_fields : list (string * JValue) :=
  [("code", JInt 5); ("msg", JStr "cooldown")].
Definition cooldown : Response :=
  json_response
    ("{" +s quote +s "code" +s quote +s ": 5, " +s quote +s "msg" +s quote
     +s ": " +s quote +s "cooldown" +s quote +s "}")
    (JDict cooldown_fields).
Definition env_cooldown : Env := env waf_page (Ok self_ok) (Ok cooldown).

(** The body ["success"], a JSON string. *)
Definition json_string_success : Response :=
  json_response (quote +s "success" +s quote) (JStr "success").
Definition env_json_string : Env :=
  env waf_page (Ok self_ok) (Ok json_string_success).

(** The body [{"ret": 1}]. *)
Definition accepted : Response :=
  json_response ("{" +s quote +s "ret" +s quote +s ": 1}")
                (JDict [("ret", JInt 1)]).

(** The GET times out, the POST is accepted. *)
Definition env_get_times_out : Env :=
  env waf_page (Raise timeout_error) (Ok accepted).

(** The GET gives the balance, the POST times out. *)
Definition env_post_times_out : Env :=
  env waf_page (Ok self_ok) (Raise timeout_error).


Definition server_error : Response := text_response 500 "Internal Server Error".
Definition env_500 : Env := env waf_page (Ok self_ok) (Ok server_error).

End Sample.

(** * More of the module *)

From Stdlib Require Import DecimalZ.

(** ** What a computation leaves alone *)

Definition is_write_event (ev : event) : bool :=
  match ev with
  | EvWriteHash _ | EvWriteData _ => true
  | _ => false
  end.

(** From the world [w] to [w'] no file was written: no write was attempted,
    the two state files are as they were, and the trace grew by events that
    are not writes. *)
Definition unwritten (w w' : World) : Prop :=
  writes w' = writes w /\
  hash_file w' = hash_file w /\
  data_file w' = data_file w /\
  exists evs,
    trace w' = (trace w ++ evs)%list /\ List.filter is_write_event evs = [].

(** The object is as it was and no file was written. *)
Definition same_object (s s' : State) : Prop :=
  self s' = self s /\ unwritten (world s) (world s').

(** Of the object only the current-run ledger changed, and only under keys
    in [touched]; no file was written. *)
Definition apart_from (touched : string -> Prop) (s s' : State) : Prop :=
  last_balance_hash (self s') = last_balance_hash (self s) /\
  last_balance_data (self s') = last_balance_data (self s) /\
  balance_changed (self s') = balance_changed (self s) /\
  (forall k, ~ touched k ->
     dict_get k (current_balances (self s')) =
     dict_get k (current_balances (self s))) /\
  unwritten (world s) (world s').

(** Every run of [m] takes a state to one related to it by [R], whether it
    returns or raises. *)
Definition steps {A : Type} (R : State -> State -> Prop) (m : M A) : Prop :=
  forall s, R s (snd (m s)).

(** The object after [self.current_balances[key] = balance] when there is a
    balance, and the object itself when there is none. *)
Definition with_balance (key : string) (balance : option Balance)
  (r : RouterCheckin) : RouterCheckin :=
  match balance with
  | Some b =>
      {| last_balance_hash := last_balance_hash r;
         last_balance_data := last_balance_data r;
         current_balances := dict_set key b (current_balances r);
         balance_changed := balance_changed r |}
  | None => r
  end.

(** [m] records in the ledger exactly the balance of the result it returns,
    under [key_prefix] followed by the name of the result; when it raises
    the object is as it was.  No file is written. *)
Definition records (key_prefix : string) (m : M Outcome) : Prop :=
  forall s,
    unwritten (world s) (world (snd (m s))) /\
    match fst (m s) with
    | Ok o =>
        self (snd (m s)) =
        with_balance (key_prefix +s o_name o) (o_balance o) (self s)
    | Raise _ => self (snd (m s)) = self s
    end.

(** The object after the balances of the results were stored in the ledger,
    in the order of the results. *)
Definition ledger_after (key_prefix : string) (results : list Outcome)
  (r : RouterCheckin) : RouterCheckin :=
  fold_left
    (fun r o => with_balance (key_prefix +s o_name o) (o_balance o) r)
    results r.

(** [m] only adds events, and a result of [m] that is a success or carries
    a balance comes after a POST to [sign_in_url] among them. *)
Definition earned (sign_in_url : string) (m : M Outcome) : Prop :=
  forall s,
    exists evs,
      trace (world (snd (m s))) = (trace (world s) ++ evs)%list /\
      match fst (m s) with
      | Ok o =>
          o_success o = true \/ o_balance o <> None ->
          exists cookies api_user,
            In (EvPost sign_in_url cookies api_user) evs
      | Raise _ => True
      end.

(** ** The state files at start-up *)

(** [s.strip()]: the text without the white space at its two ends.  White
    space is what [str.isspace] accepts: the ASCII characters 9 to 13, 28 to
    31 and 32, and U+0085, U+00A0, U+1680, U+2000 to U+200A, U+2028,
    U+2029, U+202F, U+205F and U+3000, here in their UTF-8 encoding. *)
Module PyStrip.

Definition byte (c : ascii) : N := N_of_ascii c.

Definition space1 (c : ascii) : bool :=
  let n := byte c in
  ((9 <=? n)%N && (n <=? 13)%N) || ((28 <=? n)%N && (n <=? 32)%N).

Definition space2 (c1 c2 : ascii) : bool :=
  (byte c1 =? 194)%N && ((byte c2 =? 133)%N || (byte c2 =? 160)%N).

Definition space3 (c1 c2 c3 : ascii) : bool :=
  let n3 := byte c3 in
  ((byte c1 =? 225)%N && (byte c2 =? 154)%N && (n3 =? 128)%N)
  || ((byte c1 =? 226)%N && (byte c2 =? 128)%N
      && (((128 <=? n3)%N && (n3 <=? 138)%N)
          || (n3 =? 168)%N || (n3 =? 169)%N || (n3 =? 175)%N))
  || ((byte c1 =? 226)%N && (byte c2 =? 129)%N && (n3 =? 159)%N)
  || ((byte c1 =? 227)%N && (byte c2 =? 128)%N && (n3 =? 128)%N).

(** [s.lstrip()] *)
Fixpoint lstrip (s : string) : string :=
  match s with
  | EmptyString => EmptyString
  | String c1 r1 =>
      if space1 c1 then lstrip r1
      else
        match r1 with
        | String c2 r2 =>
            if space2 c1 c2 then lstrip r2
            else
              match r2 with
              | String c3 r3 => if space3 c1 c2 c3 then lstrip r3 else s
              | EmptyString => s
              end
        | EmptyString => s
        end
  end.

(** [s.rstrip()]: the text is cut where only white space follows. *)
Fixpoint rstrip (s : string) : string :=
  match s with
  | EmptyString => EmptyString
  | String c rest =>
      if String.eqb (lstrip s) EmptyString then EmptyString
      else String c (rstrip rest)
  end.

Definition strip (s : string) : string := rstrip (lstrip s).

End PyStrip.

(** A character below 128 that is not white space. *)
Definition plain (c : ascii) : Prop :=
  (PyStrip.byte c < 128)%N /\ PyStrip.space1 c = false.

(** What opening and reading a state file gives: there is no such file, the
    attempt raises (the file cannot be opened or read, or its content is not
    what the reader accepts), or the content. *)
Inductive FileRead (A : Type) : Type :=
| NoFile
| ReadFails (e : exn)
| Content (a : A).
Arguments NoFile {A}.
Arguments ReadFails {A} e.
Arguments Content {A} a.

(** [_load_balance_hash], for what reading [balance_hash.txt] gives. *)
Definition _load_balance_hash (read : FileRead string) : option string :=
  match read with
  | NoFile => None
  | ReadFails e => None
  | Content text => Some (PyStrip.strip text)
  end.

(** [_load_balance_data], for what [json.load] on [balance_data.json]
    gives: a ledger as [_save_balance_data] writes it. *)
Definition _load_balance_data (read : FileRead (dict StoredBalance))
  : dict StoredBalance :=
  match read with
  | NoFile => []
  | ReadFails e => []
  | Content data => data
  end.

Definition __init__ (hash_read : FileRead string)
  (data_read : FileRead (dict StoredBalance)) : RouterCheckin :=
  {| last_balance_hash := _load_balance_hash hash_read;
     last_balance_data := _load_balance_data data_read;
     current_balances := [];
     balance_changed := false |}.

(** Reading a state file of the world, which holds what the last write
    that went through stored. *)
Definition read_state_file {A : Type} (file : option A) : FileRead A :=
  match file with
  | None => NoFile
  | Some content => Content content
  end.

(** The object a new run starts with in the world [w]. *)
Definition new_object (w : World) : RouterCheckin :=
  __init__ (read_state_file (hash_file w)) (read_state_file (data_file w)).

(** The digest is a text of 64 characters out of "0123456789abcdef", as the
    one of [hashlib.sha256] is. *)
Definition hex_digest (rt : PyRuntime) : Prop :=
  forall text,
    String.length (sha256_hexdigest rt text) = 64%nat /\
    forall c, In c (list_ascii_of_string (sha256_hexdigest rt text)) ->
              In c (list_ascii_of_string "0123456789abcdef").

(** ** The two browser scripts, call by call

    [_get_waf_cookies] and [_login_agentrouter] drive a browser through
    Playwright.  Here every call to the browser is a step: the browser
    answers a call by what was called before (it is deterministic), and the
    script records its calls in order.  The context managers around the
    scripts ([async_playwright], [TemporaryDirectory]) are taken not to
    raise, [launch_persistent_context] is one call with the fixed options of
    the source, and [print] is left out. *)

Module Browser.

Inductive Call : Type :=
| Launch
| NewPage
| Goto (url : string) (timeout : Z)
| WaitForFunction (expression : string) (timeout : Z)
| WaitForTimeout (ms : Z)
| QuerySelector (selector : string)
| Fill (selector value : string) (timeout : Z)
| Click (selector : string) (timeout : Z)
| WaitForUrl (pattern : string) (timeout : Z)
| Url
| TextContent (selector : string) (timeout : Z)
| GetCookies
| Evaluate (script : string)
| Close.

(** A browser, by its answers: [does h c] is what the call [c] gives after
    the calls [h] when the script uses no value of it, and the other fields
    are the values of [page.query_selector] (whether an element was found),
    [page.url], [page.context.cookies()] and [page.evaluate]. *)
Record Page := {
  does : list Call -> Call -> result unit;
  finds : list Call -> string -> result bool;
  url_is : list Call -> result string;
  cookies_are : list Call -> result (list BrowserCookie);
  evaluates : list Call -> string -> result JValue
}.

(** The monad of a script: the calls made so far, and exceptions. *)
Definition B (A : Type) : Type := list Call -> result A * list Call.

Definition ret {A} (a : A) : B A := fun h => (Ok a, h).

Definition bind {A C} (m : B A) (k : A -> B C) : B C :=
  fun h =>
    match m h with
    | (Ok a, h') => k a h'
    | (Raise e, h') => (Raise e, h')
    end.

Declare Scope browser_scope.
Delimit Scope browser_scope with browser.
Notation "x <- m ;; k" := (bind m (fun x => k))
  (at level 100, m at next level, right associativity,
   format "x  <-  m  ;;  '/' k") : browser_scope.
Notation "m ;;; k" := (bind m (fun _ => k))
  (at level 100, right associativity, format "m  ;;;  '/' k") : browser_scope.
Local Open Scope browser_scope.

Definition lift {A} (r : result A) : B A := fun h => (r, h).

(** [try: m  except Exception as e: handler e]; a bare [except:] is the
    same here, every exception being an [Exception]. *)
Definition try_except {A} (m : B A) (handler : exn -> B A) : B A :=
  fun h =>
    match m h with
    | (Ok a, h') => (Ok a, h')
    | (Raise e, h') => handler e h'
    end.

(** A step of a script that may end it: [inl r] is [return r], and [inr a]
    goes on with [a]. *)
Definition and_then {R A C} (m : B (R + A)) (k : A -> B (R + C))
  : B (R + C) :=
  x <- m ;;
  match x with
  | inl r => ret (inl r)
  | inr a => k a
  end.

Definition returned {R} (m : B (R + R)) : B R :=
  x <- m ;;
  ret (match x with inl r => r | inr r => r end).

(** *** Texts of the scripts *)

Definition dq : string := String (ascii_of_nat 34) EmptyString.
Definition nl : string := String (ascii_of_nat 10) EmptyString.

(** An attribute selector such as ['input[type="email"]']: the text up to
    the value, the value between double quotes, and the closing bracket. *)
Definition dq_attr (prefix value : string) : string :=
  prefix +s dq +s value +s dq +s "]".

(** ['document.readyState === "complete"'] *)
Definition READY_STATE : string :=
  "document.readyState === " +s dq +s "complete" +s dq.

Definition LOGIN_URLS : list string :=
  ["https://agentrouter.org/login";
   "https://agentrouter.org/#/login";
   "https://agentrouter.org"].

(** ['input[type="email"]'] and the like *)
Definition EMAIL_SELECTORS : list string :=
  [dq_attr "input[type=" "email";
   dq_attr "input[name=" "email";
   dq_attr "input[placeholder*=" "邮箱";
   dq_attr "input[placeholder*=" "Email";
   dq_attr "input[placeholder*=" "email"].

(** The selector of [query_selector]: the five selectors, separated by a
    comma and a space. *)
Definition EMAIL_INPUT : string :=
  "input[type=" +s dq +s "email" +s dq +s "], "
  +s "input[name=" +s dq +s "email" +s dq +s "], "
  +s "input[placeholder*=" +s dq +s "邮箱" +s dq +s "], "
  +s "input[placeholder*=" +s dq +s "Email" +s dq +s "], "
  +s dq_attr "input[placeholder*=" "email".

Definition PASSWORD_SELECTORS : list string :=
  [dq_attr "input[type=" "password";
   dq_attr "input[name=" "password"].

Definition LOGIN_BUTTON_SELECTORS : list string :=
  [dq_attr "button[type=" "submit";
   "button:has-text(" +s dq +s "登录" +s dq +s ")";
   "button:has-text(" +s dq +s "Login" +s dq +s ")";
   "button:has-text(" +s dq +s "Sign in" +s dq +s ")";
   "button.login-button";
   dq_attr "input[type=" "submit"].

Definition ERROR_SELECTOR : string :=
  dq_attr ".error-message, .alert-danger, [class*=" "error".

Definition CONSOLE_PATTERN : string := "**/console**".

(** The script of [page.evaluate], with the line breaks and the
    indentation of the source. *)
Definition FETCH_SELF : string :=
  nl +s "                            async () => {"
  +s nl +s "                                const response = await fetch('/api/user/self');"
  +s nl +s "                                return await response.json();"
  +s nl +s "                            }"
  +s nl +s "                        ".

Section Script.

Variable rt : PyRuntime.
Variable page : Page.

(** *** Calls *)

Definition call (c : Call) : B unit :=
  fun h => (does page h c, (h ++ [c])%list).

Definition query_selector (selector : string) : B bool :=
  fun h => (finds page h selector, (h ++ [QuerySelector selector])%list).

Definition page_url : B string :=
  fun h => (url_is page h, (h ++ [Url])%list).

Definition context_cookies : B (list BrowserCookie) :=
  fun h => (cookies_are page h, (h ++ [GetCookies])%list).

Definition evaluate (script : string) : B JValue :=
  fun h => (evaluates page h script, (h ++ [Evaluate script])%list).

(** *** [_get_waf_cookies] *)

Definition _get_waf_cookies (account_name url : string) (timeout : Z)
  : B (option Cookies) :=
  call Launch ;;;
  call NewPage ;;;
  try_except
    (call (Goto url timeout) ;;;
     try_except (call (WaitForFunction READY_STATE 3000))
                (fun _ => call (WaitForTimeout 2000)) ;;;
     cookies <- context_cookies ;;
     let waf_cookies := fold_left keep_waf_cookie cookies [] in
     call Close ;;;
     ret (if dict_nonempty waf_cookies then Some waf_cookies else None))
    (fun e => call Close ;;; ret None).

(** *** [_login_agentrouter] *)

(** What the login returns: [{'cookies': ..., 'api_user': ...}].  A cookie
    of the browser without a value would be stored as [None]. *)
Record Session := {
  session_cookies : dict (option string);
  session_api_user : string
}.

(** The loop over [login_urls]: whether a page with a login form was
    reached. *)
Fixpoint find_login_page (urls : list string) : B bool :=
  match urls with
  | [] => ret false
  | url :: rest =>
      found <- try_except
                 (call (Goto url 20000) ;;;
                  call (WaitForTimeout 2000) ;;;
                  query_selector EMAIL_INPUT)
                 (fun e => ret false) ;;
      if found then ret true else find_login_page rest
  end.

(** A loop over selectors that stops at the first one for which the call
    does not raise: whether there was one. *)
Fixpoint first_success (attempt : string -> Call) (selectors : list string)
  : B bool :=
  match selectors with
  | [] => ret false
  | selector :: rest =>
      done <- try_except (call (attempt selector) ;;; ret true)
                         (fun _ => ret false) ;;
      if done then ret true else first_success attempt rest
  end.

(** The block that fills the form. *)
Definition fill_form (email password : string) : B (option Session + unit) :=
  try_except
    (email_filled <-
       first_success (fun selector => Fill selector email 3000)
                     EMAIL_SELECTORS ;;
     if negb email_filled then call Close ;;; ret (inl None)
     else
       password_filled <-
         first_success (fun selector => Fill selector password 3000)
                       PASSWORD_SELECTORS ;;
       if negb password_filled then call Close ;;; ret (inl None)
       else call (WaitForTimeout 1000) ;;; ret (inr tt))
    (fun e => call Close ;;; ret (inl None)).

(** The block that clicks the login button. *)
Definition submit_form : B (option Session + unit) :=
  try_except
    (button_clicked <-
       first_success (fun selector => Click selector 3000)
                     LOGIN_BUTTON_SELECTORS ;;
     if negb button_clicked then call Close ;;; ret (inl None)
     else ret (inr tt))
    (fun e => call Close ;;; ret (inl None)).

(** The block that waits for the console. *)
Definition wait_for_console : B (option Session + unit) :=
  try_except
    (call (WaitForUrl CONSOLE_PATTERN 15000) ;;; ret (inr tt))
    (fun _ =>
       call (WaitForTimeout 5000) ;;;
       current_url <- page_url ;;
       if PyStr.contains "/login" current_url
          || PyStr.contains "#/login" current_url
       then
         try_except (call (TextContent ERROR_SELECTOR 2000))
                    (fun _ => ret tt) ;;;
         call Close ;;;
         ret (inl None)
       else ret (inr tt)).

(** The body of the loop over the cookies: the session cookie seen last,
    and the WAF cookies. *)
Definition scan_cookie (found : option string * dict (option string))
  (cookie : BrowserCookie) : option string * dict (option string) :=
  match cookie_name cookie with
  | Some name =>
      if String.eqb name "session" then (cookie_value cookie, snd found)
      else if existsb (String.eqb name) WAF_COOKIE_NAMES
      then (fst found, dict_set name (cookie_value cookie) (snd found))
      else found
  | None => found
  end.

(** [bool(session_cookie)] *)
Definition session_truthy (session_cookie : option string) : bool :=
  match session_cookie with
  | Some value => negb (String.eqb value EmptyString)
  | None => false
  end.

(** The [try] around [page.evaluate]: the user id, when there is one. *)
Definition fetch_user_id : B (option string) :=
  try_except
    (user_info_response <- evaluate FETCH_SELF ;;
     if Py.truthy user_info_response then
       success <- lift (Py.get user_info_response "success") ;;
       if Py.truthy success then
         data <- lift (Py.get_default user_info_response "data" (JDict [])) ;;
         id <- lift (Py.get_default data "id" (JStr EmptyString)) ;;
         ret (Some (py_str rt id))
       else ret None
     else ret None)
    (fun e => ret None).

(** The rest of the script: the cookies, the user id, the result. *)
Definition collect_session : B (option Session + option Session) :=
  cookies <- context_cookies ;;
  let found := fold_left scan_cookie cookies (None, []) in
  let session_cookie := fst found in
  let waf_cookies := snd found in
  if negb (session_truthy session_cookie) then call Close ;;; ret (inl None)
  else
    api_user <- fetch_user_id ;;
    call Close ;;;
    let all_cookies := dict_merge [("session", session_cookie)] waf_cookies in
    ret (inl (Some {| session_cookies := all_cookies;
                      session_api_user := or_default api_user EmptyString |})).

Definition _login_agentrouter (email password : string)
  : B (option Session) :=
  try_except
    (call Launch ;;;
     call NewPage ;;;
     login_success <- find_login_page LOGIN_URLS ;;
     if negb login_success then call Close ;;; ret None
     else
       returned
         (and_then (fill_form email password) (fun _ =>
          and_then submit_form (fun _ =>
          and_then wait_for_console (fun _ =>
          collect_session)))))
    (fun e => ret None).

End Script.

End Browser.

(** ** Watching a script *)

Definition is_ok {A : Type} (r : result A) : bool :=
  match r with Ok _ => true | Raise _ => false end.

Section Monitor.

(** A monitor reads the calls of a script one by one: [step h st c] is its
    state after the call [c], made after the calls [h] in the state [st],
    or [None] when it rejects the call. *)
Variable St : Type.
Variable step : list Browser.Call -> St -> Browser.Call -> option St.

Fixpoint observe (h : list Browser.Call) (st : St)
  (added : list Browser.Call) : option St :=
  match added with
  | [] => Some st
  | c :: rest =>
      match step h st c with
      | Some st' => observe (h ++ [c])%list st' rest
      | None => None
      end
  end.

(** From a state that satisfies [pre], after any calls, the script [m] only
    adds calls, the monitor accepts them, and its state and the outcome of
    [m] satisfy [post]. *)
Definition moves {A : Type} (pre : St -> Prop) (m : Browser.B A)
  (post : result A -> St -> Prop) : Prop :=
  forall h st, pre st ->
    exists added st',
      snd (m h) = (h ++ added)%list /\
      observe h st added = Some st' /\
      post (fst (m h)) st'.

End Monitor.

Arguments observe {St} step h st added.
Arguments moves {St} step {A} pre m post.

(** The monitor of the browser context: its state tells whether a
    [context.close()] went through, and after that it rejects every
    call. *)
Definition close_monitor (page : Browser.Page) (h : list Browser.Call)
  (closed : bool) (c : Browser.Call) : option bool :=
  if closed then None
  else
    match c with
    | Browser.Close => Some (is_ok (Browser.does page h Browser.Close))
    | _ => Some false
    end.

(** No [context.close()] went through. *)
Definition still_open (closed : bool) : Prop := closed = false.

(** The states of [close_monitor] after a computation: the context is
    still open; it is closed exactly when the computation returned; it is
    closed exactly when the computation ended the script. *)
Definition left_open {A : Type} (r : result A) (closed : bool) : Prop :=
  closed = false.

Definition closed_iff_returned {A : Type} (r : result A) (closed : bool)
  : Prop :=
  closed = is_ok r.

Definition closed_iff_ended {R A : Type} (r : result (R + A)) (closed : bool)
  : Prop :=
  closed = match r with Ok (inl _) => true | _ => false end.

(** The same for the last block of a script, which always ends it. *)
Definition closed_at_return {R : Type} (r : result (R + R)) (closed : bool)
  : Prop :=
  match r with
  | Ok (inl _) => closed = true
  | Ok (inr _) => False
  | Raise _ => closed = false
  end.

(** [m] makes no [context.close()] that goes through. *)
Definition keeps_open (page : Browser.Page) {A : Type} (m : Browser.B A)
  : Prop :=
  moves (close_monitor page) still_open m left_open.

(** A [context.close()] that went through is the last of the calls [added]
    made after [h]. *)
Definition closed_last (page : Browser.Page) (h added : list Browser.Call)
  : Prop :=
  forall before after,
    added = (before ++ Browser.Close :: after)%list ->
    is_ok (Browser.does page (h ++ before) Browser.Close) = true ->
    after = [].

(** The last of the calls [added] is a [context.close()] that went
    through. *)
Definition closed_at_end (page : Browser.Page) (h added : list Browser.Call)
  : Prop :=
  exists before,
    added = (before ++ [Browser.Close])%list /\
    is_ok (Browser.does page (h ++ before) Browser.Close) = true.

(** No [context.close()] among the calls [added] went through. *)
Definition never_closed (page : Browser.Page) (h added : list Browser.Call)
  : Prop :=
  forall before after,
    added = (before ++ Browser.Close :: after)%list ->
    is_ok (Browser.does page (h ++ before) Browser.Close) = false.

(** Every value that [m] returns satisfies [P]. *)
Definition gives {A : Type} (P : A -> Prop) (m : Browser.B A) : Prop :=
  forall h a, fst (m h) = Ok a -> P a.

(** A block of the login that ends the script returns [None]. *)
Definition ends_with_none {A : Type} (x : option Browser.Session + A) : Prop :=
  match x with
  | inl r => r = None
  | inr _ => True
  end.

(** What a session that the login returns is made of: the cookies the
    browser reported at some point, among them a cookie [session] with a
    value that is not empty, which comes first in the result; after it the
    WAF cookies, each a cookie the browser reported. *)
Definition session_made_of (page : Browser.Page)
  (session : Browser.Session) : Prop :=
  exists h cookies value waf_cookies,
    Browser.cookies_are page h = Ok cookies /\
    In {| cookie_name := Some "session"; cookie_value := Some value |}
       cookies /\
    value <> EmptyString /\
    Browser.session_cookies session =
      ("session", Some value) :: waf_cookies /\
    List.NoDup (dict_keys waf_cookies) /\
    forall name v, In (name, v) waf_cookies ->
      In name WAF_COOKIE_NAMES /\
      In {| cookie_name := Some name; cookie_value := v |} cookies.

(** Where a user id that is not empty comes from: the script evaluated in
    the page gave an object whose [success] is true. *)
Definition user_id_from_page (page : Browser.Page) (api_user : string)
  : Prop :=
  api_user <> EmptyString ->
  exists h fields,
    Browser.evaluates page h Browser.FETCH_SELF = Ok (JDict fields) /\
    Py.truthy (or_default (dict_get "success" fields) JNull) = true.

(** How far the login is. *)
Inductive Progress : Type :=
| Searching
| AtForm
| EmailIn
| PasswordIn
| Submitted.

(** The monitor of the login form.  The script navigates and looks for the
    form only while it has not found it.  The e-mail address goes into a
    field of [EMAIL_SELECTORS], only once the form was found and while no
    such fill went through; the password goes into a field of
    [PASSWORD_SELECTORS], only after that and while no such fill went
    through; a click needs the password in and no click gone through;
    waiting for the console, reading the cookies and evaluating a script
    need a click that went through.  Nothing else is filled. *)
Definition form_monitor (page : Browser.Page) (email password : string)
  (h : list Browser.Call) (p : Progress) (c : Browser.Call)
  : option Progress :=
  let ok := is_ok (Browser.does page h c) in
  match c with
  | Browser.Goto _ _ =>
      match p with
      | Searching => Some Searching
      | _ => None
      end
  | Browser.QuerySelector selector =>
      match p with
      | Searching =>
          Some (match Browser.finds page h selector with
                | Ok true => AtForm
                | _ => Searching
                end)
      | _ => None
      end
  | Browser.Fill selector value _ =>
      if existsb (String.eqb selector) Browser.EMAIL_SELECTORS then
        match p with
        | AtForm =>
            if String.eqb value email
            then Some (if ok then EmailIn else AtForm)
            else None
        | _ => None
        end
      else if existsb (String.eqb selector) Browser.PASSWORD_SELECTORS then
        match p with
        | EmailIn =>
            if String.eqb value password
            then Some (if ok then PasswordIn else EmailIn)
            else None
        | _ => None
        end
      else None
  | Browser.Click selector _ =>
      match p with
      | PasswordIn => Some (if ok then Submitted else PasswordIn)
      | _ => None
      end
  | Browser.WaitForUrl _ _ | Browser.GetCookies | Browser.Evaluate _ =>
      match p with
      | Submitted => Some Submitted
      | _ => None
      end
  | _ => Some p
  end.

(** The states of [form_monitor] around a computation: the form is at
    [stage]; it is at [stage] afterwards; the block went on with the form
    at [stage]; a loop over selectors took the form from [before] to
    [after] when it found one, and left it at [before] when not. *)
Definition at_stage (stage : Progress) (p : Progress) : Prop := p = stage.

Definition stays_at (stage : Progress) {A : Type} (r : result A)
  (p : Progress) : Prop :=
  p = stage.

Definition reaches (stage : Progress) {R A : Type} (r : result (R + A))
  (p : Progress) : Prop :=
  match r with
  | Ok (inr _) => p = stage
  | _ => True
  end.

Definition tried (before after : Progress) (r : result bool) (p : Progress)
  : Prop :=
  match r with
  | Ok true => p = after
  | Ok false => p = before
  | Raise _ => False
  end.

(** ** More sample inputs *)

Module Cases.

(** The page gives a WAF cookie, the GET gives the balance 10.0 and 2.0 and
    the POST is accepted. *)
Definition env_accepted : Env :=
  Sample.env Sample.waf_page (Ok Sample.self_ok) (Ok Sample.accepted).

(** The page gives no WAF cookie. *)
Definition env_no_waf : Env :=
  Sample.env Sample.no_waf_page (Ok Sample.self_ok) (Ok Sample.accepted).

(** The login gives a session and the user id 7. *)
Definition session : LoginResult :=
  {| login_cookies := [("session", "s9")]; login_api_user := "7" |}.

Definition env_login_ok : Env :=
  {| env_browse := fun _ => Sample.no_waf_page;
     env_login := fun _ => Ok (Some session);
     env_get := fun _ => Ok Sample.self_ok;
     env_post := fun _ => Ok Sample.accepted;
     env_write := fun _ => Ok tt;
     env_now := fun _ => "2024-01-01T00:00:00" |}.

(** An account with an e-mail address and a password, and nothing else. *)
Definition account_with_password : Account :=
  {| acc_name := Some "b"; acc_cookies := None; acc_api_user := None;
     acc_email := Some "b@example.org"; acc_password := Some "secret" |}.

(** An account without a user id. *)
Definition account_without_user : Account :=
  {| acc_name := Some "c"; acc_cookies := Some (JStr "s1");
     acc_api_user := None; acc_email := None; acc_password := None |}.

(** A runtime whose digest is a text of 64 hexadecimal digits. *)
Definition digest_hex (text : string) : string :=
  if Nat.even (String.length text)
  then "0123456789abcdef0123456789abcdef0123456789abcdef0123456789abcdef"
  else "fedcba9876543210fedcba9876543210fedcba9876543210fedcba9876543210".

Definition rt_hex : PyRuntime :=
  {| round_div := Sample.round_multiple;
     str_other := Sample.str_simple;
     json_dumps_str := fun s => Sample.quote +s s +s Sample.quote;
     json_dumps_float := Sample.float_text;
     sha256_hexdigest := digest_hex;
     parse_cookies := Sample.cookies_of |}.

(** The balance 10.0 and 3.0: the quota of [Sample.balance_10_2], one more
    used. *)
Definition balance_10_3 : Balance :=
  {| quota := PyFloat.of_int 10; used := PyFloat.of_int 3 |}.

(** The previous run stored the hash of the balance 10.0 and 2.0 for the
    account "anyrouter_a"; this run recorded 10.0 and 3.0. *)
Definition more_used : State :=
  {| self := {| last_balance_hash :=
                  Some (_generate_balance_hash Sample.rt
                          [("anyrouter_a", Sample.balance_10_2)]);
                last_balance_data :=
                  [("anyrouter_a", stored_of_balance Sample.balance_10_2)];
                current_balances := [("anyrouter_a", balance_10_3)];
                balance_changed := true |};
     world := world (blank_state 0) |}.

(** Three results: a success with the balance 10.0 and 2.0, a failure
    without balance, a failure with the balance 10.0 and 3.0. *)
Definition outcome (name : string) (success : bool) (balance : option Balance)
  : Outcome :=
  {| o_platform := "AnyRouter"; o_name := name; o_success := success;
     o_message := EmptyString; o_timestamp := "2024-01-01T00:00:00";
     o_balance := balance |}.

Definition three_results : list Outcome :=
  [outcome "a" true (Some Sample.balance_10_2);
   outcome "b" false None;
   outcome "c" false (Some balance_10_3)].

(** A browser in which everything goes through: the first login address
    shows the form, the login leads to the console, the cookies are a
    session cookie, a WAF cookie and one more, and the page tells the user
    id 7. *)
Definition friendly_page : Browser.Page :=
  {| Browser.does := fun _ _ => Ok tt;
     Browser.finds := fun _ _ => Ok true;
     Browser.url_is := fun _ => Ok "https://agentrouter.org/console";
     Browser.cookies_are := fun _ =>
       Ok [ {| cookie_name := Some "session"; cookie_value := Some "s9" |};
            {| cookie_name := Some "acw_tc"; cookie_value := Some "t1" |};
            {| cookie_name := Some "theme"; cookie_value := Some "dark" |} ];
     Browser.evaluates := fun _ _ =>
       Ok (JDict [("success", JBool true);
                  ("data", JDict [("id", JInt 7)])]) |}.

(** The session that the login gets from [friendly_page]. *)
Definition friendly_session : Browser.Session :=
  {| Browser.session_cookies :=
       [("session", Some "s9"); ("acw_tc", Some "t1")];
     Browser.session_api_user := "7" |}.

(** A browser whose first close raises. *)
Definition sticky_page : Browser.Page :=
  {| Browser.does := fun h c =>
       match c with
       | Browser.Close =>
           if existsb (fun c' => match c' with
                                 | Browser.Close => true
                                 | _ => false
                                 end) h
           then Ok tt
           else Raise Sample.timeout_error
       | _ => Ok tt
       end;
     Browser.finds := fun _ _ => Ok true;
     Browser.url_is := fun _ => Ok "https://agentrouter.org/console";
     Browser.cookies_are := fun _ =>
       Ok [ {| cookie_name := Some "acw_tc"; cookie_value := Some "t1" |} ];
     Browser.evaluates := fun _ _ => Ok JNull |}.

End Cases.
(** * Properties *)

Ltac unfold_m :=
  unfold bind, ret, raise, lift, try_except, try_finally, emit, sleep,
    update_world, update_self, get_self, get_world in *.

Lemma events_since_app (s s' : State) (evs : list event) :
  trace (world s') = (trace (world s) ++ evs)%list -> events_since s s' = evs.
Proof.
  intros H. unfold events_since. rewrite H.
  rewrite skipn_app, Nat.sub_diag, skipn_all. reflexivity.
Qed.

Lemma events_since_refl (s : State) : events_since s s = [].
Proof. apply events_since_app. symmetry. apply app_nil_r. Qed.

Lemma events_since_after_event (ev : event) (s : State) :
  events_since s (after_event ev s) = [ev].
Proof. apply events_since_app. reflexivity. Qed.

(** *** Floats *)

Lemma sub_diag_finite (x : float) :
  PyFloat.is_finite x = true -> PyFloat.nonzero (PyFloat.sub x x) = false.
Proof.
  destruct x as [sx | sx | | sx mx ex]; simpl; try discriminate; intros _.
  - destruct sx; reflexivity.
  - unfold PyFloat.nonzero, PyFloat.sub, SFsub. rewrite Z.sub_diag. reflexivity.
Qed.

Lemma add_finite_inv (x y : float) :
  PyFloat.is_finite (PyFloat.add x y) = true ->
  PyFloat.is_finite x = true /\ PyFloat.is_finite y = true.
Proof.
  destruct x as [sx | sx | | sx mx ex], y as [sy | sy | | sy my ey];
    simpl; try (intros; split; (reflexivity || discriminate));
    try (destruct sx, sy; simpl; intros; split; (reflexivity || discriminate)).
Qed.

(** *** [_show_balance_change] *)

Lemma show_balance_change_run (account_key : string) (current : Balance)
  (s : State) :
  _show_balance_change account_key current s =
  (Ok tt,
   match dict_get account_key (last_balance_data (self s)) with
   | None => s
   | Some last =>
       if change_notice_due last current
       then after_event
              (EvChange account_key
                 (change_lines (stored_or_zero (stored_quota last))
                    (stored_or_zero (stored_used last))
                    (quota current) (used current))) s
       else s
   end).
Proof.
  unfold _show_balance_change, change_notice_due. unfold_m.
  destruct (dict_get account_key (last_balance_data (self s))) as [last|];
    [|reflexivity].
  destruct (PyFloat.nonzero _ || PyFloat.nonzero _); reflexivity.
Qed.

(** C5. [_show_balance_change] returns without an event when the account key
    is not in the previous run's map.  For a key that is there, with
    [recharge_delta = (current quota + current used) - (last quota + last used)]
    and [used_delta = current used - last used], it prints the change notice
    if and only if [recharge_delta != 0 or used_delta != 0], and it changes
    nothing else.  In particular there is no notice when the stored balance
    is the current one (the amounts being finite numbers). *)
Theorem show_balance_change_notice (account_key : string) (current : Balance)
  (s : State) :
  let previous := dict_get account_key (last_balance_data (self s)) in
  let out := _show_balance_change account_key current s in
  fst out = Ok tt /\ self (snd out) = self s /\
  (previous = None -> snd out = s) /\
  (forall last, previous = Some last ->
     let last_quota := stored_or_zero (stored_quota last) in
     let last_used := stored_or_zero (stored_used last) in
     let recharge_delta :=
       PyFloat.sub (PyFloat.add (quota current) (used current))
                   (PyFloat.add last_quota last_used) in
     let used_delta := PyFloat.sub (used current) last_used in
     let notice := PyFloat.nonzero recharge_delta || PyFloat.nonzero used_delta in
     (notice = true ->
        exists lines, snd out = after_event (EvChange account_key lines) s) /\
     (notice = false -> snd out = s) /\
     (notice = true <->
        exists lines, events_since s (snd out) = [EvChange account_key lines])) /\
  (previous = Some (stored_of_balance current) ->
   PyFloat.is_finite (PyFloat.add (quota current) (used current)) = true ->
   snd out = s).
Proof.
  cbv zeta. rewrite show_balance_change_run. cbn [fst snd].
  destruct (dict_get account_key (last_balance_data (self s))) as [last|] eqn:Hprev.
  - split; [reflexivity|].
    split; [destruct (change_notice_due last current); reflexivity|].
    split; [discriminate|]. split.
    + intros last' Hlast. injection Hlast as <-.
      change (PyFloat.nonzero _ || PyFloat.nonzero _)
        with (change_notice_due last current).
      destruct (change_notice_due last current).
      * split; [eauto|]. split; [discriminate|].
        split; [|reflexivity]. intros _. eexists.
        apply events_since_after_event.
      * split; [discriminate|]. split; [reflexivity|].
        split; [discriminate|]. intros [lines Hl].
        rewrite events_since_refl in Hl. discriminate.
    + intros Hlast Hfin. injection Hlast as ->.
      unfold change_notice_due. simpl stored_or_zero.
      destruct (add_finite_inv _ _ Hfin) as [_ Hu].
      rewrite (sub_diag_finite _ Hfin), (sub_diag_finite _ Hu). reflexivity.
  - repeat split; try reflexivity; try discriminate.
Qed.

(** *** [_check_balance_change] *)

Lemma string_eqb_false_iff (a b : string) : String.eqb a b = false <-> a <> b.
Proof.
  destruct (String.eqb_spec a b) as [->|Hne]; split; intros H;
    try reflexivity; try discriminate; try assumption.
  exfalso. apply H. reflexivity.
Qed.

Lemma save_ledger_run (env : Env) (h : string) (s1 : State) :
  let out := bind (_save_balance_hash env h) (fun _ => _save_balance_data env) s1 in
  fst out = Ok tt /\
  self (snd out) = self s1 /\
  trace (world (snd out)) =
    (trace (world s1) ++ [EvWriteHash h; EvWriteData (current_balances (self s1))])%list /\
  (env_write env (writes (world s1)) = Ok tt ->
     hash_file (world (snd out)) = Some h) /\
  (env_write env (S (writes (world s1))) = Ok tt ->
     data_file (world (snd out)) =
     Some (map (fun kv => (fst kv, stored_of_balance (snd kv)))
               (current_balances (self s1)))).
Proof.
  cbv zeta.
  unfold _save_balance_hash, _save_balance_data, write_file, is_Exception.
  unfold_m. cbn [self world writes trace].
  destruct (env_write env (writes (world s1))) as [[]|e1];
    cbn [self world writes trace store_hash];
    destruct (env_write env (S (writes (world s1)))) as [[]|e2];
    cbn [fst snd self world writes trace store_hash store_data hash_file data_file];
    (split; [reflexivity|]); (split; [reflexivity|]);
    (split; [rewrite <- app_assoc; reflexivity|]);
    split; intros H; try discriminate H; reflexivity.
Qed.

Lemma check_balance_change_run (rt : PyRuntime) (env : Env) (s : State) :
  _check_balance_change rt env s =
  if dict_nonempty (current_balances (self s)) then
    let h := _generate_balance_hash rt (current_balances (self s)) in
    bind (_save_balance_hash env h) (fun _ => _save_balance_data env)
      {| self := {| last_balance_hash := last_balance_hash (self s);
                    last_balance_data := last_balance_data (self s);
                    current_balances := current_balances (self s);
                    balance_changed :=
                      match last_balance_hash (self s) with
                      | None => true
                      | Some last_hash => negb (String.eqb h last_hash)
                      end |};
         world := world s |}
  else (Ok tt, s).
Proof.
  unfold _check_balance_change, set_balance_changed.
  unfold bind at 1. unfold get_self.
  destruct (dict_nonempty (current_balances (self s))); cbn [negb];
    [|reflexivity].
  cbv zeta. unfold bind at 1.
  destruct (last_balance_hash (self s)) as [last_hash|] eqn:Hlast.
  - destruct (String.eqb _ last_hash); cbn [negb]; unfold update_self;
      rewrite Hlast; reflexivity.
  - unfold update_self. rewrite Hlast. reflexivity.
Qed.

(** C4. [_check_balance_change] does nothing when the current-run balance map
    is empty: [balance_changed] keeps its value and nothing is written.
    Otherwise [balance_changed] becomes true when there was no previous hash,
    and else true exactly when the 16-character hash of the current balances
    differs from the previous hash; whatever the verdict, it then writes the
    new hash and after it the whole current-run balance map, and the two
    files hold them when the writes go through.  It never raises. *)
Theorem check_balance_change_spec (rt : PyRuntime) (env : Env) (s : State) :
  let r := self s in
  let out := _check_balance_change rt env s in
  let current_hash := _generate_balance_hash rt (current_balances r) in
  fst out = Ok tt /\
  (current_balances r = [] -> snd out = s) /\
  (current_balances r <> [] ->
   (last_balance_hash r = None -> balance_changed (self (snd out)) = true) /\
   (forall last_hash, last_balance_hash r = Some last_hash ->
      (balance_changed (self (snd out)) = true <-> current_hash <> last_hash)) /\
   last_balance_hash (self (snd out)) = last_balance_hash r /\
   last_balance_data (self (snd out)) = last_balance_data r /\
   current_balances (self (snd out)) = current_balances r /\
   events_since s (snd out) =
     [EvWriteHash current_hash; EvWriteData (current_balances r)] /\
   (env_write env (writes (world s)) = Ok tt ->
      hash_file (world (snd out)) = Some current_hash) /\
   (env_write env (S (writes (world s))) = Ok tt ->
      data_file (world (snd out)) =
      Some (map (fun kv => (fst kv, stored_of_balance (snd kv)))
                (current_balances r)))).
Proof.
  cbv zeta. rewrite check_balance_change_run.
  destruct (current_balances (self s)) as [|entry rest] eqn:Hcur;
    cbn [dict_nonempty].
  { split; [reflexivity|]. split; [reflexivity|]. intros H. contradiction. }
  cbv zeta. set (h := _generate_balance_hash rt (entry :: rest)).
  match goal with |- context [bind _ _ ?s1] =>
    destruct (save_ledger_run env h s1) as (H1 & H2 & H3 & H4 & H5) end.
  cbv zeta in *. cbn [self world current_balances] in H2, H3, H4, H5.
  split; [exact H1|]. split; [discriminate|]. intros _.
  rewrite H2.
  cbn [balance_changed last_balance_hash last_balance_data current_balances].
  split. { intros ->. reflexivity. }
  split. { intros l ->. destruct (String.eqb h l) eqn:Heq; cbn [negb].
           - apply String.eqb_eq in Heq. split; [discriminate|]. intros Hne. contradiction.
           - apply string_eqb_false_iff in Heq. split; [intros _; exact Heq|reflexivity]. }
  split; [reflexivity|]. split; [reflexivity|]. split; [reflexivity|].
  split. { apply events_since_app. exact H3. }
  split; assumption.
Qed.

(** *** Strings *)

Lemma prefix_iff (a b : string) :
  String.prefix a b = true <-> exists post, b = a +s post.
Proof.
  unfold PyStr.cat. revert b. induction a as [|c a IH]; intros b.
  - destruct b; simpl; split; intros; try reflexivity; eexists; reflexivity.
  - destruct b as [|d b]; simpl.
    + split; [discriminate|]. intros [post H]. discriminate.
    + destruct (ascii_dec c d) as [->|Hne].
      * split.
        -- intros Hp. apply IH in Hp. destruct Hp as [post H]. exists post.
           rewrite H. reflexivity.
        -- intros [post H]. injection H as H. apply IH. exists post. exact H.
      * split; [discriminate|]. intros [post H]. injection H as H1 H2.
        symmetry in H1. contradiction.
Qed.

Lemma contains_iff (needle hay : string) :
  PyStr.contains needle hay = true <->
  exists pre post, hay = pre +s needle +s post.
Proof.
  induction hay as [|c hay IH].
  - cbn [PyStr.contains]. rewrite orb_false_r, prefix_iff. split.
    + intros [post H]. exists EmptyString, post. exact H.
    + intros [pre [post H]]. destruct pre; [exists post; exact H|discriminate].
  - cbn [PyStr.contains]. rewrite orb_true_iff, prefix_iff, IH. split.
    + intros [[post H]|[pre [post H]]].
      * exists EmptyString, post. exact H.
      * exists (String c pre), post. rewrite H. reflexivity.
    + intros [pre [post H]]. destruct pre as [|d pre].
      * left. exists post. exact H.
      * right. exists pre, post. unfold PyStr.cat in *. simpl in H.
        injection H as _ H. exact H.
Qed.

Lemma lower_app (a b : string) :
  PyStr.lower (a +s b) = PyStr.lower a +s PyStr.lower b.
Proof.
  unfold PyStr.cat. induction a as [|c a IH]; simpl; [reflexivity|].
  rewrite IH. reflexivity.
Qed.

Lemma lower_split (t a b : string) :
  PyStr.lower t = a +s b ->
  exists t1 t2, t = t1 +s t2 /\ PyStr.lower t1 = a /\ PyStr.lower t2 = b.
Proof.
  unfold PyStr.cat. revert t. induction a as [|c a IH]; intros t H; simpl in H.
  - exists EmptyString, t. repeat split. exact H.
  - destruct t as [|d t]; [discriminate|]. simpl in H. injection H as Hc H.
    destruct (IH t H) as (t1 & t2 & -> & H1 & H2).
    exists (String d t1), t2. simpl. rewrite Hc, H1. repeat split. exact H2.
Qed.

(** [word in text.lower()] holds exactly when [text] has a piece that is
    [word] up to the case of its ASCII letters. *)
Lemma contains_lower_iff (word text : string) :
  PyStr.contains word (PyStr.lower text) = true <->
  exists pre w post, text = pre +s w +s post /\ PyStr.lower w = word.
Proof.
  rewrite contains_iff. split.
  - intros (pre & post & H).
    destruct (lower_split _ _ _ H) as (t1 & t2 & -> & H1 & H2).
    destruct (lower_split _ _ _ H2) as (w & t3 & -> & H3 & H4).
    exists t1, w, t3. split; [reflexivity|exact H3].
  - intros (pre & w & post & -> & <-).
    exists (PyStr.lower pre), (PyStr.lower post).
    rewrite !lower_app. reflexivity.
Qed.



(** *** The two check-in requests *)

Lemma fetch_balance_run (rt : PyRuntime) (env : Env) (url : string)
  (cookies : Cookies) (api_user : string) (s : State) :
  fetch_balance rt env url cookies api_user s =
  (Ok (step1_balance rt env (gets (world s))),
   snd (client_get env url cookies api_user s)).
Proof.
  unfold step1_balance, fetch_balance, client_get, is_Exception. unfold_m.
  cbn [fst snd world gets blank_state].
  destruct (env_get env (gets (world s))) as [resp|e]; [|reflexivity].
  destruct (status_code resp =? 200)%Z; [|reflexivity].
  destruct (json resp) as [user_data|e]; [|reflexivity].
  destruct (Py.get user_data "success") as [success|e]; [|reflexivity].
  destruct (Py.truthy success); [|reflexivity].
  destruct (Py.get_default user_data "data" (JDict [])) as [data|e]; [|reflexivity].
  destruct (Py.get_default data "quota" (JInt 0)) as [raw_quota|e]; [|reflexivity].
  destruct (round_div rt raw_quota) as [q|e]; [|reflexivity].
  destruct (Py.get_default data "used_quota" (JInt 0)) as [raw_used|e]; [|reflexivity].
  destruct (round_div rt raw_used) as [u|e]; reflexivity.
Qed.

Ltac run_checkin :=
  unfold _do_anyrouter_checkin, _do_agentrouter_checkin, is_Exception;
  unfold_m; rewrite !fetch_balance_run;
  unfold client_post, client_get;
  cbn [fst snd self world posts gets trace push].

(** C1, as the code has it.  When the sign-in POST answers 404:
    [_do_agentrouter_checkin] reports the keep-alive success, with a message
    that is not the check-in message, if step 1 obtained a balance, and a
    failure without balance if it did not; [_do_anyrouter_checkin] reports the
    failure "签到失败: HTTP 404" in both cases, with the balance of step 1. *)
Theorem sign_in_404 (rt : PyRuntime) (env : Env) (account_name : string)
  (cookies : Cookies) (api_user : string) (s : State) (response : Response) :
  env_post env (posts (world s)) = Ok response ->
  status_code response = 404 ->
  let balance := step1_balance rt env (gets (world s)) in
  fst (_do_agentrouter_checkin rt env account_name cookies api_user s) =
    Ok (match balance with
        | Some _ => (true, MSG_KEEPALIVE_OK, balance)
        | None => (false, MSG_KEEPALIVE_FAILED, None)
        end) /\
  fst (_do_anyrouter_checkin rt env account_name cookies api_user s) =
    Ok (false, "签到失败: HTTP 404", balance) /\
  MSG_KEEPALIVE_OK <> MSG_CHECKIN_OK.
Proof.
  intros Hpost Hstatus. cbv zeta. split; [|split].
  - run_checkin. rewrite Hpost. cbn [fst snd]. rewrite Hstatus.
    cbn [Z.eqb Pos.eqb].
    destruct (step1_balance rt env (gets (world s))); reflexivity.
  - run_checkin. rewrite Hpost. cbn [fst snd]. rewrite Hstatus.
    reflexivity.
  - discriminate.
Qed.

(** C2, as the code has it.  When the sign-in POST answers 200 and the body
    does not parse as JSON: [_do_anyrouter_checkin] succeeds exactly when the
    body, lowered, contains the word "success" (that is, the body has a piece
    that reads "success" up to case), and otherwise fails with the message
    "签到失败: 响应格式错误", the balance of step 1 attached in both cases;
    [_do_agentrouter_checkin] has no such fallback: the parse error reaches
    the outer handler, which reports a failure "请求异常: ..." with the first
    50 characters of the error text and no balance, whatever the body. *)
Theorem sign_in_200_unparsed (rt : PyRuntime) (env : Env) (account_name : string)
  (cookies : Cookies) (api_user : string) (s : State) (response : Response)
  (e : exn) :
  env_post env (posts (world s)) = Ok response ->
  status_code response = 200 ->
  json response = Raise e ->
  let balance := step1_balance rt env (gets (world s)) in
  let found := PyStr.contains "success" (PyStr.lower (text response)) in
  fst (_do_anyrouter_checkin rt env account_name cookies api_user s) =
    Ok (if found then (true, MSG_CHECKIN_OK, balance)
        else (false, MSG_BAD_FORMAT, balance)) /\
  (found = true <->
   exists pre w post,
     text response = pre +s w +s post /\ PyStr.lower w = "success") /\
  (exn_http_status e = None ->
   fst (_do_agentrouter_checkin rt env account_name cookies api_user s) =
     Ok (false, "请求异常: " +s PyStr.take_chars 50 (exn_text e), None)).
Proof.
  intros Hpost Hstatus Hjson. cbv zeta. split; [|split].
  - run_checkin. rewrite Hpost. cbn [fst snd]. rewrite Hstatus.
    cbn [Z.eqb Pos.eqb]. rewrite Hjson.
    destruct (PyStr.contains "success" (PyStr.lower (text response)));
      reflexivity.
  - apply contains_lower_iff.
  - intros Hclass. run_checkin. rewrite Hpost. cbn [fst snd]. rewrite Hstatus.
    cbn [Z.eqb Pos.eqb]. rewrite Hjson. unfold is_HTTPStatusError.
    rewrite Hclass. reflexivity.
Qed.

(** C7, as the code has it.  When the sign-in POST answers 200 and the body
    parses to a JSON object, both functions report success exactly when
    [ret == 1] or [code == 0] or the [success] field is truthy; otherwise
    they report a failure whose message is "签到失败: " followed by the [msg]
    field if the object has one, else by the [message] field if it has one,
    else by "未知错误".  The balance of step 1 is attached. *)
Theorem sign_in_200_object (rt : PyRuntime) (env : Env) (account_name : string)
  (cookies : Cookies) (api_user : string) (s : State) (response : Response)
  (fields : list (string * JValue)) :
  env_post env (posts (world s)) = Ok response ->
  status_code response = 200 ->
  json response = Ok (JDict fields) ->
  let balance := step1_balance rt env (gets (world s)) in
  let field k := match dict_get k fields with Some v => v | None => JNull end in
  let accepted :=
    Py.eq_int (field "ret") 1 || Py.eq_int (field "code") 0
    || Py.truthy (field "success") in
  let detail :=
    match dict_get "msg" fields with
    | Some v => v
    | None => match dict_get "message" fields with
              | Some v => v
              | None => JStr MSG_UNKNOWN_ERROR
              end
    end in
  let verdict :=
    if accepted then (true, MSG_CHECKIN_OK, balance)
    else (false, "签到失败: " +s py_str rt detail, balance) in
  fst (_do_anyrouter_checkin rt env account_name cookies api_user s) = Ok verdict /\
  fst (_do_agentrouter_checkin rt env account_name cookies api_user s) = Ok verdict.
Proof.
  intros Hpost Hstatus Hjson. cbv zeta.
  split; run_checkin; rewrite Hpost; cbn [fst snd]; rewrite Hstatus;
    cbn [Z.eqb Pos.eqb]; rewrite Hjson;
    unfold sign_in_accepted, failure_detail, Py.get, Py.get_default; unfold_m;
    destruct (Py.eq_int _ 1); cbn [orb]; try reflexivity;
    destruct (Py.eq_int _ 0); cbn [orb]; try reflexivity;
    destruct (Py.truthy _); reflexivity.
Qed.

(** *** [_get_waf_cookies_with_fallback] *)

Lemma get_waf_cookies_run (env : Env) (account_name url : string) (timeout : Z)
  (s : State) :
  _get_waf_cookies env account_name url timeout s =
  (harvest env (browses (world s)), snd (browse env url timeout s)).
Proof.
  unfold harvest, _get_waf_cookies, browse. unfold_m.
  cbn [fst snd world browses blank_browsing_state].
  destruct (env_browse env (browses (world s))); reflexivity.
Qed.

Lemma harvest_nonempty (env : Env) (k : nat) (c : Cookies) :
  harvest env k = Ok (Some c) -> dict_nonempty c = true.
Proof.
  unfold harvest, _get_waf_cookies, browse. unfold_m.
  cbn [fst snd world browses blank_browsing_state].
  destruct (env_browse env k) as [e|e|cs]; cbn [fst]; try discriminate.
  destruct (dict_nonempty (fold_left keep_waf_cookie cs [])) eqn:Hne;
    intros H; injection H as <- || discriminate H. exact Hne.
Qed.

Lemma fallback_found (env : Env) (account_name : string) (urls : list string) :
  forall (n : nat) (s : State) (c : Cookies),
  (n < length urls)%nat ->
  (forall i, (i < n)%nat -> harvest env (browses (world s) + i) = Ok None) ->
  harvest env (browses (world s) + n) = Ok (Some c) ->
  exists s',
    _get_waf_cookies_with_fallback env account_name urls s = (Ok (Some c), s') /\
    self s' = self s /\
    trace (world s') =
      (trace (world s) ++ map (fun u => EvBrowse u 20000) (firstn (S n) urls))%list.
Proof.
  induction urls as [|url rest IH]; intros n s c Hn Hbefore Hhit.
  - simpl in Hn. lia.
  - cbn [_get_waf_cookies_with_fallback]. unfold bind.
    rewrite get_waf_cookies_run. destruct n as [|n].
    + rewrite Nat.add_0_r in Hhit. rewrite Hhit.
      unfold cookies_truthy. rewrite (harvest_nonempty _ _ _ Hhit).
      eexists. split; [reflexivity|]. split; reflexivity.
    + pose proof (Hbefore 0%nat ltac:(lia)) as H0.
      rewrite Nat.add_0_r in H0. rewrite H0. cbn [cookies_truthy].
      set (s1 := snd (browse env url 20000 s)).
      destruct (IH n s1 c) as (s' & Hrun & Hself & Htrace).
      * simpl in Hn. lia.
      * intros i Hi. subst s1. cbn [snd browse world browses].
        replace (S (browses (world s)) + i)%nat
          with (browses (world s) + S i)%nat by lia.
        apply Hbefore. lia.
      * subst s1. cbn [snd browse world browses].
        replace (S (browses (world s)) + n)%nat
          with (browses (world s) + S n)%nat by lia.
        exact Hhit.
      * exists s'. split; [exact Hrun|]. split; [rewrite Hself; reflexivity|].
        rewrite Htrace. subst s1. cbn [snd browse world trace].
        rewrite <- app_assoc. reflexivity.
Qed.

Lemma fallback_exhausted (env : Env) (account_name : string) (urls : list string) :
  forall (s : State),
  (forall i, (i < length urls)%nat ->
     harvest env (browses (world s) + i) = Ok None) ->
  exists s',
    _get_waf_cookies_with_fallback env account_name urls s = (Ok None, s') /\
    self s' = self s /\
    trace (world s') =
      (trace (world s) ++ map (fun u => EvBrowse u 20000) urls)%list.
Proof.
  induction urls as [|url rest IH]; intros s Hall.
  - exists s. split; [reflexivity|]. split; [reflexivity|].
    simpl. rewrite app_nil_r. reflexivity.
  - cbn [_get_waf_cookies_with_fallback]. unfold bind.
    rewrite get_waf_cookies_run.
    pose proof (Hall 0%nat ltac:(simpl; lia)) as H0.
    rewrite Nat.add_0_r in H0. rewrite H0. cbn [cookies_truthy].
    set (s1 := snd (browse env url 20000 s)).
    destruct (IH s1) as (s' & Hrun & Hself & Htrace).
    + intros i Hi. subst s1. cbn [snd browse world browses].
      replace (S (browses (world s)) + i)%nat
        with (browses (world s) + S i)%nat by lia.
      apply Hall. simpl. lia.
    + exists s'. split; [exact Hrun|]. split; [rewrite Hself; reflexivity|].
      rewrite Htrace. subst s1. cbn [snd browse world trace].
      rewrite <- app_assoc. reflexivity.
Qed.

Lemma fallback_none_inv (env : Env) (account_name : string) (urls : list string) :
  forall (s : State),
  fst (_get_waf_cookies_with_fallback env account_name urls s) = Ok None ->
  forall i, (i < length urls)%nat ->
    harvest env (browses (world s) + i) = Ok None.
Proof.
  induction urls as [|url rest IH]; intros s Hnone i Hi.
  - simpl in Hi. lia.
  - cbn [_get_waf_cookies_with_fallback] in Hnone. unfold bind in Hnone.
    rewrite get_waf_cookies_run in Hnone.
    destruct (harvest env (browses (world s))) as [[c|]|e] eqn:Hh.
    + unfold cookies_truthy in Hnone.
      rewrite (harvest_nonempty _ _ _ Hh) in Hnone. discriminate.
    + cbn [cookies_truthy] in Hnone. destruct i as [|i].
      * rewrite Nat.add_0_r. exact Hh.
      * specialize (IH _ Hnone i ltac:(simpl in Hi; lia)).
        cbn [snd browse world browses] in IH.
        replace (browses (world s) + S i)%nat
          with (S (browses (world s)) + i)%nat by lia.
        exact IH.
    + discriminate.
Qed.

(** C8. [_get_waf_cookies_with_fallback] goes through the URLs in order and
    returns what [_get_waf_cookies] gave for the first URL with a non-empty
    cookie mapping; the browser is started for the URLs up to that one and
    for no later one.  It returns [None] when every URL gave nothing, and
    only then. *)
Theorem fallback_first_match (env : Env) (account_name : string)
  (urls : list string) (s : State) :
  let attempt i := harvest env (browses (world s) + i) in
  let out := _get_waf_cookies_with_fallback env account_name urls s in
  (forall n c,
     (n < length urls)%nat ->
     (forall i, (i < n)%nat -> attempt i = Ok None) ->
     attempt n = Ok (Some c) ->
     fst out = Ok (Some c) /\
     events_since s (snd out) =
       map (fun u => EvBrowse u 20000) (firstn (S n) urls)) /\
  ((forall i, (i < length urls)%nat -> attempt i = Ok None) ->
   fst out = Ok None /\
   events_since s (snd out) = map (fun u => EvBrowse u 20000) urls) /\
  (fst out = Ok None ->
   forall i, (i < length urls)%nat -> attempt i = Ok None).
Proof.
  cbv zeta. split; [|split].
  - intros n c Hn Hbefore Hhit.
    destruct (fallback_found env account_name urls n s c Hn Hbefore Hhit)
      as (s' & Hrun & _ & Htrace).
    rewrite Hrun. split; [reflexivity|]. apply events_since_app. exact Htrace.
  - intros Hall.
    destruct (fallback_exhausted env account_name urls s Hall)
      as (s' & Hrun & _ & Htrace).
    rewrite Hrun. split; [reflexivity|]. apply events_since_app. exact Htrace.
  - apply fallback_none_inv.
Qed.

(** *** Quiet computations *)

Lemma pace_view_app (a b : list event) :
  pace_view (a ++ b)%list = (pace_view a ++ pace_view b)%list.
Proof. unfold pace_view. apply List.filter_app. Qed.

Lemma quiet_step_refl (s : State) : quiet_step s s.
Proof. exists []. split; [symmetry; apply app_nil_r|reflexivity]. Qed.

Lemma quiet_step_trans (s1 s2 s3 : State) :
  quiet_step s1 s2 -> quiet_step s2 s3 -> quiet_step s1 s3.
Proof.
  intros (e1 & H1 & P1) (e2 & H2 & P2). exists (e1 ++ e2)%list. split.
  - rewrite H2, H1, app_assoc. reflexivity.
  - rewrite pace_view_app, P1, P2. reflexivity.
Qed.

Lemma quiet_step_same_trace (s s' : State) :
  trace (world s') = trace (world s) -> quiet_step s s'.
Proof. intros H. exists []. rewrite H, app_nil_r. split; reflexivity. Qed.

Lemma quiet_step_event (s s' : State) (ev : event) :
  trace (world s') = (trace (world s) ++ [ev])%list ->
  is_pace_event ev = false -> quiet_step s s'.
Proof.
  intros H Hev. exists [ev]. split; [exact H|].
  unfold pace_view. simpl. rewrite Hev. reflexivity.
Qed.

Lemma quiet_ret {A : Type} (a : A) : quiet (ret a).
Proof. intros s. apply quiet_step_refl. Qed.

Lemma quiet_raise {A : Type} (e : exn) : quiet (@raise A e).
Proof. intros s. apply quiet_step_refl. Qed.

Lemma quiet_lift {A : Type} (r : result A) : quiet (lift r).
Proof. intros s. apply quiet_step_refl. Qed.

Lemma quiet_bind {A B : Type} (m : M A) (k : A -> M B) :
  quiet m -> (forall a, quiet (k a)) -> quiet (bind m k).
Proof.
  intros Hm Hk s. unfold bind. specialize (Hm s).
  destruct (m s) as [[a|e] s']; cbn [snd] in *.
  - eapply quiet_step_trans; [exact Hm|apply Hk].
  - exact Hm.
Qed.

Lemma quiet_try_except {A : Type} (catches : exn -> bool) (m : M A)
  (h : exn -> M A) :
  quiet m -> (forall e, quiet (h e)) -> quiet (try_except catches m h).
Proof.
  intros Hm Hh s. unfold try_except. specialize (Hm s).
  destruct (m s) as [[a|e] s']; cbn [snd] in *; [exact Hm|].
  destruct (catches e); [|exact Hm].
  eapply quiet_step_trans; [exact Hm|apply Hh].
Qed.

Lemma quiet_try_finally {A : Type} (m : M A) (fin : M unit) :
  quiet m -> quiet fin -> quiet (try_finally m fin).
Proof.
  intros Hm Hf s. unfold try_finally. specialize (Hm s).
  destruct (m s) as [r s']. specialize (Hf s'). cbn [snd] in *.
  destruct (fin s') as [[u|e] s'']; cbn [snd] in *;
    eapply quiet_step_trans; eassumption.
Qed.

Lemma quiet_emit (ev : event) : is_pace_event ev = false -> quiet (emit ev).
Proof. intros Hev s. eapply quiet_step_event; [reflexivity|exact Hev]. Qed.

Lemma quiet_update_self (f : RouterCheckin -> RouterCheckin) :
  quiet (update_self f).
Proof. intros s. apply quiet_step_same_trace. reflexivity. Qed.

Lemma quiet_get_self : quiet get_self.
Proof. intros s. apply quiet_step_refl. Qed.

Lemma quiet_browse (env : Env) (url : string) (timeout : Z) :
  quiet (browse env url timeout).
Proof. intros s. eapply quiet_step_event; reflexivity. Qed.

Lemma quiet_client_get (env : Env) (url : string) (c : Cookies) (a : string) :
  quiet (client_get env url c a).
Proof. intros s. eapply quiet_step_event; reflexivity. Qed.

Lemma quiet_client_post (env : Env) (url : string) (c : Cookies) (a : string) :
  quiet (client_post env url c a).
Proof. intros s. eapply quiet_step_event; reflexivity. Qed.

Lemma quiet_now (env : Env) : quiet (now_isoformat env).
Proof. intros s. apply quiet_step_same_trace. reflexivity. Qed.

Lemma quiet_login (env : Env) (email password : string) :
  quiet (_login_agentrouter env email password).
Proof. intros s. eapply quiet_step_event; reflexivity. Qed.

Lemma quiet_write_file (env : Env) (ev : event) (store : World -> World) :
  is_pace_event ev = false ->
  (forall w, trace (store w) = trace w) ->
  quiet (write_file env ev store).
Proof.
  intros Hev Hstore s. unfold write_file.
  destruct (env_write env (writes (world s))) as [u|e]; cbn [snd];
    eapply quiet_step_event; try exact Hev; cbn [world];
    try rewrite Hstore; reflexivity.
Qed.

Create HintDb quiet.
#[local] Hint Resolve quiet_ret quiet_raise quiet_lift quiet_update_self
  quiet_get_self quiet_browse quiet_client_get quiet_client_post quiet_now
  quiet_login : quiet.

Ltac quiet_step_tac :=
  first
    [ solve [auto with quiet]
    | progress cbv zeta
    | apply quiet_bind; [|intros ?]
    | apply quiet_try_except; [|intros ?]
    | apply quiet_try_finally
    | apply quiet_emit; reflexivity
    | apply quiet_write_file; [reflexivity|intros ?; reflexivity]
    | match goal with
      | |- quiet (if ?b then _ else _) => destruct b
      | |- quiet (match ?x with _ => _ end) => destruct x
      | |- quiet (let (_, _) := ?x in _) => destruct x
      end ].

Ltac quiet_tac := repeat quiet_step_tac.

Lemma quiet_make_result (env : Env) (platform name : string) (success : bool)
  (message : string) (balance : option Balance) :
  quiet (_make_result env platform name success message balance).
Proof. unfold _make_result. quiet_tac. Qed.

Lemma quiet_get_waf_cookies (env : Env) (name url : string) (timeout : Z) :
  quiet (_get_waf_cookies env name url timeout).
Proof. unfold _get_waf_cookies. quiet_tac. Qed.

Lemma quiet_fallback (env : Env) (name : string) (urls : list string) :
  quiet (_get_waf_cookies_with_fallback env name urls).
Proof.
  induction urls as [|url rest IH]; cbn [_get_waf_cookies_with_fallback].
  - apply quiet_ret.
  - apply quiet_bind; [apply quiet_get_waf_cookies|]. intros cookies.
    destruct (cookies_truthy cookies); [apply quiet_ret|exact IH].
Qed.

Lemma quiet_fetch_balance (rt : PyRuntime) (env : Env) (url : string)
  (c : Cookies) (a : string) : quiet (fetch_balance rt env url c a).
Proof. unfold fetch_balance. quiet_tac. Qed.

Lemma quiet_sign_in_accepted (result : JValue) : quiet (sign_in_accepted result).
Proof. unfold sign_in_accepted. quiet_tac. Qed.

Lemma quiet_failure_detail (result : JValue) : quiet (failure_detail result).
Proof. unfold failure_detail. quiet_tac. Qed.

#[local] Hint Resolve quiet_make_result quiet_get_waf_cookies quiet_fallback
  quiet_fetch_balance quiet_sign_in_accepted quiet_failure_detail : quiet.

Lemma quiet_do_anyrouter_checkin (rt : PyRuntime) (env : Env) (name : string)
  (c : Cookies) (a : string) : quiet (_do_anyrouter_checkin rt env name c a).
Proof. unfold _do_anyrouter_checkin. quiet_tac. Qed.

Lemma quiet_do_agentrouter_checkin (rt : PyRuntime) (env : Env) (name : string)
  (c : Cookies) (a : string) : quiet (_do_agentrouter_checkin rt env name c a).
Proof. unfold _do_agentrouter_checkin. quiet_tac. Qed.

Lemma quiet_show_balance_change (key : string) (b : Balance) :
  quiet (_show_balance_change key b).
Proof. unfold _show_balance_change. quiet_tac. Qed.

#[local] Hint Resolve quiet_do_anyrouter_checkin quiet_do_agentrouter_checkin
  quiet_show_balance_change : quiet.

Lemma quiet_record_and_report (env : Env) (platform prefix name : string)
  (answer : bool * string * option Balance) :
  quiet (record_and_report env platform prefix name answer).
Proof.
  destruct answer as [[success message] balance].
  unfold record_and_report, set_current_balance. quiet_tac.
Qed.

Lemma quiet_checkin_error (env : Env) (platform name : string) (e : exn) :
  quiet (checkin_error env platform name e).
Proof. unfold checkin_error. quiet_tac. Qed.

#[local] Hint Resolve quiet_record_and_report quiet_checkin_error : quiet.

Lemma quiet_anyrouter_pipeline (rt : PyRuntime) (env : Env)
  (platform name : string) (account : Account) :
  quiet (anyrouter_pipeline rt env platform name account).
Proof. unfold anyrouter_pipeline. quiet_tac. Qed.

Lemma quiet_agentrouter_session (rt : PyRuntime) (env : Env)
  (platform name : string) (account : Account) :
  quiet (agentrouter_session rt env platform name account).
Proof. unfold agentrouter_session. quiet_tac. Qed.

#[local] Hint Resolve quiet_agentrouter_session : quiet.

Lemma quiet_agentrouter_pipeline (rt : PyRuntime) (env : Env)
  (platform name : string) (account : Account) :
  quiet (agentrouter_pipeline rt env platform name account).
Proof. unfold agentrouter_pipeline. quiet_tac. Qed.

(** *** Results of the per-account functions *)

Lemma never_raises_ret {A : Type} (a : A) : never_raises (ret a).
Proof. intros s. exists a. reflexivity. Qed.

Lemma never_raises_bind {A B : Type} (m : M A) (k : A -> M B) :
  never_raises m -> (forall a, never_raises (k a)) -> never_raises (bind m k).
Proof.
  intros Hm Hk s. unfold bind. destruct (Hm s) as [a Ha].
  destruct (m s) as [r s']. cbn [fst] in Ha. subst r. apply Hk.
Qed.

Lemma never_raises_try_all {A : Type} (m : M A) (h : exn -> M A) :
  (forall e, never_raises (h e)) -> never_raises (try_except is_Exception m h).
Proof.
  intros Hh s. unfold try_except, is_Exception.
  destruct (m s) as [[a|e] s']; [exists a; reflexivity|apply Hh].
Qed.

Lemma never_raises_emit (ev : event) : never_raises (emit ev).
Proof. intros s. exists tt. reflexivity. Qed.

Lemma never_raises_make_result (env : Env) (platform name : string)
  (success : bool) (message : string) (balance : option Balance) :
  never_raises (_make_result env platform name success message balance).
Proof. intros s. eexists. reflexivity. Qed.

Lemma never_raises_checkin_error (env : Env) (platform name : string) (e : exn) :
  never_raises (checkin_error env platform name e).
Proof. apply never_raises_make_result. Qed.

Lemma yields_ret {A : Type} (P : A -> Prop) (a : A) : P a -> yields P (ret a).
Proof. intros H s a' Ha. injection Ha as <-. exact H. Qed.

Lemma yields_bind {A B : Type} (P : B -> Prop) (m : M A) (k : A -> M B) :
  (forall a, yields P (k a)) -> yields P (bind m k).
Proof.
  intros Hk s b. unfold bind. destruct (m s) as [[a|e] s'].
  - apply Hk.
  - discriminate.
Qed.

Lemma yields_bind_with {A B : Type} (Q : A -> Prop) (P : B -> Prop) (m : M A)
  (k : A -> M B) :
  yields Q m -> (forall a, Q a -> yields P (k a)) -> yields P (bind m k).
Proof.
  intros Hm Hk s b. unfold bind. specialize (Hm s).
  destruct (m s) as [[a|e] s']; cbn [fst] in *.
  - apply Hk. apply Hm. reflexivity.
  - discriminate.
Qed.

Lemma yields_try_except {A : Type} (P : A -> Prop) (catches : exn -> bool)
  (m : M A) (h : exn -> M A) :
  yields P m -> (forall e, yields P (h e)) -> yields P (try_except catches m h).
Proof.
  intros Hm Hh s a. unfold try_except. specialize (Hm s).
  destruct (m s) as [[a'|e] s']; cbn [fst] in *.
  - exact (Hm a).
  - destruct (catches e); [apply Hh|discriminate].
Qed.

Lemma yields_make_result (env : Env) (platform name : string) (success : bool)
  (message : string) (balance : option Balance) :
  yields (labelled platform name)
         (_make_result env platform name success message balance).
Proof. intros s o H. injection H as <-. split; reflexivity. Qed.

Lemma yields_record_and_report (env : Env) (platform prefix name : string)
  (answer : bool * string * option Balance) :
  yields (labelled platform name)
         (record_and_report env platform prefix name answer).
Proof.
  destruct answer as [[success message] balance]. unfold record_and_report.
  apply yields_bind. intros _. apply yields_make_result.
Qed.

Ltac yields_tac :=
  repeat first
    [ apply yields_make_result
    | apply yields_record_and_report
    | apply yields_bind; intros ?
    | match goal with
      | |- yields _ (if ?b then _ else _) => destruct b
      | |- yields _ (match ?x with _ => _ end) => destruct x
      end ].

Lemma yields_anyrouter_pipeline (rt : PyRuntime) (env : Env)
  (platform name : string) (account : Account) :
  yields (labelled platform name)
         (anyrouter_pipeline rt env platform name account).
Proof. unfold anyrouter_pipeline. cbv zeta. yields_tac. Qed.

Lemma yields_agentrouter_session (rt : PyRuntime) (env : Env)
  (platform name : string) (account : Account) :
  yields (fun r => match r with
                   | inl o => labelled platform name o
                   | inr _ => True
                   end)
         (agentrouter_session rt env platform name account).
Proof.
  unfold agentrouter_session. cbv zeta.
  repeat first
    [ apply yields_ret; exact I
    | apply yields_bind_with with (Q := labelled platform name);
        [apply yields_make_result|intros o Ho; apply yields_ret; exact Ho]
    | apply yields_bind; intros ?
    | match goal with
      | |- yields _ (if ?b then _ else _) => destruct b
      | |- yields _ (match ?x with _ => _ end) => destruct x
      end ].
Qed.

Lemma yields_agentrouter_pipeline (rt : PyRuntime) (env : Env)
  (platform name : string) (account : Account) :
  yields (labelled platform name)
         (agentrouter_pipeline rt env platform name account).
Proof.
  unfold agentrouter_pipeline.
  eapply yields_bind_with; [apply yields_agentrouter_session|].
  intros [early|[all_cookies api_user]] H.
  - apply yields_ret. exact H.
  - apply yields_bind. intros answer. apply yields_record_and_report.
Qed.

(** The boundary of a per-account function: the start is announced, and
    whatever the [try] block does, a labelled result comes back. *)
Lemma boundary_spec (env : Env) (platform name : string) (body : M Outcome)
  (s : State) :
  quiet body ->
  yields (labelled platform name) body ->
  exists o s' work,
    bind (emit (EvProcessing platform name))
         (fun _ => try_except is_Exception body
                     (checkin_error env platform name)) s = (Ok o, s') /\
    labelled platform name o /\
    trace (world s') =
      (trace (world s) ++ EvProcessing platform name :: work)%list /\
    pace_view work = [].
Proof.
  intros Hq Hy. unfold bind at 1. unfold emit, update_world.
  set (s0 := {| self := self s; world := push (EvProcessing platform name) (world s) |}).
  set (m := try_except is_Exception body (checkin_error env platform name)).
  assert (Hnr : never_raises m)
    by (apply never_raises_try_all; intros e; apply never_raises_checkin_error).
  assert (Hqm : quiet m)
    by (apply quiet_try_except; [exact Hq|intros e; apply quiet_checkin_error]).
  assert (Hym : yields (labelled platform name) m).
  { apply yields_try_except; [exact Hy|]. intros e. apply yields_make_result. }
  destruct (Hnr s0) as [o Ho]. destruct (Hqm s0) as (work & Htrace & Hwork).
  specialize (Hym s0 o Ho).
  destruct (m s0) as [r s'] eqn:Hm. cbn [fst snd] in *. subst r.
  exists o, s', work. split; [reflexivity|]. split; [exact Hym|].
  split; [|exact Hwork].
  rewrite Htrace. subst s0. cbn [world push trace].
  rewrite <- app_assoc. reflexivity.
Qed.

Lemma checkin_anyrouter_spec (rt : PyRuntime) (env : Env) (account : Account)
  (index : nat) (s : State) :
  exists o s' work,
    checkin_anyrouter rt env account index s = (Ok o, s') /\
    labelled "AnyRouter" (anyrouter_name account index) o /\
    trace (world s') =
      (trace (world s)
       ++ EvProcessing "AnyRouter" (anyrouter_name account index) :: work)%list /\
    pace_view work = [].
Proof.
  unfold checkin_anyrouter. cbv zeta. apply boundary_spec.
  - apply quiet_anyrouter_pipeline.
  - apply yields_anyrouter_pipeline.
Qed.

Lemma checkin_agentrouter_spec (rt : PyRuntime) (env : Env) (account : Account)
  (index : nat) (s : State) :
  exists o s' work,
    checkin_agentrouter rt env account index s = (Ok o, s') /\
    labelled "AgentRouter" (agentrouter_name account index) o /\
    trace (world s') =
      (trace (world s)
       ++ EvProcessing "AgentRouter" (agentrouter_name account index) :: work)%list /\
    pace_view work = [].
Proof.
  unfold checkin_agentrouter. cbv zeta. apply boundary_spec.
  - apply quiet_agentrouter_pipeline.
  - apply yields_agentrouter_pipeline.
Qed.

(** *** [run_all] *)

Lemma account_blocks_pace (platform : string) (label : Account -> nat -> string)
  (accounts : list Account) :
  forall index evs,
  account_blocks platform label index accounts evs ->
  pace_view evs = pace_of_accounts platform label index accounts.
Proof.
  induction accounts as [|account rest IH]; intros index evs H; simpl in H.
  - subst evs. reflexivity.
  - destruct H as (work & more & -> & Hwork & Hmore).
    change (EvProcessing platform (label account index) :: work ++ EvSleep 2 :: more)%list
      with ([EvProcessing platform (label account index)] ++ work
            ++ [EvSleep 2] ++ more)%list.
    rewrite !pace_view_app, Hwork, (IH _ _ Hmore). reflexivity.
Qed.

Lemma checkin_loop_spec (platform : string) (label : Account -> nat -> string)
  (checkin : Account -> nat -> M Outcome) :
  (forall account index s,
     exists o s' work,
       checkin account index s = (Ok o, s') /\
       labelled platform (label account index) o /\
       trace (world s') =
         (trace (world s) ++ EvProcessing platform (label account index) :: work)%list /\
       pace_view work = []) ->
  forall accounts index s,
  exists results s' evs,
    checkin_loop checkin index accounts s = (Ok results, s') /\
    map o_name results = labels_of_accounts label index accounts /\
    map o_platform results = repeat platform (length accounts) /\
    trace (world s') = (trace (world s) ++ evs)%list /\
    account_blocks platform label index accounts evs.
Proof.
  intros Hcheckin. induction accounts as [|account rest IH]; intros index s.
  - exists [], s, []. cbn [checkin_loop]. split; [reflexivity|].
    split; [reflexivity|]. split; [reflexivity|].
    split; [symmetry; apply app_nil_r|reflexivity].
  - cbn [checkin_loop]. unfold bind at 1.
    destruct (Hcheckin account index s) as (o & s1 & work & Hrun & [Hp Hn] & Ht & Hw).
    rewrite Hrun. unfold bind at 1. unfold sleep, emit, update_world.
    set (s2 := {| self := self s1; world := push (EvSleep 2) (world s1) |}).
    destruct (IH (S index) s2) as (results & s3 & more & Hloop & Hnames & Hplat & Ht3 & Hblocks).
    unfold bind. rewrite Hloop. unfold ret.
    exists (o :: results), s3,
      (EvProcessing platform (label account index) :: work ++ EvSleep 2 :: more)%list.
    split; [reflexivity|].
    split; [cbn [map labels_of_accounts]; rewrite Hn, Hnames; reflexivity|].
    split; [cbn [map length repeat]; rewrite Hp, Hplat; reflexivity|].
    split.
    + rewrite Ht3. subst s2. cbn [world push trace]. rewrite Ht.
      rewrite <- !app_assoc. reflexivity.
    + cbn [account_blocks]. exists work, more. repeat split; assumption.
Qed.

Lemma run_quietly {A : Type} (m : M A) (s : State) :
  never_raises m -> quiet m ->
  exists a s' evs,
    m s = (Ok a, s') /\
    trace (world s') = (trace (world s) ++ evs)%list /\ pace_view evs = [].
Proof.
  intros Hn Hq. destruct (Hn s) as [a Ha]. destruct (Hq s) as (evs & Ht & Hp).
  destruct (m s) as [r s']. cbn [fst snd] in *. subst r.
  exists a, s', evs. repeat split; assumption.
Qed.

Lemma never_raises_summary (name : string) (results : list Outcome) :
  never_raises (summary_if_any name results).
Proof.
  intros s. unfold summary_if_any, _print_platform_summary.
  destruct results; [exists tt; reflexivity|].
  destruct (sum_balances _) as [[h q] u]. exists tt. reflexivity.
Qed.

Lemma quiet_summary (name : string) (results : list Outcome) :
  quiet (summary_if_any name results).
Proof.
  unfold summary_if_any, _print_platform_summary.
  destruct results; [apply quiet_ret|].
  destruct (sum_balances _) as [[h q] u]. apply quiet_emit. reflexivity.
Qed.

Lemma never_raises_check_balance_change (rt : PyRuntime) (env : Env) :
  never_raises (_check_balance_change rt env).
Proof.
  intros s. rewrite check_balance_change_run.
  destruct (dict_nonempty (current_balances (self s))); [|exists tt; reflexivity].
  cbv zeta. match goal with |- context [bind _ _ ?s1] =>
    destruct (save_ledger_run env
      (_generate_balance_hash rt (current_balances (self s))) s1) as (H1 & _) end.
  exists tt. exact H1.
Qed.

Lemma quiet_check_balance_change (rt : PyRuntime) (env : Env) :
  quiet (_check_balance_change rt env).
Proof.
  unfold _check_balance_change, _save_balance_hash, _save_balance_data,
    set_balance_changed.
  quiet_tac.
Qed.


(** C3, as the code has it.  [run_all] never raises and returns one result
    per account, the AnyRouter accounts first and then the AgentRouter
    accounts, each list in its order.  What it does is: for each account in
    that order its start, its own work and then a delay of two seconds, the
    last account of the last platform included; a summary after each
    platform; the balance check at the end. *)
Theorem run_all_pace (rt : PyRuntime) (env : Env)
  (anyrouter_accounts agentrouter_accounts : list Account) (s : State) :
  exists results s' any_events any_summary agent_events agent_summary closing,
    run_all rt env anyrouter_accounts agentrouter_accounts s = (Ok results, s') /\
    map o_name results =
      (labels_of_accounts anyrouter_name 0 anyrouter_accounts
       ++ labels_of_accounts agentrouter_name 0 agentrouter_accounts)%list /\
    map o_platform results =
      (repeat "AnyRouter" (length anyrouter_accounts)
       ++ repeat "AgentRouter" (length agentrouter_accounts))%list /\
    events_since s s' =
      (any_events ++ any_summary ++ agent_events ++ agent_summary ++ closing)%list /\
    account_blocks "AnyRouter" anyrouter_name 0 anyrouter_accounts any_events /\
    account_blocks "AgentRouter" agentrouter_name 0 agentrouter_accounts agent_events /\
    pace_view any_summary = [] /\ pace_view agent_summary = [] /\
    pace_view closing = [] /\
    pace_view (events_since s s') =
      (pace_of_accounts "AnyRouter" anyrouter_name 0 anyrouter_accounts
       ++ pace_of_accounts "AgentRouter" agentrouter_name 0 agentrouter_accounts)%list.
Proof.
  unfold run_all. unfold bind at 1.
  destruct (checkin_loop_spec "AnyRouter" anyrouter_name (checkin_anyrouter rt env)
              (checkin_anyrouter_spec rt env) anyrouter_accounts 0%nat s)
    as (r1 & s1 & e1 & Hrun1 & Hn1 & Hp1 & Ht1 & Hb1).
  rewrite Hrun1. unfold bind at 1.
  destruct (run_quietly (summary_if_any "AnyRouter" r1) s1
              (never_raises_summary _ _) (quiet_summary _ _))
    as ([] & s2 & e2 & Hrun2 & Ht2 & Hq2).
  rewrite Hrun2. unfold bind at 1.
  destruct (checkin_loop_spec "AgentRouter" agentrouter_name (checkin_agentrouter rt env)
              (checkin_agentrouter_spec rt env) agentrouter_accounts 0%nat s2)
    as (r3 & s3 & e3 & Hrun3 & Hn3 & Hp3 & Ht3 & Hb3).
  rewrite Hrun3. unfold bind at 1.
  destruct (run_quietly (summary_if_any "AgentRouter" r3) s3
              (never_raises_summary _ _) (quiet_summary _ _))
    as ([] & s4 & e4 & Hrun4 & Ht4 & Hq4).
  rewrite Hrun4. unfold bind at 1.
  destruct (run_quietly (_check_balance_change rt env) s4
              (never_raises_check_balance_change _ _)
              (quiet_check_balance_change _ _))
    as ([] & s5 & e5 & Hrun5 & Ht5 & Hq5).
  rewrite Hrun5. unfold ret.
  assert (Hevents : events_since s s5 = (e1 ++ e2 ++ e3 ++ e4 ++ e5)%list).
  { apply events_since_app. rewrite Ht5, Ht4, Ht3, Ht2, Ht1.
    rewrite <- !app_assoc. reflexivity. }
  exists (r1 ++ r3)%list, s5, e1, e2, e3, e4, e5.
  split; [reflexivity|].
  split; [rewrite map_app, Hn1, Hn3; reflexivity|].
  split; [rewrite map_app, Hp1, Hp3; reflexivity|].
  split; [exact Hevents|].
  split; [exact Hb1|]. split; [exact Hb3|].
  split; [exact Hq2|]. split; [exact Hq4|]. split; [exact Hq5|].
  rewrite Hevents, !pace_view_app, Hq2, Hq4, Hq5.
  rewrite (account_blocks_pace _ _ _ _ _ Hb1), (account_blocks_pace _ _ _ _ _ Hb3).
  rewrite !app_nil_r. reflexivity.
Qed.

(** *** What the check-in requests return *)

Lemma after_requests_trace (env : Env) (self_url sign_in_url : string)
  (c : Cookies) (a : string) (s : State) :
  trace (world (after_requests env self_url sign_in_url c a s)) =
  (trace (world s) ++ request_events self_url sign_in_url c a)%list.
Proof.
  unfold after_requests, request_events, emit, update_world, client_post,
    client_get. cbn [snd world trace push].
  rewrite <- !app_assoc. reflexivity.
Qed.

Lemma after_requests_self (env : Env) (self_url sign_in_url : string)
  (c : Cookies) (a : string) (s : State) :
  self (after_requests env self_url sign_in_url c a s) = self s.
Proof. reflexivity. Qed.

Ltac run_checkin_state :=
  unfold _do_anyrouter_checkin, _do_agentrouter_checkin, is_Exception,
    after_requests;
  unfold_m; rewrite !fetch_balance_run;
  unfold client_post, client_get;
  cbn [fst snd self world posts gets trace push].

Lemma do_anyrouter_checkin_answered (rt : PyRuntime) (env : Env) (name : string)
  (c : Cookies) (a : string) (s : State) (response : Response) :
  env_post env (posts (world s)) = Ok response ->
  exists success message,
    _do_anyrouter_checkin rt env name c a s =
    (Ok (success, message, step1_balance rt env (gets (world s))),
     after_requests env ANYROUTER_SELF_URL ANYROUTER_SIGN_IN_URL c a s) /\
    ((status_code response =? 200)%Z = false -> success = false).
Proof.
  intros Hpost. run_checkin_state. rewrite Hpost. cbn [fst snd].
  destruct (status_code response =? 200)%Z.
  - destruct (json response) as [result|e].
    + unfold sign_in_accepted, failure_detail. unfold_m.
      destruct (Py.get result "ret") as [v1|e1].
      * destruct (Py.eq_int v1 1).
        { do 2 eexists. split; [reflexivity|discriminate]. }
        destruct (Py.get result "code") as [v2|e2].
        -- destruct (Py.eq_int v2 0).
           { do 2 eexists. split; [reflexivity|discriminate]. }
           destruct (Py.get result "success") as [v3|e3].
           ++ destruct (Py.truthy v3).
              { do 2 eexists. split; [reflexivity|discriminate]. }
              destruct (Py.get_default result "message" (JStr MSG_UNKNOWN_ERROR)) as [v4|e4].
              ** destruct (Py.get_default result "msg" v4) as [v5|e5];
                   [|destruct (PyStr.contains _ _)];
                   do 2 eexists; (split; [reflexivity|discriminate]).
              ** destruct (PyStr.contains _ _);
                   do 2 eexists; (split; [reflexivity|discriminate]).
           ++ destruct (PyStr.contains _ _);
                do 2 eexists; (split; [reflexivity|discriminate]).
        -- destruct (PyStr.contains _ _);
             do 2 eexists; (split; [reflexivity|discriminate]).
      * destruct (PyStr.contains _ _);
          do 2 eexists; (split; [reflexivity|discriminate]).
    + destruct (PyStr.contains _ _);
        do 2 eexists; (split; [reflexivity|discriminate]).
  - do 2 eexists. split; reflexivity.
Qed.

Lemma do_agentrouter_checkin_answered (rt : PyRuntime) (env : Env)
  (name : string) (c : Cookies) (a : string) (s : State) (response : Response) :
  env_post env (posts (world s)) = Ok response ->
  (status_code response =? 200)%Z = false \/
    (exists fields, json response = Ok (JDict fields)) ->
  exists success message,
    _do_agentrouter_checkin rt env name c a s =
    (Ok (success, message, step1_balance rt env (gets (world s))),
     after_requests env AGENTROUTER_SELF_URL AGENTROUTER_SIGN_IN_URL c a s) /\
    ((status_code response =? 200)%Z = false ->
     (status_code response =? 404)%Z = false -> success = false).
Proof.
  intros Hpost Hshape. run_checkin_state. rewrite Hpost. cbn [fst snd].
  destruct (status_code response =? 200)%Z eqn:H200.
  - destruct Hshape as [Hne|[fields Hjson]]; [discriminate|]. rewrite Hjson.
    unfold sign_in_accepted, failure_detail, Py.get, Py.get_default. unfold_m.
    destruct (Py.eq_int _ 1);
      [do 2 eexists; split; [reflexivity|discriminate]|].
    destruct (Py.eq_int _ 0);
      [do 2 eexists; split; [reflexivity|discriminate]|].
    destruct (Py.truthy _);
      do 2 eexists; (split; [reflexivity|discriminate]).
  - destruct (status_code response =? 404)%Z.
    + destruct (step1_balance rt env (gets (world s)));
        do 2 eexists; (split; [reflexivity|discriminate]).
    + do 2 eexists. split; reflexivity.
Qed.


(** *** Recording the balance *)

Lemma dict_get_set_eq {V : Type} (k : string) (v : V) (d : dict V) :
  dict_get k (dict_set k v d) = Some v.
Proof.
  induction d as [|[k' v'] rest IH]; simpl.
  - rewrite String.eqb_refl. reflexivity.
  - destruct (String.eqb k k') eqn:E; simpl; rewrite ?String.eqb_refl, ?E;
      [reflexivity|exact IH].
Qed.

Lemma record_and_report_run (env : Env) (platform prefix name : string)
  (success : bool) (message : string) (b : Balance) (s : State) :
  exists s',
    record_and_report env platform prefix name (success, message, Some b) s =
    (Ok {| o_platform := platform; o_name := name; o_success := success;
           o_message := message;
           o_timestamp := env_now env (clock_reads (world s));
           o_balance := Some b |}, s') /\
    current_balances (self s') =
      dict_set (prefix +s name) b (current_balances (self s)) /\
    last_balance_data (self s') = last_balance_data (self s) /\
    trace (world s') =
      (trace (world s) ++ delta_report (prefix +s name) b (self s))%list.
Proof.
  unfold record_and_report, set_current_balance, _make_result, now_isoformat.
  unfold_m. rewrite show_balance_change_run. unfold delta_report.
  cbn [fst snd self world last_balance_data].
  destruct (dict_get (prefix +s name) (last_balance_data (self s))) as [last|].
  - destruct (change_notice_due last b); eexists;
      (split; [reflexivity|]); cbn [self world current_balances
        last_balance_data trace after_event push];
      repeat split; rewrite ?app_nil_r; reflexivity.
  - eexists. split; [reflexivity|].
    cbn [self world current_balances last_balance_data trace].
    repeat split. rewrite app_nil_r. reflexivity.
Qed.

(** C10, as the code has it.  When the check-in request returns the balance
    of step 1, the per-account function stores it in the current-run map
    under "anyrouter_" or "agentrouter_" followed by the account name, runs
    the balance report on it and attaches it to the result, also when the
    result is a failure.  For AnyRouter this is the case whenever step 1
    obtained a balance and the POST got an answer; for AgentRouter whenever
    step 1 obtained a balance and the POST got an answer that is not a 200
    with a body other than a JSON object. *)
Theorem balance_recorded_when_returned (rt : PyRuntime) (env : Env)
  (account : Account) (index : nat) (s : State) :
  (forall api_user user_cookies waf b response,
     acc_api_user account = Some api_user ->
     api_user <> EmptyString ->
     parse_cookies rt (or_default (acc_cookies account) (JDict [])) = Ok user_cookies ->
     dict_nonempty user_cookies = true ->
     harvest env (browses (world s)) = Ok (Some waf) ->
     step1_balance rt env (gets (world s)) = Some b ->
     env_post env (posts (world s)) = Ok response ->
     let name := anyrouter_name account index in
     let key := "anyrouter_" +s name in
     exists o s',
       checkin_anyrouter rt env account index s = (Ok o, s') /\
       o_balance o = Some b /\
       dict_get key (current_balances (self s')) = Some b /\
       events_since s s' =
         ([EvProcessing "AnyRouter" name; EvBrowse ANYROUTER_LOGIN_URL 30000]
          ++ request_events ANYROUTER_SELF_URL ANYROUTER_SIGN_IN_URL
               (dict_merge waf user_cookies) api_user
          ++ delta_report key b (self s))%list /\
       ((status_code response =? 200)%Z = false -> o_success o = false)) /\
  (forall s1 cookies api_user b response,
     let name := agentrouter_name account index in
     let key := "agentrouter_" +s name in
     agentrouter_session rt env "AgentRouter" name account
       (after_event (EvProcessing "AgentRouter" name) s)
       = (Ok (inr (cookies, api_user)), s1) ->
     step1_balance rt env (gets (world s1)) = Some b ->
     env_post env (posts (world s1)) = Ok response ->
     (status_code response =? 200)%Z = false \/
       (exists fields, json response = Ok (JDict fields)) ->
     exists o s',
       checkin_agentrouter rt env account index s = (Ok o, s') /\
       o_balance o = Some b /\
       dict_get key (current_balances (self s')) = Some b /\
       events_since s1 s' =
         (request_events AGENTROUTER_SELF_URL AGENTROUTER_SIGN_IN_URL
            cookies api_user
          ++ delta_report key b (self s1))%list /\
       ((status_code response =? 200)%Z = false ->
        (status_code response =? 404)%Z = false -> o_success o = false)).
Proof.
  split.
  - intros api_user user_cookies waf b response
      Huser Hne Hparse Hcookies Hwaf Hbal Hpost. cbv zeta.
    unfold checkin_anyrouter, anyrouter_pipeline. cbv zeta.
    rewrite Huser. cbn [or_default].
    apply string_eqb_false_iff in Hne. rewrite Hne, Hparse.
    unfold bind at 1. unfold emit, update_world.
    unfold try_except, is_Exception. unfold bind at 1. unfold lift.
    rewrite Hcookies. cbn [negb]. unfold bind at 1.
    rewrite get_waf_cookies_run. cbn [world push browses]. rewrite Hwaf.
    rewrite (harvest_nonempty _ _ _ Hwaf). unfold bind at 1.
    unfold browse, push.
    cbn [snd self world trace browses gets posts logins writes clock_reads
         hash_file data_file].
    match goal with |- context [_do_anyrouter_checkin rt env ?n ?c ?a ?st] =>
      pose proof (do_anyrouter_checkin_answered rt env n c a st response Hpost)
        as Hans
    end.
    destruct Hans as (success & message & Hrun & Hfail).
    cbn [world gets] in Hrun. rewrite Hbal in Hrun. rewrite Hrun.
    match goal with |- context [record_and_report env ?p ?k ?n ?ans ?st] =>
      destruct (record_and_report_run env p k n success message b st)
        as (s' & Hrec & Hcur & Hlast & Htrace);
      rewrite Hrec
    end.
    eexists. exists s'. split; [reflexivity|]. cbn [o_balance o_success].
    split; [reflexivity|].
    split; [rewrite Hcur; apply dict_get_set_eq|].
    split; [|exact Hfail].
    apply events_since_app. rewrite Htrace, after_requests_trace.
    rewrite after_requests_self. cbn [self world trace].
    rewrite <- !app_assoc. reflexivity.
  - intros s1 cookies api_user b response. cbv zeta.
    intros Hsession Hbal Hpost Hshape.
    unfold checkin_agentrouter, agentrouter_pipeline. cbv zeta.
    unfold bind at 1. unfold emit, update_world.
    unfold try_except, is_Exception. unfold bind at 1.
    change {| self := self s;
              world := push (EvProcessing "AgentRouter" (agentrouter_name account index))
                            (world s) |}
      with (after_event (EvProcessing "AgentRouter" (agentrouter_name account index)) s).
    rewrite Hsession. unfold bind at 1.
    destruct (do_agentrouter_checkin_answered rt env
                (agentrouter_name account index) cookies api_user s1 response
                Hpost Hshape) as (success & message & Hrun & Hfail).
    rewrite Hbal in Hrun. rewrite Hrun.
    match goal with |- context [record_and_report env ?p ?k ?n ?ans ?st] =>
      destruct (record_and_report_run env p k n success message b st)
        as (s' & Hrec & Hcur & Hlast & Htrace);
      rewrite Hrec
    end.
    eexists. exists s'. split; [reflexivity|]. cbn [o_balance o_success].
    split; [reflexivity|].
    split; [rewrite Hcur; apply dict_get_set_eq|].
    split; [|exact Hfail].
    apply events_since_app. rewrite Htrace, after_requests_trace.
    rewrite after_requests_self. rewrite <- !app_assoc. reflexivity.
Qed.

(** *** Exceptions *)



(** *** [_generate_balance_hash] *)

Lemma leb_iff (a b : string) :
  PyStr.leb a b = true <-> a = b \/ String_as_OT.lt a b.
Proof.
  unfold PyStr.leb.
  destruct (String_as_OT.compare_spec a b) as [Heq|Hlt|Hgt].
  - split; [intros _; left; exact Heq|reflexivity].
  - split; [intros _; right; exact Hlt|reflexivity].
  - split; [discriminate|]. intros [->|Hlt]; exfalso.
    + exact (StrictOrder_Irreflexive _ Hgt).
    + exact (StrictOrder_Irreflexive _ (StrictOrder_Transitive _ _ _ Hlt Hgt)).
Qed.

Lemma leb_total (a b : string) : PyStr.leb a b = true \/ PyStr.leb b a = true.
Proof.
  rewrite !leb_iff.
  destruct (String_as_OT.compare_spec a b) as [Heq|Hlt|Hgt]; auto.
Qed.

Lemma leb_trans (a b c : string) :
  PyStr.leb a b = true -> PyStr.leb b c = true -> PyStr.leb a c = true.
Proof.
  rewrite !leb_iff. intros [->|H1] [->|H2]; auto.
  right. exact (StrictOrder_Transitive _ _ _ H1 H2).
Qed.

Lemma leb_antisym (a b : string) :
  PyStr.leb a b = true -> PyStr.leb b a = true -> a = b.
Proof.
  rewrite !leb_iff. intros [->|H1] [H|H2]; auto.
  exfalso. exact (StrictOrder_Irreflexive _ (StrictOrder_Transitive _ _ _ H1 H2)).
Qed.

#[local] Instance item_le_total {V : Type} : Total (@item_le V).
Proof.
  intros p q. unfold item_le.
  destruct (leb_total (fst p) (fst q)) as [H|H]; rewrite H; simpl; auto.
Qed.

#[local] Instance item_le_trans {V : Type} : Transitive (@item_le V).
Proof.
  intros p q r. unfold item_le. rewrite !Is_true_true. apply leb_trans.
Qed.

Lemma dict_get_in {V : Type} (d : dict V) (k : string) (v : V) :
  List.NoDup (dict_keys d) -> (In (k, v) d <-> dict_get k d = Some v).
Proof.
  unfold dict_keys. induction d as [|[k' v'] rest IH]; intros Hnd; simpl.
  - split; [contradiction|discriminate].
  - inversion Hnd as [|? ? Hnotin Hnd']; subst.
    destruct (String.eqb_spec k k') as [->|Hne].
    + split.
      * intros [H|H]; [injection H as ->; reflexivity|].
        exfalso. apply Hnotin. apply in_map_iff. exists (k', v). split; auto.
      * intros H. injection H as ->. left. reflexivity.
    + rewrite <- (IH Hnd'). split.
      * intros [H|H]; [injection H as -> _; contradiction|exact H].
      * intros H. right. exact H.
Qed.

Lemma simple_balances_get (balances : dict Balance) (k : string) :
  dict_get k (simple_balances balances) = option_map quota (dict_get k balances).
Proof.
  unfold simple_balances. induction balances as [|[k' v] rest IH]; simpl.
  - reflexivity.
  - destruct (String.eqb k k'); [reflexivity|exact IH].
Qed.

Lemma simple_balances_keys (balances : dict Balance) :
  dict_keys (simple_balances balances) = dict_keys balances.
Proof.
  unfold dict_keys, simple_balances. rewrite List.map_map. reflexivity.
Qed.

Lemma sorted_items_unique {V : Type} (d1 d2 : dict V) :
  List.NoDup (dict_keys d1) -> List.NoDup (dict_keys d2) ->
  (forall k, dict_get k d1 = dict_get k d2) ->
  merge_sort item_le d1 = merge_sort item_le d2.
Proof.
  intros Hnd1 Hnd2 Hsame.
  assert (Hperm : d1 ≡ₚ d2).
  { apply Permutation.NoDup_Permutation.
    - exact (NoDup_map_inv _ _ Hnd1).
    - exact (NoDup_map_inv _ _ Hnd2).
    - intros [k v]. rewrite (dict_get_in d1 k v Hnd1), (dict_get_in d2 k v Hnd2).
      rewrite Hsame. reflexivity. }
  apply (Sorted_unique_strong item_le).
  - intros [k1 v1] [k2 v2] H1 H2 Hle1 Hle2.
    unfold item_le in Hle1, Hle2. rewrite Is_true_true in Hle1, Hle2.
    cbn [fst] in *. pose proof (leb_antisym _ _ Hle1 Hle2) as ->.
    apply list_elem_of_In in H1, H2.
    rewrite merge_sort_Permutation in H1, H2.
    apply (dict_get_in d1 k2 v1 Hnd1) in H1.
    apply (dict_get_in d2 k2 v2 Hnd2) in H2.
    rewrite Hsame, H2 in H1. injection H1 as ->. reflexivity.
  - apply Sorted_merge_sort. apply _.
  - apply Sorted_merge_sort. apply _.
  - rewrite !merge_sort_Permutation. exact Hperm.
Qed.

(** The hash is a function of the quota of each key alone: two balance maps
    with the same keys and, key by key, the same quota have the same hash,
    whatever the used amounts and the order of the keys. *)
Lemma generate_balance_hash_quota_only (rt : PyRuntime) (b1 b2 : dict Balance) :
  List.NoDup (dict_keys b1) -> List.NoDup (dict_keys b2) ->
  (forall k, option_map quota (dict_get k b1) = option_map quota (dict_get k b2)) ->
  _generate_balance_hash rt b1 = _generate_balance_hash rt b2.
Proof.
  intros Hnd1 Hnd2 Hsame. unfold _generate_balance_hash, json_dumps_sorted.
  cbv zeta.
  rewrite (sorted_items_unique (simple_balances b1) (simple_balances b2)).
  - reflexivity.
  - rewrite simple_balances_keys. exact Hnd1.
  - rewrite simple_balances_keys. exact Hnd2.
  - intros k. rewrite !simple_balances_get. apply Hsame.
Qed.

Lemma take_chars_ascii (n : nat) (s : string) :
  (forall c, In c (list_ascii_of_string s) -> PyStr.is_cont c = false) ->
  (n <= String.length s)%nat ->
  String.length (PyStr.take_chars n s) = n /\
  forall c, In c (list_ascii_of_string (PyStr.take_chars n s)) ->
            In c (list_ascii_of_string s).
Proof.
  revert n. induction s as [|c s IH]; intros n Hascii Hlen; simpl in *.
  - split; [lia|contradiction].
  - rewrite (Hascii c (or_introl eq_refl)). destruct n as [|n]; simpl.
    + split; [reflexivity|contradiction].
    + destruct (IH n) as (Hl & Hin); [intros; apply Hascii; auto|lia|].
      split; [rewrite Hl; reflexivity|].
      intros d [->|Hd]; [left; reflexivity|right; apply Hin; exact Hd].
Qed.

(** When the digest is a text of 64 characters out of
    "0123456789abcdef", the hash has 16 characters out of them. *)
Lemma generate_balance_hash_hex (rt : PyRuntime) (balances : dict Balance) :
  (forall text,
     String.length (sha256_hexdigest rt text) = 64%nat /\
     forall c, In c (list_ascii_of_string (sha256_hexdigest rt text)) ->
               In c (list_ascii_of_string "0123456789abcdef")) ->
  String.length (_generate_balance_hash rt balances) = 16%nat /\
  forall c, In c (list_ascii_of_string (_generate_balance_hash rt balances)) ->
            In c (list_ascii_of_string "0123456789abcdef").
Proof.
  intros Hdigest. unfold _generate_balance_hash. cbv zeta.
  set (text := json_dumps_sorted rt (simple_balances balances)).
  destruct (Hdigest text) as (Hlen & Hhex).
  destruct (take_chars_ascii 16 (sha256_hexdigest rt text)) as (Hl & Hin).
  - intros c Hc. specialize (Hhex c Hc). simpl in Hhex.
    repeat (destruct Hhex as [<-|Hhex]; [reflexivity|]). contradiction.
  - rewrite Hlen. lia.
  - split; [exact Hl|]. intros c Hc. apply Hhex, Hin, Hc.
Qed.

(** * Examples *)

(** C1 fails for AnyRouter: step 1 obtained the balance 10.0 and 2.0, the
    sign-in POST answered 404, and [_do_anyrouter_checkin] reports a
    failure. *)
Lemma anyrouter_404_with_balance_fails :
  step1_balance Sample.rt Sample.env_404 0 = Some Sample.balance_10_2 /\
  env_post Sample.env_404 0 = Ok Sample.not_found /\
  status_code Sample.not_found = 404 /\
  fst (_do_anyrouter_checkin Sample.rt Sample.env_404 "a" [] "42" Sample.start)
  = Ok (false, "签到失败: HTTP 404", Some Sample.balance_10_2).
Proof. repeat split; vm_compute; reflexivity. Qed.

(** AgentRouter, with the balance 10.0 and 2.0 and a 404: keep-alive. *)
Lemma sign_in_404_witness :
  env_post Sample.env_404 (posts (world Sample.start)) = Ok Sample.not_found /\
  status_code Sample.not_found = 404 /\
  fst (_do_agentrouter_checkin Sample.rt Sample.env_404 "a" [] "42" Sample.start)
  = Ok (true, MSG_KEEPALIVE_OK, Some Sample.balance_10_2).
Proof.
  split; [reflexivity|]. split; [reflexivity|].
  exact (proj1 (sign_in_404 Sample.rt Sample.env_404 "a" [] "42" Sample.start
                  Sample.not_found eq_refl eq_refl)).
Defined.

(** C2 fails for AgentRouter: the POST answered 200 with a body that is not
    JSON and that contains "SUCCESS", and [_do_agentrouter_checkin] reports a
    failure, with the parse error as its message and without the balance. *)
Lemma agentrouter_unparsed_body_fails :
  env_post Sample.env_html_success 0 = Ok Sample.html_success /\
  status_code Sample.html_success = 200 /\
  (exists e, json Sample.html_success = Raise e) /\
  PyStr.contains "success" (PyStr.lower (text Sample.html_success)) = true /\
  fst (_do_agentrouter_checkin Sample.rt Sample.env_html_success "a" [] "42"
         Sample.start)
  = Ok (false, "请求异常: Expecting value: line 1 column 1 (char 0)", None).
Proof.
  split; [reflexivity|]. split; [reflexivity|]. split; [eexists; reflexivity|].
  split; vm_compute; reflexivity.
Qed.

(** AnyRouter, with a 200 and an HTML body that says SUCCESS: a success. *)
Lemma sign_in_200_unparsed_witness :
  env_post Sample.env_html_success (posts (world Sample.start))
    = Ok Sample.html_success /\
  status_code Sample.html_success = 200 /\
  fst (_do_anyrouter_checkin Sample.rt Sample.env_html_success "a" [] "42"
         Sample.start)
  = Ok (true, MSG_CHECKIN_OK, Some Sample.balance_10_2).
Proof.
  split; [reflexivity|]. split; [reflexivity|].
  exact (proj1 (sign_in_200_unparsed Sample.rt Sample.env_html_success "a" []
                  "42" Sample.start Sample.html_success _ eq_refl eq_refl
                  eq_refl)).
Defined.

(** C7 fails for a JSON body that is not an object: the POST answered 200
    with the JSON string "success"; the body has no [ret], [code] or
    [success] field, and [_do_anyrouter_checkin] reports a success. *)
Lemma anyrouter_json_string_succeeds :
  env_post Sample.env_json_string 0 = Ok Sample.json_string_success /\
  status_code Sample.json_string_success = 200 /\
  json Sample.json_string_success = Ok (JStr "success") /\
  fst (_do_anyrouter_checkin Sample.rt Sample.env_json_string "a" [] "42"
         Sample.start)
  = Ok (true, MSG_CHECKIN_OK, Some Sample.balance_10_2).
Proof. repeat split; vm_compute; reflexivity. Qed.

(** The body [{"code": 5, "msg": "cooldown"}] on both platforms. *)
Lemma sign_in_200_object_witness :
  env_post Sample.env_cooldown (posts (world Sample.start)) = Ok Sample.cooldown /\
  json Sample.cooldown = Ok (JDict Sample.cooldown_fields) /\
  fst (_do_anyrouter_checkin Sample.rt Sample.env_cooldown "a" [] "42"
         Sample.start)
  = Ok (false, "签到失败: cooldown", Some Sample.balance_10_2) /\
  fst (_do_agentrouter_checkin Sample.rt Sample.env_cooldown "a" [] "42"
         Sample.start)
  = Ok (false, "签到失败: cooldown", Some Sample.balance_10_2).
Proof.
  split; [reflexivity|]. split; [reflexivity|].
  exact (sign_in_200_object Sample.rt Sample.env_cooldown "a" [] "42"
           Sample.start Sample.cooldown Sample.cooldown_fields
           eq_refl eq_refl eq_refl).
Defined.

(** C3 fails at the end of the run: with one account, which is the last
    account of the last platform, the delay of two seconds follows its work
    and comes before the summary and the balance check. *)
Lemma run_all_sleeps_after_last_account :
  events_since Sample.start
    (snd (run_all Sample.rt Sample.env_404 [] [Sample.account "a"] Sample.start))
  = [EvProcessing "AgentRouter" "a";
     EvBrowse "https://agentrouter.org" 20000;
     EvClientOpen;
     EvGet AGENTROUTER_SELF_URL [("acw_tc", "t1"); ("session", "s1")] "42";
     EvPost AGENTROUTER_SIGN_IN_URL [("acw_tc", "t1"); ("session", "s1")] "42";
     EvClientClose;
     EvSleep 2;
     EvSummary "AgentRouter" 1 1 0
       (Some (PyFloat.of_int 10, PyFloat.of_int 2));
     EvWriteHash (_generate_balance_hash Sample.rt
                    [("agentrouter_a", Sample.balance_10_2)]);
     EvWriteData [("agentrouter_a", Sample.balance_10_2)]] /\
  List.last (pace_view (trace (world
          (snd (run_all Sample.rt Sample.env_404 [] [Sample.account "a"]
                  Sample.start)))))
       (EvSleep 0)
  = EvSleep 2.
Proof. split; vm_compute; reflexivity. Qed.

(** A second run whose hash differs from the stored one: the change is
    reported and both files are written. *)
Lemma check_balance_change_witness :
  let s := Sample.second_run in
  let out := _check_balance_change Sample.rt Sample.env_404 s in
  current_balances (self s) <> [] /\
  env_write Sample.env_404 (writes (world s)) = Ok tt /\
  env_write Sample.env_404 (S (writes (world s))) = Ok tt /\
  balance_changed (self (snd out)) = true /\
  hash_file (world (snd out)) =
    Some (_generate_balance_hash Sample.rt (current_balances (self s))) /\
  data_file (world (snd out)) =
    Some [("anyrouter_a", stored_of_balance Sample.balance_10_2)].
Proof.
  cbv zeta.
  assert (Hne : current_balances (self Sample.second_run) <> []) by discriminate.
  destruct (check_balance_change_spec Sample.rt Sample.env_404 Sample.second_run)
    as (_ & _ & H).
  destruct (H Hne) as (_ & Hchanged & _ & _ & _ & _ & Hhash & Hdata).
  split; [exact Hne|]. split; [reflexivity|]. split; [reflexivity|].
  split; [|split; [exact (Hhash eq_refl)|exact (Hdata eq_refl)]].
  apply (Hchanged "0123456789abcdef" eq_refl). vm_compute. discriminate.
Defined.

(** An unchanged balance gives no notice, and so does an account that was
    not stored. *)
Lemma show_balance_change_witness :
  let s := Sample.second_run in
  dict_get "anyrouter_a" (last_balance_data (self s))
    = Some (stored_of_balance Sample.balance_10_2) /\
  PyFloat.is_finite (PyFloat.add (quota Sample.balance_10_2)
                                 (used Sample.balance_10_2)) = true /\
  snd (_show_balance_change "anyrouter_a" Sample.balance_10_2 s) = s /\
  (dict_get "anyrouter_b" (last_balance_data (self s)) = None /\
   snd (_show_balance_change "anyrouter_b" Sample.balance_10_2 s) = s).
Proof.
  cbv zeta. split; [reflexivity|]. split; [reflexivity|].
  split.
  - exact (proj2 (proj2 (proj2 (proj2
      (show_balance_change_notice "anyrouter_a" Sample.balance_10_2
         Sample.second_run)))) eq_refl eq_refl).
  - split; [reflexivity|].
    exact (proj1 (proj2 (proj2
      (show_balance_change_notice "anyrouter_b" Sample.balance_10_2
         Sample.second_run))) eq_refl).
Defined.

(** Both URLs would give a cookie; the first one is used and the second one
    is not visited. *)
Lemma fallback_first_match_witness :
  let env := Sample.env_404 in
  let s := Sample.start in
  harvest env 0 = Ok (Some [("acw_tc", "t1")]) /\
  harvest env 1 = Ok (Some [("acw_tc", "t1")]) /\
  fst (_get_waf_cookies_with_fallback env "a" AGENTROUTER_WAF_URLS s)
    = Ok (Some [("acw_tc", "t1")]) /\
  events_since s
    (snd (_get_waf_cookies_with_fallback env "a" AGENTROUTER_WAF_URLS s))
    = [EvBrowse "https://agentrouter.org" 20000].
Proof.
  cbv zeta. split; [reflexivity|]. split; [reflexivity|].
  apply (proj1 (fallback_first_match Sample.env_404 "a" AGENTROUTER_WAF_URLS
                  Sample.start) 0%nat [("acw_tc", "t1")]).
  - simpl. lia.
  - intros i Hi. lia.
  - reflexivity.
Defined.



(** C10 fails when the sign-in POST raises: step 1 obtained the balance 10.0
    and 2.0, the POST timed out, and [checkin_anyrouter] neither stores the
    balance in the current-run map nor attaches it to the result. *)
Lemma balance_lost_when_sign_in_raises :
  let env := Sample.env_post_times_out in
  let out := checkin_anyrouter Sample.rt env (Sample.account "a") 0 Sample.start in
  step1_balance Sample.rt env 0 = Some Sample.balance_10_2 /\
  fst out
  = Ok {| o_platform := "AnyRouter"; o_name := "a"; o_success := false;
          o_message := "请求异常: The read operation timed out";
          o_timestamp := "2024-01-01T00:00:00";
          o_balance := None |} /\
  current_balances (self (snd out)) = [] /\
  dict_get "anyrouter_a" (current_balances (self (snd out))) = None.
Proof. cbv zeta. repeat split; vm_compute; reflexivity. Qed.

(** A 500 from the sign-in endpoint: the check-in fails and the balance is
    in the current-run map all the same. *)
Lemma balance_recorded_witness :
  let env := Sample.env_500 in
  let account := Sample.account "a" in
  exists o s',
    checkin_anyrouter Sample.rt env account 0 Sample.start = (Ok o, s') /\
    o_balance o = Some Sample.balance_10_2 /\
    dict_get "anyrouter_a" (current_balances (self s')) = Some Sample.balance_10_2 /\
    o_success o = false.
Proof.
  cbv zeta.
  destruct (proj1 (balance_recorded_when_returned Sample.rt Sample.env_500
                     (Sample.account "a") 0 Sample.start)
              "42" [("session", "s1")] [("acw_tc", "t1")] Sample.balance_10_2
              Sample.server_error eq_refl ltac:(discriminate) eq_refl eq_refl
              eq_refl eq_refl eq_refl)
    as (o & s' & Hrun & Hbal & Hkey & _ & Hfail).
  exists o, s'. split; [exact Hrun|]. split; [exact Hbal|].
  split; [exact Hkey|]. apply Hfail. reflexivity.
Defined.

(** * Further properties *)

(** *** Dictionaries *)

Lemma dict_get_set_ne {V : Type} (k k' : string) (v : V) (d : dict V) :
  k <> k' -> dict_get k' (dict_set k v d) = dict_get k' d.
Proof.
  intros Hne. induction d as [|[k0 v0] rest IH]; simpl.
  - destruct (String.eqb_spec k' k) as [->|_]; [contradiction|reflexivity].
  - destruct (String.eqb_spec k k0) as [->|Hk]; simpl.
    + destruct (String.eqb_spec k' k0) as [->|_]; [contradiction|reflexivity].
    + destruct (String.eqb k' k0); [reflexivity|exact IH].
Qed.

Lemma dict_get_none_keys {V : Type} (k : string) (d : dict V) :
  dict_get k d = None <-> ~ In k (dict_keys d).
Proof.
  unfold dict_keys. induction d as [|[k0 v0] rest IH]; simpl.
  - split; [intros _ []|reflexivity].
  - destruct (String.eqb_spec k k0) as [->|Hne].
    + split; [discriminate|]. intros H. exfalso. apply H. left. reflexivity.
    + rewrite IH. split.
      * intros H [Hk|Hk]; [symmetry in Hk; contradiction|contradiction].
      * intros H Hk. apply H. right. exact Hk.
Qed.

Lemma dict_set_keys {V : Type} (k : string) (v : V) (d : dict V) :
  dict_keys (dict_set k v d) =
  if dict_mem k d then dict_keys d else (dict_keys d ++ [k])%list.
Proof.
  unfold dict_keys, dict_mem. induction d as [|[k0 v0] rest IH]; simpl.
  - reflexivity.
  - destruct (String.eqb_spec k k0) as [->|Hne]; simpl; [reflexivity|].
    rewrite IH. destruct (dict_get k rest); reflexivity.
Qed.

Lemma dict_set_nodup {V : Type} (k : string) (v : V) (d : dict V) :
  List.NoDup (dict_keys d) -> List.NoDup (dict_keys (dict_set k v d)).
Proof.
  intros Hnd. rewrite dict_set_keys. unfold dict_mem.
  destruct (dict_get k d) eqn:Hget; [exact Hnd|].
  apply dict_get_none_keys in Hget.
  apply List.NoDup_app; [exact Hnd|repeat constructor; intros []|].
  intros x Hx [<-|[]]. contradiction.
Qed.

Lemma dict_set_in {V : Type} (k : string) (v : V) (d : dict V) (k' : string)
  (v' : V) :
  In (k', v') (dict_set k v d) -> (k', v') = (k, v) \/ In (k', v') d.
Proof.
  induction d as [|[k0 v0] rest IH]; simpl.
  - intros [H|[]]. left. symmetry. exact H.
  - destruct (String.eqb k k0); simpl.
    + intros [H|H]; [left; symmetry; exact H|right; right; exact H].
    + intros [H|H]; [right; left; exact H|].
      destruct (IH H) as [Heq|Hin]; [left; exact Heq|right; right; exact Hin].
Qed.

Lemma dict_set_set {V : Type} (k : string) (v1 v2 : V) (d : dict V) :
  dict_set k v2 (dict_set k v1 d) = dict_set k v2 d.
Proof.
  induction d as [|[k0 v0] rest IH]; simpl.
  - rewrite String.eqb_refl. reflexivity.
  - destruct (String.eqb k k0) eqn:E; simpl.
    + rewrite String.eqb_refl. reflexivity.
    + rewrite E, IH. reflexivity.
Qed.

(** X1.  [{**waf_cookies, **user_cookies}]: in the merged cookies a user
    cookie overrides the WAF cookie of the same name, and every other cookie
    of either side is kept. *)
Theorem merged_cookies_prefer_user (waf user : Cookies) (name : string) :
  List.NoDup (dict_keys user) ->
  dict_get name (dict_merge waf user) =
  match dict_get name user with
  | Some value => Some value
  | None => dict_get name waf
  end.
Proof.
  unfold dict_merge. revert waf.
  induction user as [|[k v] rest IH]; intros waf Hnd; cbn [fold_left].
  - reflexivity.
  - unfold dict_keys in Hnd. cbn [map fst] in Hnd.
    inversion Hnd as [|? ? Hnotin Hrest]; subst.
    rewrite (IH _ Hrest). cbn [dict_get fst snd].
    destruct (String.eqb_spec name k) as [->|Hne].
    + assert (Hnone : dict_get k rest = None)
        by (apply dict_get_none_keys; exact Hnotin).
      rewrite Hnone. apply dict_get_set_eq.
    + destruct (dict_get name rest); [reflexivity|].
      apply dict_get_set_ne. intros ->. contradiction.
Qed.

(** *** [_get_waf_cookies] *)

Lemma keep_waf_cookie_fold (all : list BrowserCookie) :
  forall (cookies : list BrowserCookie) (acc : Cookies),
  incl cookies all ->
  List.NoDup (dict_keys acc) ->
  (forall name value, In (name, value) acc ->
     In name WAF_COOKIE_NAMES /\ value <> EmptyString /\
     In {| cookie_name := Some name; cookie_value := Some value |} all) ->
  List.NoDup (dict_keys (fold_left keep_waf_cookie cookies acc)) /\
  (forall name value,
     In (name, value) (fold_left keep_waf_cookie cookies acc) ->
     In name WAF_COOKIE_NAMES /\ value <> EmptyString /\
     In {| cookie_name := Some name; cookie_value := Some value |} all).
Proof.
  induction cookies as [|cookie rest IH]; intros acc Hincl Hnd Hacc;
    cbn [fold_left].
  - split; assumption.
  - apply IH.
    + intros x Hx. apply Hincl. right. exact Hx.
    + unfold keep_waf_cookie.
      destruct (cookie_name cookie), (cookie_value cookie); try exact Hnd.
      destruct (existsb _ _ && _); [apply dict_set_nodup|]; exact Hnd.
    + intros name value Hin. unfold keep_waf_cookie in Hin.
      destruct cookie as [[n|] [v|]]; cbn [cookie_name cookie_value] in Hin;
        try (apply Hacc; exact Hin).
      destruct (existsb (String.eqb n) WAF_COOKIE_NAMES) eqn:Hlisted;
        cbn [andb] in Hin; [|apply Hacc; exact Hin].
      destruct (String.eqb v EmptyString) eqn:Hempty; cbn [negb] in Hin;
        [apply Hacc; exact Hin|].
      destruct (dict_set_in _ _ _ _ _ Hin) as [Heq|Hold];
        [|apply Hacc; exact Hold].
      injection Heq as -> ->. split; [|split].
      * apply existsb_exists in Hlisted. destruct Hlisted as (x & Hx & Heq).
        apply String.eqb_eq in Heq. subst x. exact Hx.
      * apply string_eqb_false_iff. exact Hempty.
      * apply Hincl. left. reflexivity.
Qed.

(** X2.  What [_get_waf_cookies] returns is never an empty mapping: it is
    [None] or a mapping with at least one and at most three cookies, each
    with one of the three WAF names, a non-empty value, and taken from the
    cookies the browser reported. *)
Theorem waf_cookies_whitelisted (env : Env) (account_name url : string)
  (timeout : Z) (s : State) (c : Cookies) :
  fst (_get_waf_cookies env account_name url timeout s) = Ok (Some c) ->
  c <> [] /\ (length c <= 3)%nat /\ List.NoDup (dict_keys c) /\
  exists cookies,
    env_browse env (browses (world s)) = BrCookies cookies /\
    forall name value, In (name, value) c ->
      In name WAF_COOKIE_NAMES /\ value <> EmptyString /\
      In {| cookie_name := Some name; cookie_value := Some value |} cookies.
Proof.
  unfold _get_waf_cookies, browse. unfold_m. cbn [fst snd].
  destruct (env_browse env (browses (world s))) as [e|e|cookies];
    cbn [fst]; try discriminate.
  destruct (keep_waf_cookie_fold cookies cookies [] (incl_refl _))
    as (Hnd & Hall); [constructor|intros ? ? []|].
  destruct (dict_nonempty (fold_left keep_waf_cookie cookies [])) eqn:Hne;
    [|discriminate].
  intros H. injection H as <-.
  split; [intros Hnil; rewrite Hnil in Hne; discriminate|].
  split; [|split; [exact Hnd|exists cookies; split; [reflexivity|exact Hall]]].
  unfold dict_keys in Hnd. rewrite <- (length_map fst).
  change 3%nat with (length WAF_COOKIE_NAMES).
  apply List.NoDup_incl_length; [exact Hnd|].
  intros name Hname. apply in_map_iff in Hname.
  destruct Hname as ([n v] & <- & Hin). exact (proj1 (Hall n v Hin)).
Qed.

(** *** The two check-in requests *)

Ltac split_matches :=
  repeat match goal with
         | |- context [match ?x with _ => _ end] =>
             match type of x with
             | result _ => destruct x
             | bool => destruct x
             | option _ => destruct x
             | Z => destruct x
             | positive => destruct x
             end
         end.

Lemma do_anyrouter_checkin_runs (rt : PyRuntime) (env : Env)
  (account_name : string) (cookies : Cookies) (api_user : string) (s : State) :
  exists answer,
    _do_anyrouter_checkin rt env account_name cookies api_user s =
    (Ok answer,
     after_requests env ANYROUTER_SELF_URL ANYROUTER_SIGN_IN_URL
       cookies api_user s).
Proof.
  run_checkin_state.
  destruct (env_post env (posts (world s))) as [response|e]; cbn [fst snd];
    [|eexists; reflexivity].
  destruct (status_code response =? 200)%Z; [|eexists; reflexivity].
  unfold sign_in_accepted, failure_detail. unfold_m.
  split_matches; eexists; reflexivity.
Qed.

Lemma do_agentrouter_checkin_runs (rt : PyRuntime) (env : Env)
  (account_name : string) (cookies : Cookies) (api_user : string) (s : State) :
  exists answer,
    _do_agentrouter_checkin rt env account_name cookies api_user s =
    (Ok answer,
     after_requests env AGENTROUTER_SELF_URL AGENTROUTER_SIGN_IN_URL
       cookies api_user s).
Proof.
  run_checkin_state. unfold is_HTTPStatusError.
  destruct (env_post env (posts (world s))) as [response|e]; cbn [fst snd].
  - destruct (status_code response =? 200)%Z.
    + unfold sign_in_accepted, failure_detail. unfold_m.
      split_matches; eexists; reflexivity.
    + split_matches; eexists; reflexivity.
  - split_matches; eexists; reflexivity.
Qed.

(** X3.  Whatever the two requests answer or raise, [_do_anyrouter_checkin]
    and [_do_agentrouter_checkin] return normally, and what they did is
    exactly this: the client was opened, one GET and one POST were sent with
    the cookies and the user id they were given, to the two addresses of the
    platform, and the client was closed.  The object and the files are left
    as they were. *)
Theorem checkin_request_discipline (rt : PyRuntime) (env : Env)
  (account_name : string) (cookies : Cookies) (api_user : string) (s : State) :
  let disciplined (self_url sign_in_url : string)
        (run : result (bool * string * option Balance) * State) :=
    exists answer s',
      run = (Ok answer, s') /\
      events_since s s' =
        [EvClientOpen; EvGet self_url cookies api_user;
         EvPost sign_in_url cookies api_user; EvClientClose] /\
      self s' = self s /\
      gets (world s') = S (gets (world s)) /\
      posts (world s') = S (posts (world s)) /\
      browses (world s') = browses (world s) /\
      hash_file (world s') = hash_file (world s) /\
      data_file (world s') = data_file (world s) in
  disciplined ANYROUTER_SELF_URL ANYROUTER_SIGN_IN_URL
    (_do_anyrouter_checkin rt env account_name cookies api_user s) /\
  disciplined AGENTROUTER_SELF_URL AGENTROUTER_SIGN_IN_URL
    (_do_agentrouter_checkin rt env account_name cookies api_user s).
Proof.
  cbv zeta. split.
  - destruct (do_anyrouter_checkin_runs rt env account_name cookies api_user s)
      as [answer Hrun].
    exists answer. eexists. split; [exact Hrun|].
    split; [apply events_since_app, after_requests_trace|].
    repeat split.
  - destruct (do_agentrouter_checkin_runs rt env account_name cookies api_user s)
      as [answer Hrun].
    exists answer. eexists. split; [exact Hrun|].
    split; [apply events_since_app, after_requests_trace|].
    repeat split.
Qed.

(** The status [status] is not 404: every branch of a match on it that is
    not the branch of 404 refutes a goal of the form [Ok (false, _) = Ok
    (true, _) -> _]. *)
Ltac not_404 status Hne :=
  destruct status as [|?p|?p]; cbn [fst snd]; try discriminate;
  repeat match goal with
         | p : positive |- _ =>
             destruct p as [p|p|]; cbn [fst snd]; try discriminate;
             try (exfalso; apply Hne; reflexivity)
         end.

(** X4.  [_do_anyrouter_checkin] reports a success only when the sign-in
    POST was answered with HTTP 200; the message is then the check-in
    message and the balance is the one of step 1. *)
Theorem anyrouter_success_means (rt : PyRuntime) (env : Env)
  (account_name : string) (cookies : Cookies) (api_user : string) (s : State)
  (message : string) (balance : option Balance) :
  fst (_do_anyrouter_checkin rt env account_name cookies api_user s) =
    Ok (true, message, balance) ->
  message = MSG_CHECKIN_OK /\
  balance = step1_balance rt env (gets (world s)) /\
  exists response,
    env_post env (posts (world s)) = Ok response /\
    status_code response = 200%Z.
Proof.
  run_checkin.
  destruct (env_post env (posts (world s))) as [response|e]; cbn [fst snd];
    [|discriminate].
  destruct (status_code response =? 200)%Z eqn:H200; [|discriminate].
  apply Z.eqb_eq in H200.
  unfold sign_in_accepted, failure_detail. unfold_m.
  split_matches; cbn [fst]; intros H; try discriminate H;
    injection H as <- <-;
    (split; [reflexivity|split; [reflexivity|exists response; split; [reflexivity|exact H200]]]).
Qed.

(** X5.  [_do_agentrouter_checkin] reports a success in two cases only.
    Either the sign-in POST was answered with HTTP 200 and a JSON object,
    with the check-in message; or the sign-in address does not exist and
    step 1 obtained a balance, with the keep-alive message.  That the
    address does not exist is an answer 404, or an [HTTPStatusError]
    carrying 404 that the POST, or reading the body of an answer 200,
    raised. *)
Theorem agentrouter_success_means (rt : PyRuntime) (env : Env)
  (account_name : string) (cookies : Cookies) (api_user : string) (s : State)
  (message : string) (balance : option Balance) :
  fst (_do_agentrouter_checkin rt env account_name cookies api_user s) =
    Ok (true, message, balance) ->
  balance = step1_balance rt env (gets (world s)) /\
  ((message = MSG_CHECKIN_OK /\
    exists response fields,
      env_post env (posts (world s)) = Ok response /\
      status_code response = 200%Z /\
      json response = Ok (JDict fields)) \/
   (message = MSG_KEEPALIVE_OK /\ balance <> None /\
    ((exists response,
        env_post env (posts (world s)) = Ok response /\
        status_code response = 404%Z) \/
     (exists e,
        exn_http_status e = Some 404%Z /\
        (env_post env (posts (world s)) = Raise e \/
         exists response,
           env_post env (posts (world s)) = Ok response /\
           status_code response = 200%Z /\
           json response = Raise e))))).
Proof.
  run_checkin. unfold is_HTTPStatusError.
  destruct (env_post env (posts (world s))) as [response|e]; cbn [fst snd].
  - destruct (status_code response =? 200)%Z eqn:H200.
    + apply Z.eqb_eq in H200.
      destruct (json response) as [result|e] eqn:Hjson.
      * destruct result as [| | | | | |fields];
          try (unfold sign_in_accepted, Py.get; unfold_m; cbn [fst snd];
               discriminate).
        unfold sign_in_accepted, failure_detail, Py.get, Py.get_default.
        unfold_m.
        split_matches; cbn [fst]; intros H; try discriminate H;
          injection H as <- <-; (split; [reflexivity|]); left;
          (split; [reflexivity|]); exists response, fields; auto.
      * cbn [fst snd].
        destruct (exn_http_status e) as [status|] eqn:Hstatus;
          [|discriminate].
        destruct (Z.eq_dec status 404) as [->|Hne]; [|not_404 status Hne].
        destruct (step1_balance rt env (gets (world s))) as [b|];
          [|discriminate].
        cbn [fst]. intros H. injection H as <- <-. split; [reflexivity|].
        right. split; [reflexivity|]. split; [discriminate|].
        right. exists e. split; [exact Hstatus|].
        right. exists response. auto.
    + destruct (status_code response =? 404)%Z eqn:H404; [|discriminate].
      apply Z.eqb_eq in H404.
      destruct (step1_balance rt env (gets (world s))) as [b|];
        [|discriminate].
      cbn [fst]. intros H. injection H as <- <-. split; [reflexivity|].
      right. split; [reflexivity|]. split; [discriminate|].
      left. exists response. auto.
  - destruct (exn_http_status e) as [status|] eqn:Hstatus;
      [|discriminate].
    destruct (Z.eq_dec status 404) as [->|Hne]; [|not_404 status Hne].
    destruct (step1_balance rt env (gets (world s))) as [b|];
      [|discriminate].
    cbn [fst]. intros H. injection H as <- <-. split; [reflexivity|].
    right. split; [reflexivity|]. split; [discriminate|].
    right. exists e. split; [exact Hstatus|]. left. reflexivity.
Qed.


(** X7.  The verdict of [_do_anyrouter_checkin] does not depend on step 1:
    two runs whose sign-in POST gets the same answer report the same
    success flag and the same message, whatever their GETs answered. *)
Theorem anyrouter_verdict_ignores_step1 (rt : PyRuntime) (env1 env2 : Env)
  (name1 name2 : string) (cookies1 cookies2 : Cookies)
  (api_user1 api_user2 : string) (s1 s2 : State) :
  env_post env1 (posts (world s1)) = env_post env2 (posts (world s2)) ->
  exists success message balance1 balance2,
    fst (_do_anyrouter_checkin rt env1 name1 cookies1 api_user1 s1) =
      Ok (success, message, balance1) /\
    fst (_do_anyrouter_checkin rt env2 name2 cookies2 api_user2 s2) =
      Ok (success, message, balance2).
Proof.
  intros Hpost. run_checkin. rewrite Hpost.
  destruct (env_post env2 (posts (world s2))) as [response|e]; cbn [fst snd];
    [|do 4 eexists; split; reflexivity].
  destruct (status_code response =? 200)%Z;
    [|do 4 eexists; split; reflexivity].
  unfold sign_in_accepted, failure_detail. unfold_m.
  split_matches; do 4 eexists; split; reflexivity.
Qed.

(** *** What the per-account functions leave alone *)

Lemma unwritten_refl (w : World) : unwritten w w.
Proof.
  repeat split. exists []. split; [symmetry; apply app_nil_r|reflexivity].
Qed.

Lemma unwritten_trans (w1 w2 w3 : World) :
  unwritten w1 w2 -> unwritten w2 w3 -> unwritten w1 w3.
Proof.
  intros (A1 & B1 & C1 & e1 & T1 & F1) (A2 & B2 & C2 & e2 & T2 & F2).
  split; [congruence|]. split; [congruence|]. split; [congruence|].
  exists (e1 ++ e2)%list. split.
  - rewrite T2, T1, app_assoc. reflexivity.
  - rewrite List.filter_app, F1, F2. reflexivity.
Qed.

Lemma unwritten_event (w : World) (ev : event) :
  is_write_event ev = false -> unwritten w (push ev w).
Proof.
  intros Hev. repeat split. exists [ev]. split; [reflexivity|].
  simpl. rewrite Hev. reflexivity.
Qed.

Lemma same_object_refl (s : State) : same_object s s.
Proof. split; [reflexivity|apply unwritten_refl]. Qed.

Lemma same_object_trans (s1 s2 s3 : State) :
  same_object s1 s2 -> same_object s2 s3 -> same_object s1 s3.
Proof.
  intros [H1 W1] [H2 W2]. split; [congruence|].
  eapply unwritten_trans; eassumption.
Qed.

Lemma apart_from_refl (touched : string -> Prop) (s : State) :
  apart_from touched s s.
Proof.
  split; [reflexivity|]. split; [reflexivity|]. split; [reflexivity|].
  split; [reflexivity|apply unwritten_refl].
Qed.

Lemma apart_from_trans (touched : string -> Prop) (s1 s2 s3 : State) :
  apart_from touched s1 s2 -> apart_from touched s2 s3 ->
  apart_from touched s1 s3.
Proof.
  intros (A1 & B1 & C1 & D1 & W1) (A2 & B2 & C2 & D2 & W2).
  split; [congruence|]. split; [congruence|]. split; [congruence|].
  split; [|eapply unwritten_trans; eassumption].
  intros k Hk. rewrite (D2 k Hk). apply D1, Hk.
Qed.

Lemma apart_from_weaken (P Q : string -> Prop) (s s' : State) :
  (forall k, P k -> Q k) -> apart_from P s s' -> apart_from Q s s'.
Proof.
  intros HPQ (A1 & B1 & C1 & D1 & W1).
  split; [exact A1|]. split; [exact B1|]. split; [exact C1|].
  split; [|exact W1].
  intros k Hk. apply D1. intros HP. apply Hk, HPQ, HP.
Qed.

Lemma same_object_apart_from (touched : string -> Prop) (s s' : State) :
  same_object s s' -> apart_from touched s s'.
Proof.
  intros [Hself Hw]. unfold apart_from. rewrite Hself.
  split; [reflexivity|]. split; [reflexivity|]. split; [reflexivity|].
  split; [reflexivity|exact Hw].
Qed.

Section Steps.

Variable R : State -> State -> Prop.
Hypothesis R_refl : forall s, R s s.
Hypothesis R_trans : forall s1 s2 s3, R s1 s2 -> R s2 s3 -> R s1 s3.

Lemma steps_ret {A : Type} (a : A) : steps R (ret a).
Proof. intros s. apply R_refl. Qed.

Lemma steps_raise {A : Type} (e : exn) : steps R (@raise A e).
Proof. intros s. apply R_refl. Qed.

Lemma steps_lift {A : Type} (r : result A) : steps R (lift r).
Proof. intros s. apply R_refl. Qed.

Lemma steps_get_self : steps R get_self.
Proof. intros s. apply R_refl. Qed.

Lemma steps_bind {A B : Type} (m : M A) (k : A -> M B) :
  steps R m -> (forall a, steps R (k a)) -> steps R (bind m k).
Proof.
  intros Hm Hk s. unfold bind. specialize (Hm s).
  destruct (m s) as [[a|e] s']; cbn [snd] in *.
  - eapply R_trans; [exact Hm|apply Hk].
  - exact Hm.
Qed.

Lemma steps_try_except {A : Type} (catches : exn -> bool) (m : M A)
  (h : exn -> M A) :
  steps R m -> (forall e, steps R (h e)) -> steps R (try_except catches m h).
Proof.
  intros Hm Hh s. unfold try_except. specialize (Hm s).
  destruct (m s) as [[a|e] s']; cbn [snd] in *; [exact Hm|].
  destruct (catches e); [|exact Hm].
  eapply R_trans; [exact Hm|apply Hh].
Qed.

Lemma steps_try_finally {A : Type} (m : M A) (fin : M unit) :
  steps R m -> steps R fin -> steps R (try_finally m fin).
Proof.
  intros Hm Hf s. unfold try_finally. specialize (Hm s).
  destruct (m s) as [r s']. specialize (Hf s'). cbn [snd] in *.
  destruct (fin s') as [[u|e] s'']; cbn [snd] in *;
    eapply R_trans; eassumption.
Qed.

End Steps.

Lemma same_object_emit (ev : event) :
  is_write_event ev = false -> steps same_object (emit ev).
Proof.
  intros Hev s. split; [reflexivity|]. apply unwritten_event, Hev.
Qed.

Lemma same_object_browse (env : Env) (url : string) (timeout : Z) :
  steps same_object (browse env url timeout).
Proof.
  intros s. repeat split. exists [EvBrowse url timeout]. split; reflexivity.
Qed.

Lemma same_object_client_get (env : Env) (url : string) (c : Cookies)
  (a : string) : steps same_object (client_get env url c a).
Proof.
  intros s. repeat split. exists [EvGet url c a]. split; reflexivity.
Qed.

Lemma same_object_client_post (env : Env) (url : string) (c : Cookies)
  (a : string) : steps same_object (client_post env url c a).
Proof.
  intros s. repeat split. exists [EvPost url c a]. split; reflexivity.
Qed.

Lemma same_object_now (env : Env) : steps same_object (now_isoformat env).
Proof.
  intros s. repeat split. exists []. split; [|reflexivity].
  symmetry. apply app_nil_r.
Qed.

Lemma same_object_login (env : Env) (email password : string) :
  steps same_object (_login_agentrouter env email password).
Proof.
  intros s. repeat split. exists [EvLogin email password]. split; reflexivity.
Qed.

Create HintDb same_object.
#[local] Hint Resolve same_object_browse same_object_client_get
  same_object_client_post same_object_now same_object_login : same_object.

Ltac same_object_step :=
  first
    [ solve [auto with same_object]
    | progress cbv zeta
    | apply steps_ret; exact same_object_refl
    | apply steps_raise; exact same_object_refl
    | apply steps_lift; exact same_object_refl
    | apply steps_get_self; exact same_object_refl
    | apply (steps_bind same_object same_object_trans); [|intros ?]
    | apply (steps_try_except same_object same_object_trans); [|intros ?]
    | apply (steps_try_finally same_object same_object_trans)
    | apply same_object_emit; reflexivity
    | match goal with
      | |- steps _ (if ?b then _ else _) => destruct b
      | |- steps _ (match ?x with _ => _ end) => destruct x
      | |- steps _ (let (_, _) := ?x in _) => destruct x
      end ].

Ltac same_object_tac := repeat same_object_step.

Lemma same_object_make_result (env : Env) (platform name : string)
  (success : bool) (message : string) (balance : option Balance) :
  steps same_object (_make_result env platform name success message balance).
Proof. unfold _make_result. same_object_tac. Qed.

Lemma same_object_get_waf_cookies (env : Env) (name url : string)
  (timeout : Z) : steps same_object (_get_waf_cookies env name url timeout).
Proof. unfold _get_waf_cookies. same_object_tac. Qed.

Lemma same_object_fallback (env : Env) (name : string) (urls : list string) :
  steps same_object (_get_waf_cookies_with_fallback env name urls).
Proof.
  induction urls as [|url rest IH]; cbn [_get_waf_cookies_with_fallback].
  - apply steps_ret. exact same_object_refl.
  - apply (steps_bind same_object same_object_trans);
      [apply same_object_get_waf_cookies|].
    intros cookies. destruct (cookies_truthy cookies); [|exact IH].
    apply steps_ret. exact same_object_refl.
Qed.

Lemma same_object_fetch_balance (rt : PyRuntime) (env : Env) (url : string)
  (c : Cookies) (a : string) :
  steps same_object (fetch_balance rt env url c a).
Proof. unfold fetch_balance. same_object_tac. Qed.

Lemma same_object_sign_in_accepted (result : JValue) :
  steps same_object (sign_in_accepted result).
Proof. unfold sign_in_accepted. same_object_tac. Qed.

Lemma same_object_failure_detail (result : JValue) :
  steps same_object (failure_detail result).
Proof. unfold failure_detail. same_object_tac. Qed.

#[local] Hint Resolve same_object_make_result same_object_get_waf_cookies
  same_object_fallback same_object_fetch_balance same_object_sign_in_accepted
  same_object_failure_detail : same_object.

Lemma same_object_do_anyrouter_checkin (rt : PyRuntime) (env : Env)
  (name : string) (c : Cookies) (a : string) :
  steps same_object (_do_anyrouter_checkin rt env name c a).
Proof. unfold _do_anyrouter_checkin. same_object_tac. Qed.

Lemma same_object_do_agentrouter_checkin (rt : PyRuntime) (env : Env)
  (name : string) (c : Cookies) (a : string) :
  steps same_object (_do_agentrouter_checkin rt env name c a).
Proof. unfold _do_agentrouter_checkin. same_object_tac. Qed.

Lemma same_object_show_balance_change (key : string) (b : Balance) :
  steps same_object (_show_balance_change key b).
Proof. unfold _show_balance_change. same_object_tac. Qed.

Lemma same_object_checkin_error (env : Env) (platform name : string)
  (e : exn) : steps same_object (checkin_error env platform name e).
Proof. unfold checkin_error. same_object_tac. Qed.

Lemma same_object_summary (name : string) (results : list Outcome) :
  steps same_object (summary_if_any name results).
Proof.
  unfold summary_if_any, _print_platform_summary.
  destruct results; same_object_tac.
Qed.

#[local] Hint Resolve same_object_do_anyrouter_checkin
  same_object_do_agentrouter_checkin same_object_show_balance_change
  same_object_checkin_error same_object_summary : same_object.

(** *** The ledger follows the results *)

Lemma records_bind {A : Type} (key_prefix : string) (Q : A -> Prop) (m : M A)
  (k : A -> M Outcome) :
  steps same_object m -> yields Q m ->
  (forall a, Q a -> records key_prefix (k a)) ->
  records key_prefix (bind m k).
Proof.
  intros Hm HQ Hk s. unfold bind. specialize (Hm s). specialize (HQ s).
  destruct (m s) as [[a|e] s1]; cbn [fst snd] in *.
  - destruct Hm as [Hself Hw]. destruct (Hk a (HQ a eq_refl) s1) as [Hw1 Hr].
    split; [eapply unwritten_trans; eassumption|].
    rewrite <- Hself. exact Hr.
  - destruct Hm as [Hself Hw]. split; assumption.
Qed.

Lemma yields_anything {A : Type} (m : M A) : yields (fun _ => True) m.
Proof. intros s a _. exact I. Qed.

Lemma records_try_except (key_prefix : string) (catches : exn -> bool)
  (m : M Outcome) (h : exn -> M Outcome) :
  records key_prefix m -> (forall e, records key_prefix (h e)) ->
  records key_prefix (try_except catches m h).
Proof.
  intros Hm Hh s. unfold try_except. destruct (Hm s) as [Hw Hr].
  destruct (m s) as [[o|e] s1]; cbn [fst snd] in *; [split; assumption|].
  destruct (catches e); cbn [fst snd]; [|split; assumption].
  destruct (Hh e s1) as [Hw1 Hr1].
  split; [eapply unwritten_trans; eassumption|].
  rewrite <- Hr. exact Hr1.
Qed.

Lemma records_make_result (env : Env) (key_prefix platform name : string)
  (success : bool) (message : string) :
  records key_prefix (_make_result env platform name success message None).
Proof.
  intros s. split; [|reflexivity].
  apply (same_object_make_result env platform name success message None s).
Qed.

Lemma records_ret (key_prefix : string) (o : Outcome) :
  o_balance o = None -> records key_prefix (ret o).
Proof.
  intros Hnone s. split; [apply unwritten_refl|].
  cbn [fst snd ret]. rewrite Hnone. reflexivity.
Qed.

Lemma records_record_and_report (env : Env) (platform key_prefix name : string)
  (answer : bool * string * option Balance) :
  records key_prefix (record_and_report env platform key_prefix name answer).
Proof.
  destruct answer as [[success message] [b|]]; intros s.
  - unfold record_and_report, set_current_balance, _make_result,
      now_isoformat.
    unfold_m. rewrite show_balance_change_run.
    cbn [fst snd self world last_balance_data].
    destruct (dict_get (key_prefix +s name) (last_balance_data (self s)))
      as [last|].
    + destruct (change_notice_due last b); cbn [fst snd self world];
        (split; [|reflexivity]); repeat split;
        cbn [world trace after_event push];
        [eexists; split; [reflexivity|reflexivity]
        |exists []; split; [symmetry; apply app_nil_r|reflexivity]].
    + cbn [fst snd self world]. split; [|reflexivity]. repeat split.
      exists []. split; [symmetry; apply app_nil_r|reflexivity].
  - unfold record_and_report, _make_result, now_isoformat. unfold_m.
    cbn [fst snd self world]. split; [|reflexivity]. repeat split.
    exists []. split; [symmetry; apply app_nil_r|reflexivity].
Qed.

Ltac records_tac key_prefix :=
  repeat first
    [ progress cbv zeta
    | apply records_make_result
    | apply records_record_and_report
    | apply (records_bind key_prefix (fun _ => True));
        [solve [auto with same_object
               |apply steps_lift; exact same_object_refl]
        |apply yields_anything|intros ? _]
    | match goal with
      | |- records _ (if ?b then _ else _) => destruct b
      | |- records _ (match ?x with _ => _ end) => destruct x
      end ].

Lemma records_anyrouter_pipeline (rt : PyRuntime) (env : Env)
  (platform name : string) (account : Account) :
  records "anyrouter_" (anyrouter_pipeline rt env platform name account).
Proof. unfold anyrouter_pipeline. records_tac "anyrouter_". Qed.

Lemma same_object_agentrouter_session (rt : PyRuntime) (env : Env)
  (platform name : string) (account : Account) :
  steps same_object (agentrouter_session rt env platform name account).
Proof. unfold agentrouter_session. same_object_tac. Qed.

Lemma yields_agentrouter_session_early (rt : PyRuntime) (env : Env)
  (platform name : string) (account : Account) :
  yields (fun r => match r with
                   | inl o => o_balance o = None
                   | inr _ => True
                   end)
         (agentrouter_session rt env platform name account).
Proof.
  unfold agentrouter_session. cbv zeta.
  repeat first
    [ apply yields_ret; exact I
    | apply yields_bind_with with (Q := fun o => o_balance o = None);
        [intros s o H; injection H as <-; reflexivity
        |intros o Ho; apply yields_ret; exact Ho]
    | apply yields_bind; intros ?
    | match goal with
      | |- yields _ (if ?b then _ else _) => destruct b
      | |- yields _ (match ?x with _ => _ end) => destruct x
      end ].
Qed.

Lemma records_agentrouter_pipeline (rt : PyRuntime) (env : Env)
  (platform name : string) (account : Account) :
  records "agentrouter_" (agentrouter_pipeline rt env platform name account).
Proof.
  unfold agentrouter_pipeline.
  eapply records_bind;
    [apply same_object_agentrouter_session
    |apply yields_agentrouter_session_early|].
  intros [early|[all_cookies api_user]] H.
  - apply records_ret. exact H.
  - records_tac "agentrouter_".
Qed.

Lemma records_boundary (env : Env) (key_prefix platform name : string)
  (body : M Outcome) :
  records key_prefix body ->
  records key_prefix
    (bind (emit (EvProcessing platform name))
          (fun _ => try_except is_Exception body
                      (checkin_error env platform name))).
Proof.
  intros Hbody.
  apply (records_bind key_prefix (fun _ => True));
    [apply same_object_emit; reflexivity|apply yields_anything|].
  intros _ _. apply records_try_except; [exact Hbody|].
  intros e. apply records_make_result.
Qed.

Lemma checkin_anyrouter_ledger (rt : PyRuntime) (env : Env)
  (account : Account) (index : nat) (s : State) :
  exists o s',
    checkin_anyrouter rt env account index s = (Ok o, s') /\
    o_name o = anyrouter_name account index /\
    self s' = with_balance ("anyrouter_" +s o_name o) (o_balance o) (self s) /\
    unwritten (world s) (world s').
Proof.
  destruct (checkin_anyrouter_spec rt env account index s)
    as (o & s' & work & Hrun & [_ Hname] & _).
  exists o, s'. split; [exact Hrun|]. split; [exact Hname|].
  pose proof (records_boundary env "anyrouter_" "AnyRouter"
                (anyrouter_name account index) _
                (records_anyrouter_pipeline rt env "AnyRouter"
                   (anyrouter_name account index) account) s) as [Hw Hr].
  change (bind _ _) with (checkin_anyrouter rt env account index) in Hw, Hr.
  rewrite Hrun in Hw, Hr. cbn [fst snd] in Hw, Hr. split; assumption.
Qed.

Lemma checkin_agentrouter_ledger (rt : PyRuntime) (env : Env)
  (account : Account) (index : nat) (s : State) :
  exists o s',
    checkin_agentrouter rt env account index s = (Ok o, s') /\
    o_name o = agentrouter_name account index /\
    self s' = with_balance ("agentrouter_" +s o_name o) (o_balance o) (self s) /\
    unwritten (world s) (world s').
Proof.
  destruct (checkin_agentrouter_spec rt env account index s)
    as (o & s' & work & Hrun & [_ Hname] & _).
  exists o, s'. split; [exact Hrun|]. split; [exact Hname|].
  pose proof (records_boundary env "agentrouter_" "AgentRouter"
                (agentrouter_name account index) _
                (records_agentrouter_pipeline rt env "AgentRouter"
                   (agentrouter_name account index) account) s) as [Hw Hr].
  change (bind _ _) with (checkin_agentrouter rt env account index) in Hw, Hr.
  rewrite Hrun in Hw, Hr. cbn [fst snd] in Hw, Hr. split; assumption.
Qed.

Lemma with_balance_frame (key : string) (balance : option Balance)
  (r : RouterCheckin) :
  last_balance_hash (with_balance key balance r) = last_balance_hash r /\
  last_balance_data (with_balance key balance r) = last_balance_data r /\
  balance_changed (with_balance key balance r) = balance_changed r /\
  (forall k, k <> key ->
     dict_get k (current_balances (with_balance key balance r)) =
     dict_get k (current_balances r)) /\
  match balance with
  | Some b =>
      dict_get key (current_balances (with_balance key balance r)) = Some b
  | None => with_balance key balance r = r
  end.
Proof.
  destruct balance as [b|]; cbn [with_balance last_balance_hash
    last_balance_data balance_changed current_balances].
  - repeat split; [|apply dict_get_set_eq].
    intros k Hk. apply dict_get_set_ne. intros Heq. apply Hk. symmetry.
    exact Heq.
  - repeat split.
Qed.

(** X8.  The ledger follows the results.  A per-account function stores a
    balance in the current-run ledger exactly when the result it returns
    carries one, and it is that balance, under "anyrouter_" or
    "agentrouter_" followed by the name of the account.  When the result
    carries no balance the object is as it was.  In both cases every other
    entry of the ledger, the stored hash and ledger of the previous run and
    the change flag are as they were, and no file is written.  (The ledger
    of the previous run holds numbers, as [_save_balance_data] writes
    them.) *)
Theorem ledger_follows_result (rt : PyRuntime) (env : Env) (account : Account)
  (index : nat) (s : State) :
  let follows (key : string) (run : result Outcome * State) :=
    exists o s',
      run = (Ok o, s') /\
      match o_balance o with
      | Some b => dict_get key (current_balances (self s')) = Some b
      | None => self s' = self s
      end /\
      (forall k, k <> key ->
         dict_get k (current_balances (self s')) =
         dict_get k (current_balances (self s))) /\
      last_balance_hash (self s') = last_balance_hash (self s) /\
      last_balance_data (self s') = last_balance_data (self s) /\
      balance_changed (self s') = balance_changed (self s) /\
      unwritten (world s) (world s') in
  follows ("anyrouter_" +s anyrouter_name account index)
          (checkin_anyrouter rt env account index s) /\
  follows ("agentrouter_" +s agentrouter_name account index)
          (checkin_agentrouter rt env account index s).
Proof.
  cbv zeta. split.
  - destruct (checkin_anyrouter_ledger rt env account index s)
      as (o & s' & Hrun & Hname & Hself & Hw).
    exists o, s'. split; [exact Hrun|]. rewrite Hname in Hself.
    destruct (with_balance_frame
                ("anyrouter_" +s anyrouter_name account index)
                (o_balance o) (self s)) as (H1 & H2 & H3 & H4 & H5).
    rewrite <- Hself in H1, H2, H3, H4, H5.
    split; [destruct (o_balance o); exact H5|].
    split; [exact H4|]. split; [exact H1|]. split; [exact H2|].
    split; [exact H3|exact Hw].
  - destruct (checkin_agentrouter_ledger rt env account index s)
      as (o & s' & Hrun & Hname & Hself & Hw).
    exists o, s'. split; [exact Hrun|]. rewrite Hname in Hself.
    destruct (with_balance_frame
                ("agentrouter_" +s agentrouter_name account index)
                (o_balance o) (self s)) as (H1 & H2 & H3 & H4 & H5).
    rewrite <- Hself in H1, H2, H3, H4, H5.
    split; [destruct (o_balance o); exact H5|].
    split; [exact H4|]. split; [exact H1|]. split; [exact H2|].
    split; [exact H3|exact Hw].
Qed.

(** *** The ledger of a whole run *)

Lemma checkin_loop_ledger (key_prefix : string)
  (checkin : Account -> nat -> M Outcome) :
  (forall account index s,
     exists o s',
       checkin account index s = (Ok o, s') /\
       self s' = with_balance (key_prefix +s o_name o) (o_balance o) (self s) /\
       unwritten (world s) (world s')) ->
  forall accounts index s,
  exists results s',
    checkin_loop checkin index accounts s = (Ok results, s') /\
    self s' = ledger_after key_prefix results (self s) /\
    unwritten (world s) (world s').
Proof.
  intros Hcheckin. induction accounts as [|account rest IH]; intros index s.
  - exists [], s. split; [reflexivity|]. split; [reflexivity|].
    apply unwritten_refl.
  - cbn [checkin_loop]. unfold bind at 1.
    destruct (Hcheckin account index s) as (o & s1 & Hrun & Hself & Hw).
    rewrite Hrun. unfold bind at 1. unfold sleep, emit, update_world.
    set (s2 := {| self := self s1; world := push (EvSleep 2) (world s1) |}).
    destruct (IH (S index) s2) as (results & s3 & Hloop & Hself3 & Hw3).
    unfold bind. rewrite Hloop. unfold ret.
    exists (o :: results), s3. split; [reflexivity|]. split.
    + rewrite Hself3. subst s2. cbn [self ledger_after fold_left].
      rewrite Hself. reflexivity.
    + eapply unwritten_trans; [exact Hw|].
      eapply unwritten_trans; [|exact Hw3].
      subst s2. cbn [world]. apply unwritten_event. reflexivity.
Qed.

Lemma summary_run (name : string) (results : list Outcome) (s : State) :
  exists s',
    summary_if_any name results s = (Ok tt, s') /\
    self s' = self s /\ unwritten (world s) (world s').
Proof.
  destruct (never_raises_summary name results s) as [[] Hok].
  destruct (same_object_summary name results s) as [Hself Hw].
  destruct (summary_if_any name results s) as [r s']. cbn [fst snd] in *.
  subst r. exists s'. split; [reflexivity|]. split; assumption.
Qed.

Lemma ledger_after_frame (key_prefix : string) (results : list Outcome) :
  forall r,
  last_balance_hash (ledger_after key_prefix results r) = last_balance_hash r /\
  last_balance_data (ledger_after key_prefix results r) = last_balance_data r /\
  balance_changed (ledger_after key_prefix results r) = balance_changed r.
Proof.
  unfold ledger_after.
  induction results as [|o rest IH]; intros r; cbn [fold_left];
    [repeat split|].
  destruct (IH (with_balance (key_prefix +s o_name o) (o_balance o) r))
    as (-> & -> & ->).
  destruct (with_balance_frame (key_prefix +s o_name o) (o_balance o) r)
    as (-> & -> & -> & _). repeat split.
Qed.

Lemma dict_set_nonempty {V : Type} (k : string) (v : V) (d : dict V) :
  dict_set k v d <> [].
Proof. destruct d as [|[k' v'] rest]; simpl; [|destruct (String.eqb k k')]; discriminate. Qed.

Lemma ledger_after_empty (key_prefix : string) (results : list Outcome) :
  forall r,
  current_balances (ledger_after key_prefix results r) = [] <->
  current_balances r = [] /\ forall o, In o results -> o_balance o = None.
Proof.
  unfold ledger_after.
  induction results as [|o rest IH]; intros r; cbn [fold_left].
  - split; [intros H; split; [exact H|intros o []]|intros [H _]; exact H].
  - rewrite IH. destruct (o_balance o) as [b|] eqn:Hb;
      cbn [with_balance current_balances].
    + split.
      * intros [H _]. exfalso. exact (dict_set_nonempty _ _ _ H).
      * intros [_ H]. specialize (H o (or_introl eq_refl)). congruence.
    + split.
      * intros [H1 H2]. split; [exact H1|].
        intros o' [<-|Hin]; [exact Hb|apply H2, Hin].
      * intros [H1 H2]. split; [exact H1|].
        intros o' Hin. apply H2. right. exact Hin.
Qed.

(** X9.  What a run saves is the complete ledger.  [run_all] stores the
    balances of the results in the ledger, the AnyRouter results first and
    then the AgentRouter results, each in order, so that of two results
    with the same key the later one counts; a ledger that was empty stays
    empty exactly when no result carries a balance.  Until all accounts are
    done no file is written; then, when the ledger is not empty, its hash
    and the ledger itself are written, in this order, and nothing else, and
    the change flag is set: to true when the object holds no hash of a
    previous run, and else to whether the hash differs from it.  The hash
    and the ledger of the previous run that the object holds are as they
    were.  When the ledger is empty the change flag and the two files are
    as they were. *)
Theorem run_all_saves_complete_ledger (rt : PyRuntime) (env : Env)
  (anyrouter_accounts agentrouter_accounts : list Account) (s : State) :
  exists anyrouter_results agentrouter_results s' work,
    run_all rt env anyrouter_accounts agentrouter_accounts s =
      (Ok (anyrouter_results ++ agentrouter_results)%list, s') /\
    let ledger :=
      current_balances
        (ledger_after "agentrouter_" agentrouter_results
           (ledger_after "anyrouter_" anyrouter_results (self s))) in
    current_balances (self s') = ledger /\
    (current_balances (self s) = [] ->
     (ledger = [] <->
      forall o, In o (anyrouter_results ++ agentrouter_results)%list ->
                o_balance o = None)) /\
    last_balance_hash (self s') = last_balance_hash (self s) /\
    last_balance_data (self s') = last_balance_data (self s) /\
    List.filter is_write_event work = [] /\
    events_since s s' =
      (work ++ if dict_nonempty ledger
               then [EvWriteHash (_generate_balance_hash rt ledger);
                     EvWriteData ledger]
               else [])%list /\
    balance_changed (self s') =
      (if dict_nonempty ledger
       then match last_balance_hash (self s) with
            | None => true
            | Some last_hash =>
                negb (String.eqb (_generate_balance_hash rt ledger) last_hash)
            end
       else balance_changed (self s)) /\
    (ledger = [] ->
     hash_file (world s') = hash_file (world s) /\
     data_file (world s') = data_file (world s)).
Proof.
  unfold run_all. unfold bind at 1.
  destruct (checkin_loop_ledger "anyrouter_" (checkin_anyrouter rt env)) with
    (accounts := anyrouter_accounts) (index := 0%nat) (s := s)
    as (r1 & s1 & Hrun1 & Hself1 & Hw1).
  { intros account index s0.
    destruct (checkin_anyrouter_ledger rt env account index s0)
      as (o & s' & Hrun & _ & Hself & Hw).
    exists o, s'. auto. }
  rewrite Hrun1. unfold bind at 1.
  destruct (summary_run "AnyRouter" r1 s1) as (s2 & Hrun2 & Hself2 & Hw2).
  rewrite Hrun2. unfold bind at 1.
  destruct (checkin_loop_ledger "agentrouter_" (checkin_agentrouter rt env)) with
    (accounts := agentrouter_accounts) (index := 0%nat) (s := s2)
    as (r3 & s3 & Hrun3 & Hself3 & Hw3).
  { intros account index s0.
    destruct (checkin_agentrouter_ledger rt env account index s0)
      as (o & s' & Hrun & _ & Hself & Hw).
    exists o, s'. auto. }
  rewrite Hrun3. unfold bind at 1.
  destruct (summary_run "AgentRouter" r3 s3) as (s4 & Hrun4 & Hself4 & Hw4).
  rewrite Hrun4. unfold bind at 1.
  assert (Hself : self s4 =
            ledger_after "agentrouter_" r3 (ledger_after "anyrouter_" r1 (self s)))
    by (rewrite Hself4, Hself3, Hself2, Hself1; reflexivity).
  assert (Hw : unwritten (world s) (world s4)).
  { eapply unwritten_trans; [exact Hw1|].
    eapply unwritten_trans; [exact Hw2|].
    eapply unwritten_trans; [exact Hw3|exact Hw4]. }
  destruct (ledger_after_frame "agentrouter_" r3
              (ledger_after "anyrouter_" r1 (self s))) as (Hh3 & Hd3 & Hc3).
  destruct (ledger_after_frame "anyrouter_" r1 (self s)) as (Hh1 & Hd1 & Hc1).
  rewrite <- Hself in Hh3, Hd3, Hc3.
  assert (Hempty : current_balances (self s) = [] ->
            (current_balances (self s4) = [] <->
             forall o, In o (r1 ++ r3)%list -> o_balance o = None)).
  { intros Hstart. rewrite Hself, ledger_after_empty, ledger_after_empty.
    split.
    - intros [[_ H1] H3] o Ho. apply in_app_or in Ho.
      destruct Ho; [apply H1|apply H3]; assumption.
    - intros H. split; [split; [exact Hstart|]|]; intros o Ho; apply H;
        apply in_or_app; [left|right]; exact Ho. }
  destruct Hw as (Hwrites & Hhash & Hdata & work & Htrace & Hwork).
  rewrite check_balance_change_run.
  destruct (current_balances (self s4)) as [|entry rest] eqn:Hcur;
    cbn [dict_nonempty].
  - unfold ret. exists r1, r3, s4, work. split; [reflexivity|].
    cbv zeta. rewrite <- Hself, Hcur. cbn [dict_nonempty].
    split; [reflexivity|]. split; [exact Hempty|].
    split; [congruence|]. split; [congruence|].
    split; [exact Hwork|].
    split; [rewrite app_nil_r; apply events_since_app; exact Htrace|].
    split; [congruence|]. intros _. split; congruence.
  - set (h := _generate_balance_hash rt (entry :: rest)).
    match goal with |- context [bind _ _ ?s5] =>
      destruct (save_ledger_run env h s5) as (H1 & H2 & H3 & _) end.
    cbv zeta in *. cbn [self world current_balances] in H2, H3.
    match type of H1 with fst ?out = _ => destruct out as [r5 s5] end.
    cbn [fst snd] in *. subst r5. unfold ret.
    exists r1, r3, s5, work. split; [reflexivity|].
    cbv zeta. rewrite <- Hself, Hcur. cbn [dict_nonempty].
    rewrite H2. cbn [current_balances last_balance_hash last_balance_data
      balance_changed].
    split; [reflexivity|]. split; [exact Hempty|].
    split; [congruence|]. split; [congruence|].
    split; [exact Hwork|]. split; [|split; [|discriminate]].
    + apply events_since_app. rewrite H3, Htrace, <- app_assoc. reflexivity.
    + rewrite Hh3, Hh1. reflexivity.
Qed.

(** *** Accounts that are turned away *)

Ltac run_refusal :=
  unfold checkin_anyrouter, checkin_agentrouter, anyrouter_pipeline,
    agentrouter_pipeline, agentrouter_session, checkin_error, _make_result,
    now_isoformat, is_Exception;
  cbv zeta; unfold_m; cbn [fst snd self world clock_reads trace push].

(** X10.  An account whose configuration cannot be used is turned away
    before anything is sent: when the user id is missing or empty, when the
    cookies parse to nothing, and when parsing them raises, the result is a
    failure without balance that names the reason, and all that happened is
    the announcement of the account: no browser session, no login, no
    request.  For AgentRouter this holds for an account without both an
    e-mail address and a password. *)
Theorem config_errors_reported_offline (rt : PyRuntime) (env : Env)
  (account : Account) (index : nat) (s : State) :
  let api_user := or_default (acc_api_user account) EmptyString in
  let cookies :=
    parse_cookies rt (or_default (acc_cookies account) (JDict [])) in
  let turned_away (platform name message : string)
        (run : result Outcome * State) :=
    exists s',
      run =
        (Ok {| o_platform := platform; o_name := name; o_success := false;
               o_message := message;
               o_timestamp := env_now env (clock_reads (world s));
               o_balance := None |}, s') /\
      events_since s s' = [EvProcessing platform name] /\
      self s' = self s /\
      browses (world s') = browses (world s) /\
      logins (world s') = logins (world s) /\
      gets (world s') = gets (world s) /\
      posts (world s') = posts (world s) in
  let reason (message : string) :=
    turned_away "AnyRouter" (anyrouter_name account index) message
      (checkin_anyrouter rt env account index s) /\
    (or_default (acc_email account) EmptyString = EmptyString \/
     or_default (acc_password account) EmptyString = EmptyString ->
     turned_away "AgentRouter" (agentrouter_name account index) message
       (checkin_agentrouter rt env account index s)) in
  (api_user = EmptyString -> reason MSG_NO_API_USER) /\
  (api_user <> EmptyString -> cookies = Ok [] -> reason MSG_BAD_COOKIES) /\
  (forall e, api_user <> EmptyString -> cookies = Raise e ->
     reason ("签到异常: " +s PyStr.take_chars 50 (exn_text e))).
Proof.
  cbv zeta.
  assert (Hmode : or_default (acc_email account) EmptyString = EmptyString \/
                  or_default (acc_password account) EmptyString = EmptyString ->
                  negb (or_default (acc_email account) EmptyString =? EmptyString)%string
                  && negb (or_default (acc_password account) EmptyString =? EmptyString)%string
                  = false).
  { intros [->| ->]; cbn [String.eqb negb andb]; [reflexivity|].
    apply andb_false_r. }
  split; [|split].
  - intros Huser. split; [|intros Hm; apply Hmode in Hm]; run_refusal;
      rewrite ?Hm, Huser; cbn [String.eqb fst snd];
      (eexists; split; [reflexivity|]);
      (split; [apply events_since_app; reflexivity|repeat split]).
  - intros Huser Hcookies. apply string_eqb_false_iff in Huser.
    split; [|intros Hm; apply Hmode in Hm]; run_refusal;
      rewrite ?Hm, Huser, Hcookies; cbn [dict_nonempty negb fst snd];
      (eexists; split; [reflexivity|]);
      (split; [apply events_since_app; reflexivity|repeat split]).
  - intros e Huser Hcookies. apply string_eqb_false_iff in Huser.
    split; [|intros Hm; apply Hmode in Hm]; run_refusal;
      rewrite ?Hm, Huser, Hcookies; cbn [fst snd];
      (eexists; split; [reflexivity|]);
      (split; [apply events_since_app; reflexivity|repeat split]).
Qed.

Lemma bind_ok {A B : Type} (m : M A) (k : A -> M B) (s s1 : State) (a : A) :
  m s = (Ok a, s1) -> bind m k s = k a s1.
Proof. intros H. unfold bind. rewrite H. reflexivity. Qed.

Lemma bind_raise {A B : Type} (m : M A) (k : A -> M B) (s s1 : State)
  (e : exn) :
  m s = (Raise e, s1) -> bind m k s = (Raise e, s1).
Proof. intros H. unfold bind. rewrite H. reflexivity. Qed.

Lemma try_except_ok {A : Type} (catches : exn -> bool) (m : M A)
  (h : exn -> M A) (s s1 : State) (a : A) :
  m s = (Ok a, s1) -> try_except catches m h s = (Ok a, s1).
Proof. intros H. unfold try_except. rewrite H. reflexivity. Qed.

Lemma try_except_all {A : Type} (m : M A) (h : exn -> M A) (s s1 : State)
  (e : exn) :
  m s = (Raise e, s1) -> try_except is_Exception m h s = h e s1.
Proof. intros H. unfold try_except. rewrite H. reflexivity. Qed.

(** The events of the balance report for the answer of a check-in
    request. *)
Lemma record_and_report_total (env : Env) (platform key_prefix name : string)
  (answer : bool * string * option Balance) (s : State) :
  exists s',
    record_and_report env platform key_prefix name answer s =
    (Ok {| o_platform := platform; o_name := name;
           o_success := fst (fst answer); o_message := snd (fst answer);
           o_timestamp := env_now env (clock_reads (world s));
           o_balance := snd answer |}, s') /\
    trace (world s') =
      (trace (world s) ++
       match snd answer with
       | Some b => delta_report (key_prefix +s name) b (self s)
       | None => []
       end)%list.
Proof.
  destruct answer as [[success message] [b|]]; cbn [fst snd].
  - destruct (record_and_report_run env platform key_prefix name success
                message b s) as (s' & Hrun & _ & _ & Htrace).
    exists s'. split; assumption.
  - unfold record_and_report, _make_result, now_isoformat. unfold_m.
    eexists. split; [reflexivity|]. cbn [world trace].
    symmetry. apply app_nil_r.
Qed.

(** The state after the browser session of [_get_waf_cookies]. *)
Lemma browse_trace (env : Env) (url : string) (timeout : Z) (s : State) :
  let s' := snd (browse env url timeout s) in
  trace (world s') = (trace (world s) ++ [EvBrowse url timeout])%list /\
  browses (world s') = S (browses (world s)) /\
  gets (world s') = gets (world s) /\
  posts (world s') = posts (world s) /\
  logins (world s') = logins (world s) /\
  clock_reads (world s') = clock_reads (world s) /\
  self s' = self s.
Proof. repeat split. Qed.

(** X11.  Without WAF cookies AnyRouter gives up and AgentRouter goes on.
    For an account with a user id and cookies: when the browser session of
    AnyRouter yields no WAF cookie, the result is the failure "无法获取 WAF
    cookies" and no request is sent.  When neither address of AgentRouter
    yields a WAF cookie, both are visited, in order, and the check-in
    requests are sent with the cookies of the account alone; the result is
    the answer of the check-in request. *)
Theorem without_waf_cookies (rt : PyRuntime) (env : Env) (account : Account)
  (index : nat) (s : State) (api_user : string) (user_cookies : Cookies) :
  acc_api_user account = Some api_user ->
  api_user <> EmptyString ->
  parse_cookies rt (or_default (acc_cookies account) (JDict [])) =
    Ok user_cookies ->
  user_cookies <> [] ->
  harvest env (browses (world s)) = Ok None ->
  (exists s',
     checkin_anyrouter rt env account index s =
       (Ok {| o_platform := "AnyRouter";
              o_name := anyrouter_name account index;
              o_success := false; o_message := MSG_NO_WAF;
              o_timestamp := env_now env (clock_reads (world s));
              o_balance := None |}, s') /\
     events_since s s' =
       [EvProcessing "AnyRouter" (anyrouter_name account index);
        EvBrowse ANYROUTER_LOGIN_URL 30000] /\
     gets (world s') = gets (world s) /\
     posts (world s') = posts (world s)) /\
  (or_default (acc_email account) EmptyString = EmptyString \/
   or_default (acc_password account) EmptyString = EmptyString ->
   harvest env (S (browses (world s))) = Ok None ->
   exists success message balance s',
     checkin_agentrouter rt env account index s =
       (Ok {| o_platform := "AgentRouter";
              o_name := agentrouter_name account index;
              o_success := success; o_message := message;
              o_timestamp := env_now env (clock_reads (world s));
              o_balance := balance |}, s') /\
     fst (_do_agentrouter_checkin rt env (agentrouter_name account index)
            user_cookies api_user
            (snd (browse env "https://agentrouter.org/console" 20000
               (snd (browse env "https://agentrouter.org" 20000
                  (after_event
                     (EvProcessing "AgentRouter"
                        (agentrouter_name account index)) s)))))) =
       Ok (success, message, balance) /\
     events_since s s' =
       ([EvProcessing "AgentRouter" (agentrouter_name account index);
         EvBrowse "https://agentrouter.org" 20000;
         EvBrowse "https://agentrouter.org/console" 20000]
        ++ request_events AGENTROUTER_SELF_URL AGENTROUTER_SIGN_IN_URL
             user_cookies api_user
        ++ match balance with
           | Some b =>
               delta_report
                 ("agentrouter_" +s agentrouter_name account index) b (self s)
           | None => []
           end)%list).
Proof.
  intros Hconfigured Huser Hcookies Hnonempty Hwaf.
  apply string_eqb_false_iff in Huser.
  assert (Hne : dict_nonempty user_cookies = true)
    by (destruct user_cookies; [contradiction|reflexivity]).
  split.
  - unfold checkin_anyrouter, anyrouter_pipeline, _make_result,
      now_isoformat, is_Exception.
    cbv zeta. rewrite Hconfigured. cbn [or_default]. unfold_m.
    rewrite Huser, Hcookies, Hne. cbn [negb fst snd].
    rewrite get_waf_cookies_run. cbn [self world browses push].
    rewrite Hwaf. cbn [fst snd].
    eexists. split; [reflexivity|].
    split; [apply events_since_app; cbn [world trace browse push snd];
            rewrite <- app_assoc; reflexivity|].
    split; reflexivity.
  - intros Hmode Hwaf2.
    set (name := agentrouter_name account index).
    set (s0 := after_event (EvProcessing "AgentRouter" name) s).
    set (s1 := snd (browse env "https://agentrouter.org" 20000 s0)).
    set (s2 := snd (browse env "https://agentrouter.org/console" 20000 s1)).
    assert (Hsession :
      agentrouter_session rt env "AgentRouter" name account s0 =
      (Ok (inr (user_cookies, api_user)), s2)).
    { unfold agentrouter_session. cbv zeta.
      assert (Hm : negb (or_default (acc_email account) EmptyString =? EmptyString)%string
                   && negb (or_default (acc_password account) EmptyString =? EmptyString)%string
                   = false).
      { destruct Hmode as [->| ->]; cbn [String.eqb negb andb];
          [reflexivity|apply andb_false_r]. }
      rewrite Hm, Hconfigured. cbn [or_default]. rewrite Huser.
      unfold_m. rewrite Hcookies, Hne. cbn [negb].
      cbn [_get_waf_cookies_with_fallback AGENTROUTER_WAF_URLS].
      unfold_m. rewrite get_waf_cookies_run.
      change (browses (world s0)) with (browses (world s)).
      rewrite Hwaf. cbn [cookies_truthy]. fold s1.
      rewrite get_waf_cookies_run.
      change (browses (world s1)) with (S (browses (world s))).
      rewrite Hwaf2. cbn [cookies_truthy]. reflexivity. }
    destruct (do_agentrouter_checkin_runs rt env name user_cookies api_user s2)
      as [[[success message] balance] Hrun].
    destruct (record_and_report_total env "AgentRouter" "agentrouter_" name
                (success, message, balance)
                (after_requests env AGENTROUTER_SELF_URL
                   AGENTROUTER_SIGN_IN_URL user_cookies api_user s2))
      as (s' & Hreport & Htrace).
    exists success, message, balance, s'. split; [|split].
    + unfold checkin_agentrouter. cbv zeta. fold name.
      unfold bind at 1. unfold emit, update_world.
      change {| self := self s; world := push _ (world s) |} with s0.
      apply try_except_ok. unfold agentrouter_pipeline.
      rewrite (bind_ok _ _ _ _ _ Hsession).
      rewrite (bind_ok _ _ _ _ _ Hrun). exact Hreport.
    + rewrite Hrun. reflexivity.
    + apply events_since_app. rewrite Htrace, after_requests_trace.
      cbn [fst snd]. subst s2 s1 s0.
      cbn [world trace browse snd after_event push].
      rewrite <- !app_assoc. reflexivity.
Qed.

(** X12.  An AgentRouter account with an e-mail address and a password is
    handled by login alone: the cookies and the user id of its
    configuration are not looked at, and no WAF cookies are fetched.  A
    login that gives nothing is the failure "账号密码登录失败", and nothing
    is sent.  After a login that gives a session, the check-in requests are
    sent with the cookies and the user id of the login, also when that
    user id is empty. *)
Theorem agentrouter_login_mode (rt : PyRuntime) (env : Env) (account : Account)
  (index : nat) (s : State) (email password : string) :
  acc_email account = Some email -> email <> EmptyString ->
  acc_password account = Some password -> password <> EmptyString ->
  let name := agentrouter_name account index in
  let s1 := snd (_login_agentrouter env email password
                   (after_event (EvProcessing "AgentRouter" name) s)) in
  (env_login env (logins (world s)) = Ok None ->
   exists s',
     checkin_agentrouter rt env account index s =
       (Ok {| o_platform := "AgentRouter"; o_name := name;
              o_success := false; o_message := MSG_LOGIN_FAILED;
              o_timestamp := env_now env (clock_reads (world s));
              o_balance := None |}, s') /\
     events_since s s' =
       [EvProcessing "AgentRouter" name; EvLogin email password] /\
     browses (world s') = browses (world s) /\
     gets (world s') = gets (world s) /\
     posts (world s') = posts (world s)) /\
  (forall l, env_login env (logins (world s)) = Ok (Some l) ->
   exists success message balance s',
     checkin_agentrouter rt env account index s =
       (Ok {| o_platform := "AgentRouter"; o_name := name;
              o_success := success; o_message := message;
              o_timestamp := env_now env (clock_reads (world s));
              o_balance := balance |}, s') /\
     fst (_do_agentrouter_checkin rt env name (login_cookies l)
            (login_api_user l) s1) = Ok (success, message, balance) /\
     events_since s s' =
       ([EvProcessing "AgentRouter" name; EvLogin email password]
        ++ request_events AGENTROUTER_SELF_URL AGENTROUTER_SIGN_IN_URL
             (login_cookies l) (login_api_user l)
        ++ match balance with
           | Some b => delta_report ("agentrouter_" +s name) b (self s)
           | None => []
           end)%list).
Proof.
  intros Hemail Hemail_ne Hpassword Hpassword_ne name s1.
  apply string_eqb_false_iff in Hemail_ne, Hpassword_ne.
  set (s0 := after_event (EvProcessing "AgentRouter" name) s) in *.
  assert (Hmode : negb (or_default (acc_email account) EmptyString =? EmptyString)%string
                  && negb (or_default (acc_password account) EmptyString =? EmptyString)%string
                  = true).
  { rewrite Hemail, Hpassword. cbn [or_default].
    rewrite Hemail_ne, Hpassword_ne. reflexivity. }
  split.
  - intros Hlogin.
    unfold checkin_agentrouter, agentrouter_pipeline, agentrouter_session,
      _make_result, now_isoformat, is_Exception, _login_agentrouter.
    cbv zeta. rewrite Hmode, Hemail, Hpassword. cbn [or_default]. unfold_m.
    cbn [self world logins push]. rewrite Hlogin. cbn [fst snd].
    eexists. split; [reflexivity|].
    split; [apply events_since_app; cbn [world trace push];
            rewrite <- app_assoc; reflexivity|].
    repeat split.
  - intros l Hlogin.
    assert (Hsession :
      agentrouter_session rt env "AgentRouter" name account s0 =
      (Ok (inr (login_cookies l, login_api_user l)), s1)).
    { unfold agentrouter_session. cbv zeta.
      rewrite Hmode, Hemail, Hpassword. cbn [or_default].
      unfold bind, _login_agentrouter.
      change (logins (world s0)) with (logins (world s)).
      rewrite Hlogin. reflexivity. }
    destruct (do_agentrouter_checkin_runs rt env name (login_cookies l)
                (login_api_user l) s1)
      as [[[success message] balance] Hrun].
    destruct (record_and_report_total env "AgentRouter" "agentrouter_" name
                (success, message, balance)
                (after_requests env AGENTROUTER_SELF_URL
                   AGENTROUTER_SIGN_IN_URL (login_cookies l)
                   (login_api_user l) s1))
      as (s' & Hreport & Htrace).
    exists success, message, balance, s'. split; [|split].
    + unfold checkin_agentrouter. cbv zeta. fold name.
      unfold bind at 1. unfold emit, update_world.
      change {| self := self s; world := push _ (world s) |} with s0.
      apply try_except_ok. unfold agentrouter_pipeline.
      rewrite (bind_ok _ _ _ _ _ Hsession).
      rewrite (bind_ok _ _ _ _ _ Hrun). exact Hreport.
    + rewrite Hrun. reflexivity.
    + apply events_since_app. rewrite Htrace, after_requests_trace.
      cbn [fst snd]. subst s1 s0.
      cbn [world trace _login_agentrouter snd after_event push].
      rewrite <- !app_assoc. reflexivity.
Qed.

(** *** No success without the sign-in request *)

Lemma quiet_extends {A : Type} (m : M A) :
  quiet m ->
  forall s, exists evs,
    trace (world (snd (m s))) = (trace (world s) ++ evs)%list.
Proof. intros Hm s. destruct (Hm s) as (evs & H & _). exists evs. exact H. Qed.

Lemma earned_bind {A : Type} (url : string) (m : M A) (k : A -> M Outcome) :
  (forall s, exists evs,
     trace (world (snd (m s))) = (trace (world s) ++ evs)%list) ->
  (forall a, earned url (k a)) -> earned url (bind m k).
Proof.
  intros Hm Hk s. unfold bind. destruct (Hm s) as (e1 & H1).
  destruct (m s) as [[a|e] s1]; cbn [fst snd] in *.
  - destruct (Hk a s1) as (e2 & H2 & Hpost).
    exists (e1 ++ e2)%list. split; [rewrite H2, H1, app_assoc; reflexivity|].
    destruct (fst (k a s1)) as [o|]; [|exact I].
    intros Ho. destruct (Hpost Ho) as (c & u & Hin).
    exists c, u. apply in_or_app. right. exact Hin.
  - exists e1. split; [exact H1|exact I].
Qed.

Lemma earned_try_except (url : string) (catches : exn -> bool)
  (m : M Outcome) (h : exn -> M Outcome) :
  earned url m -> (forall e, earned url (h e)) ->
  earned url (try_except catches m h).
Proof.
  intros Hm Hh s. unfold try_except. destruct (Hm s) as (e1 & H1 & Hpost).
  destruct (m s) as [[o|e] s1]; cbn [fst snd] in *.
  - exists e1. split; assumption.
  - destruct (catches e); [|exists e1; split; [exact H1|exact I]].
    destruct (Hh e s1) as (e2 & H2 & Hpost2).
    exists (e1 ++ e2)%list. split; [rewrite H2, H1, app_assoc; reflexivity|].
    destruct (fst (h e s1)) as [o|]; [|exact I].
    intros Ho. destruct (Hpost2 Ho) as (c & u & Hin).
    exists c, u. apply in_or_app. right. exact Hin.
Qed.

Lemma earned_failure (env : Env) (url platform name message : string) :
  earned url (_make_result env platform name false message None).
Proof.
  intros s. exists []. split; [symmetry; apply app_nil_r|].
  cbn [fst _make_result]. unfold _make_result, now_isoformat. unfold_m.
  cbn [fst o_success o_balance]. intros [H|H]; [discriminate|contradiction].
Qed.

Lemma earned_ret (url : string) (o : Outcome) :
  o_success o = false -> o_balance o = None -> earned url (ret o).
Proof.
  intros Hs Hb s. exists []. split; [symmetry; apply app_nil_r|].
  cbn [fst ret]. rewrite Hs, Hb. intros [H|H]; [discriminate|contradiction].
Qed.

Lemma earned_anyrouter_request (rt : PyRuntime) (env : Env)
  (platform name : string) (cookies : Cookies) (api_user : string) :
  earned ANYROUTER_SIGN_IN_URL
    (bind (_do_anyrouter_checkin rt env name cookies api_user)
          (fun answer =>
             record_and_report env platform "anyrouter_" name answer)).
Proof.
  intros s.
  destruct (do_anyrouter_checkin_runs rt env name cookies api_user s)
    as [answer Hrun].
  rewrite (bind_ok _ _ _ _ _ Hrun).
  destruct (record_and_report_total env platform "anyrouter_" name answer
              (after_requests env ANYROUTER_SELF_URL ANYROUTER_SIGN_IN_URL
                 cookies api_user s)) as (s' & Hreport & Htrace).
  rewrite Hreport. cbn [fst snd]. eexists. split.
  - rewrite Htrace, after_requests_trace, <- app_assoc. reflexivity.
  - intros _. exists cookies, api_user. apply in_or_app. left.
    unfold request_events. simpl. auto.
Qed.

Lemma earned_agentrouter_request (rt : PyRuntime) (env : Env)
  (platform name : string) (cookies : Cookies) (api_user : string) :
  earned AGENTROUTER_SIGN_IN_URL
    (bind (_do_agentrouter_checkin rt env name cookies api_user)
          (fun answer =>
             record_and_report env platform "agentrouter_" name answer)).
Proof.
  intros s.
  destruct (do_agentrouter_checkin_runs rt env name cookies api_user s)
    as [answer Hrun].
  rewrite (bind_ok _ _ _ _ _ Hrun).
  destruct (record_and_report_total env platform "agentrouter_" name answer
              (after_requests env AGENTROUTER_SELF_URL AGENTROUTER_SIGN_IN_URL
                 cookies api_user s)) as (s' & Hreport & Htrace).
  rewrite Hreport. cbn [fst snd]. eexists. split.
  - rewrite Htrace, after_requests_trace, <- app_assoc. reflexivity.
  - intros _. exists cookies, api_user. apply in_or_app. left.
    unfold request_events. simpl. auto.
Qed.

Lemma earned_anyrouter_pipeline (rt : PyRuntime) (env : Env)
  (platform name : string) (account : Account) :
  earned ANYROUTER_SIGN_IN_URL
    (anyrouter_pipeline rt env platform name account).
Proof.
  unfold anyrouter_pipeline. cbv zeta.
  destruct (String.eqb _ EmptyString); [apply earned_failure|].
  apply earned_bind; [apply quiet_extends, quiet_lift|]. intros user_cookies.
  destruct (negb _); [apply earned_failure|].
  apply earned_bind; [apply quiet_extends, quiet_get_waf_cookies|].
  intros waf_cookies.
  destruct waf_cookies as [waf|]; [|apply earned_failure].
  destruct (dict_nonempty waf); [|apply earned_failure].
  apply earned_anyrouter_request.
Qed.

Lemma yields_agentrouter_session_failed (rt : PyRuntime) (env : Env)
  (platform name : string) (account : Account) :
  yields (fun r => match r with
                   | inl o => o_success o = false /\ o_balance o = None
                   | inr _ => True
                   end)
         (agentrouter_session rt env platform name account).
Proof.
  unfold agentrouter_session. cbv zeta.
  repeat first
    [ apply yields_ret; exact I
    | apply yields_bind_with
        with (Q := fun o => o_success o = false /\ o_balance o = None);
        [intros s o H; injection H as <-; split; reflexivity
        |intros o Ho; apply yields_ret; exact Ho]
    | apply yields_bind; intros ?
    | match goal with
      | |- yields _ (if ?b then _ else _) => destruct b
      | |- yields _ (match ?x with _ => _ end) => destruct x
      end ].
Qed.

Lemma earned_bind_with {A : Type} (url : string) (Q : A -> Prop) (m : M A)
  (k : A -> M Outcome) :
  (forall s, exists evs,
     trace (world (snd (m s))) = (trace (world s) ++ evs)%list) ->
  yields Q m -> (forall a, Q a -> earned url (k a)) ->
  earned url (bind m k).
Proof.
  intros Hm HQ Hk s. unfold bind. destruct (Hm s) as (e1 & H1).
  specialize (HQ s).
  destruct (m s) as [[a|e] s1]; cbn [fst snd] in *.
  - destruct (Hk a (HQ a eq_refl) s1) as (e2 & H2 & Hpost).
    exists (e1 ++ e2)%list. split; [rewrite H2, H1, app_assoc; reflexivity|].
    destruct (fst (k a s1)) as [o|]; [|exact I].
    intros Ho. destruct (Hpost Ho) as (c & u & Hin).
    exists c, u. apply in_or_app. right. exact Hin.
  - exists e1. split; [exact H1|exact I].
Qed.

Lemma earned_agentrouter_pipeline (rt : PyRuntime) (env : Env)
  (platform name : string) (account : Account) :
  earned AGENTROUTER_SIGN_IN_URL
    (agentrouter_pipeline rt env platform name account).
Proof.
  unfold agentrouter_pipeline.
  eapply earned_bind_with;
    [apply quiet_extends, quiet_agentrouter_session
    |apply yields_agentrouter_session_failed|].
  intros [early|[all_cookies api_user]] H.
  - destruct H as [Hs Hb]. apply earned_ret; assumption.
  - apply earned_agentrouter_request.
Qed.

Lemma earned_boundary (env : Env) (url platform name : string)
  (body : M Outcome) :
  earned url body ->
  earned url
    (bind (emit (EvProcessing platform name))
          (fun _ => try_except is_Exception body
                      (checkin_error env platform name))).
Proof.
  intros Hbody.
  apply earned_bind; [intros s; eexists; reflexivity|].
  intros _. apply earned_try_except; [exact Hbody|].
  intros e. apply earned_failure.
Qed.

(** X23.  No success without the sign-in request.  A result of
    [checkin_anyrouter] or [checkin_agentrouter] that is a success, or that
    carries a balance, was obtained by a run that sent the POST to the
    sign-in address of its platform: whatever is wrong with the
    configuration, the browser or the login, it cannot end in a success. *)
Theorem no_success_without_sign_in (rt : PyRuntime) (env : Env)
  (account : Account) (index : nat) (s : State) :
  (exists o s',
     checkin_anyrouter rt env account index s = (Ok o, s') /\
     (o_success o = true \/ o_balance o <> None ->
      exists cookies api_user,
        In (EvPost ANYROUTER_SIGN_IN_URL cookies api_user)
           (events_since s s'))) /\
  (exists o s',
     checkin_agentrouter rt env account index s = (Ok o, s') /\
     (o_success o = true \/ o_balance o <> None ->
      exists cookies api_user,
        In (EvPost AGENTROUTER_SIGN_IN_URL cookies api_user)
           (events_since s s'))).
Proof.
  split.
  - destruct (checkin_anyrouter_spec rt env account index s)
      as (o & s' & work & Hrun & _).
    exists o, s'. split; [exact Hrun|].
    destruct (earned_boundary env ANYROUTER_SIGN_IN_URL "AnyRouter"
                (anyrouter_name account index) _
                (earned_anyrouter_pipeline rt env "AnyRouter"
                   (anyrouter_name account index) account) s)
      as (evs & Htrace & Hpost).
    change (bind _ _) with (checkin_anyrouter rt env account index)
      in Htrace, Hpost.
    rewrite Hrun in Htrace, Hpost. cbn [fst snd] in Htrace, Hpost.
    rewrite (events_since_app _ _ _ Htrace). exact Hpost.
  - destruct (checkin_agentrouter_spec rt env account index s)
      as (o & s' & work & Hrun & _).
    exists o, s'. split; [exact Hrun|].
    destruct (earned_boundary env AGENTROUTER_SIGN_IN_URL "AgentRouter"
                (agentrouter_name account index) _
                (earned_agentrouter_pipeline rt env "AgentRouter"
                   (agentrouter_name account index) account) s)
      as (evs & Htrace & Hpost).
    change (bind _ _) with (checkin_agentrouter rt env account index)
      in Htrace, Hpost.
    rewrite Hrun in Htrace, Hpost. cbn [fst snd] in Htrace, Hpost.
    rewrite (events_since_app _ _ _ Htrace). exact Hpost.
Qed.

(** *** Keys of the ledger and names of the accounts *)

Lemma cat_inj (prefix a b : string) : prefix +s a = prefix +s b -> a = b.
Proof.
  unfold PyStr.cat. induction prefix as [|c prefix IH]; simpl; intros H.
  - exact H.
  - injection H as H. apply IH, H.
Qed.

Lemma uint_digits_inj (d d' : Decimal.uint) :
  PyStr.uint_digits d = PyStr.uint_digits d' -> d = d'.
Proof.
  revert d'. induction d as [|d IH|d IH|d IH|d IH|d IH|d IH|d IH|d IH|d IH|d IH];
    intros d' H; destruct d'; simpl in H; try discriminate H;
    try reflexivity; injection H as H; f_equal; apply IH, H.
Qed.

Lemma uint_digits_unsigned (d d' : Decimal.uint) :
  PyStr.uint_digits d <> String "-" (PyStr.uint_digits d').
Proof. destruct d; simpl; intros H; discriminate H. Qed.

Lemma of_int_inj (a b : Z) : PyStr.of_int a = PyStr.of_int b -> a = b.
Proof.
  unfold PyStr.of_int. intros H. apply DecimalZ.to_int_inj.
  destruct (Z.to_int a) as [d|d], (Z.to_int b) as [d'|d'].
  - f_equal. apply uint_digits_inj, H.
  - exfalso. exact (uint_digits_unsigned _ _ H).
  - exfalso. symmetry in H. exact (uint_digits_unsigned _ _ H).
  - injection H as H. f_equal. apply uint_digits_inj, H.
Qed.

(** X13.  The entries of the two platforms never meet, and accounts
    without a name do not share an entry.  A key that [checkin_anyrouter]
    writes is never a key that [checkin_agentrouter] writes, whatever the
    names of the accounts, so each of the two leaves every entry of the
    other platform as it was.  Two accounts of a platform without a [name]
    get different names, hence different keys, when their positions
    differ. *)
Theorem platform_ledgers_disjoint (rt : PyRuntime) (env : Env)
  (account other : Account) (index : nat) (s : State) :
  (forall name,
     dict_get ("agentrouter_" +s name)
       (current_balances
          (self (snd (checkin_anyrouter rt env account index s)))) =
     dict_get ("agentrouter_" +s name) (current_balances (self s))) /\
  (forall name,
     dict_get ("anyrouter_" +s name)
       (current_balances
          (self (snd (checkin_agentrouter rt env account index s)))) =
     dict_get ("anyrouter_" +s name) (current_balances (self s))) /\
  (forall other_index,
     acc_name account = None -> acc_name other = None ->
     index <> other_index ->
     "anyrouter_" +s anyrouter_name account index <>
       "anyrouter_" +s anyrouter_name other other_index /\
     "agentrouter_" +s agentrouter_name account index <>
       "agentrouter_" +s agentrouter_name other other_index).
Proof.
  split; [|split].
  - intros name.
    destruct (checkin_anyrouter_ledger rt env account index s)
      as (o & s' & Hrun & _ & Hself & _).
    rewrite Hrun. cbn [snd]. rewrite Hself.
    apply with_balance_frame. discriminate.
  - intros name.
    destruct (checkin_agentrouter_ledger rt env account index s)
      as (o & s' & Hrun & _ & Hself & _).
    rewrite Hrun. cbn [snd]. rewrite Hself.
    apply with_balance_frame. discriminate.
  - intros other_index Hnone Hnone' Hdiff.
    unfold anyrouter_name, agentrouter_name. rewrite Hnone, Hnone'.
    cbn [or_default].
    split; intros H; do 2 apply cat_inj in H; apply of_int_inj in H; lia.
Qed.

(** *** [_print_platform_summary] *)

Lemma filter_split_length {A : Type} (f : A -> bool) (l : list A) :
  (length (List.filter f l) + length (List.filter (fun x => negb (f x)) l)
   = length l)%nat.
Proof.
  induction l as [|x l IH]; simpl; [reflexivity|].
  destruct (f x); simpl; lia.
Qed.

Lemma sum_balances_from (results : list Outcome) (seen : bool)
  (total_quota total_used : float) :
  fold_left
    (fun acc result =>
       match o_balance result with
       | Some balance =>
           (true, PyFloat.add (snd (fst acc)) (quota balance),
            PyFloat.add (snd acc) (used balance))
       | None => acc
       end)
    results (seen, total_quota, total_used) =
  (seen || existsb (fun o => match o_balance o with
                             | Some _ => true
                             | None => false
                             end) results,
   fold_left PyFloat.add
     (flat_map (fun o => match o_balance o with
                         | Some b => [quota b]
                         | None => []
                         end) results) total_quota,
   fold_left PyFloat.add
     (flat_map (fun o => match o_balance o with
                         | Some b => [used b]
                         | None => []
                         end) results) total_used).
Proof.
  revert seen total_quota total_used.
  induction results as [|o rest IH]; intros seen tq tu; cbn [fold_left
    existsb flat_map].
  - rewrite orb_false_r. reflexivity.
  - destruct (o_balance o) as [b|]; rewrite IH; cbn [fst snd app fold_left orb].
    + rewrite orb_true_r. reflexivity.
    + reflexivity.
Qed.

(** X14.  The summary of a platform.  For a platform without results
    nothing is printed.  Otherwise one summary is printed: it counts all
    results, the number of failures it shows is the number of results whose
    success flag is false, the totals are shown exactly when some result
    carries a balance, and they are the sums, in the order of the results,
    of the amounts of the results that carry one. *)
Theorem platform_summary_counts (platform_name : string)
  (results : list Outcome) (s : State) :
  let balances :=
    flat_map (fun o => match o_balance o with
                       | Some b => [b]
                       | None => []
                       end) results in
  (results = [] -> summary_if_any platform_name results s = (Ok tt, s)) /\
  (results <> [] ->
   exists success_count failed_count totals,
     summary_if_any platform_name results s =
       (Ok tt,
        after_event (EvSummary platform_name (length results) success_count
                       failed_count totals) s) /\
     success_count = length (List.filter o_success results) /\
     failed_count =
       length (List.filter (fun o => negb (o_success o)) results) /\
     (success_count + failed_count = length results)%nat /\
     totals =
       match balances with
       | [] => None
       | _ => Some (fold_left PyFloat.add (map quota balances) PyFloat.zero,
                    fold_left PyFloat.add (map used balances) PyFloat.zero)
       end).
Proof.
  cbv zeta. split; [intros ->; reflexivity|].
  intros Hne. destruct results as [|o rest]; [contradiction|].
  set (results := o :: rest) in *.
  unfold summary_if_any, _print_platform_summary. fold results.
  cbv zeta. unfold sum_balances. rewrite sum_balances_from.
  cbn [orb]. unfold emit, update_world, after_event.
  pose proof (filter_split_length o_success results) as Hsplit.
  do 3 eexists. split; [reflexivity|].
  split; [reflexivity|]. split; [lia|]. split; [lia|].
  clearbody results. clear.
  assert (Hq : forall l : list Outcome,
            flat_map (fun o => match o_balance o with
                               | Some b => [quota b] | None => [] end) l =
            map quota (flat_map (fun o => match o_balance o with
                                          | Some b => [b] | None => [] end) l)).
  { induction l as [|x l IH]; cbn [flat_map map]; [reflexivity|].
    rewrite map_app, <- IH. destruct (o_balance x); reflexivity. }
  assert (Hu : forall l : list Outcome,
            flat_map (fun o => match o_balance o with
                               | Some b => [used b] | None => [] end) l =
            map used (flat_map (fun o => match o_balance o with
                                         | Some b => [b] | None => [] end) l)).
  { induction l as [|x l IH]; cbn [flat_map map]; [reflexivity|].
    rewrite map_app, <- IH. destruct (o_balance x); reflexivity. }
  rewrite Hq, Hu.
  assert (He : existsb (fun o => match o_balance o with
                                 | Some _ => true | None => false end) results
               = match flat_map (fun o => match o_balance o with
                                           | Some b => [b] | None => [] end)
                         results with
                 | [] => false | _ => true end).
  { induction results as [|x l IH]; cbn [existsb flat_map]; [reflexivity|].
    destruct (o_balance x); [reflexivity|]. exact IH. }
  rewrite He. destruct (flat_map _ results); reflexivity.
Qed.

(** *** The state files at start-up *)

Lemma lstrip_plain (c : ascii) (rest : string) :
  plain c -> PyStrip.lstrip (String c rest) = String c rest.
Proof.
  intros [Hlow Hspace]. cbn [PyStrip.lstrip]. rewrite Hspace.
  assert (H2 : forall c2, PyStrip.space2 c c2 = false).
  { intros c2. unfold PyStrip.space2.
    destruct (N.eqb_spec (PyStrip.byte c) 194); [lia|reflexivity]. }
  assert (H3 : forall c2 c3, PyStrip.space3 c c2 c3 = false).
  { intros c2 c3. unfold PyStrip.space3.
    destruct (N.eqb_spec (PyStrip.byte c) 225); [lia|].
    destruct (N.eqb_spec (PyStrip.byte c) 226); [lia|].
    destruct (N.eqb_spec (PyStrip.byte c) 227); [lia|]. reflexivity. }
  destruct rest as [|c2 [|c3 r3]]; rewrite ?H2, ?H3; reflexivity.
Qed.

Lemma strip_plain (s : string) :
  (forall c, In c (list_ascii_of_string s) -> plain c) ->
  PyStrip.strip s = s.
Proof.
  intros Hplain. unfold PyStrip.strip.
  assert (Hl : PyStrip.lstrip s = s).
  { destruct s as [|c rest]; [reflexivity|].
    apply lstrip_plain, Hplain. left. reflexivity. }
  rewrite Hl. clear Hl.
  induction s as [|c rest IH]; [reflexivity|].
  cbn [PyStrip.rstrip].
  rewrite lstrip_plain by (apply Hplain; left; reflexivity).
  cbn [String.eqb]. rewrite IH; [reflexivity|].
  intros c' Hc'. apply Hplain. right. exact Hc'.
Qed.

Lemma strip_hex (s : string) :
  (forall c, In c (list_ascii_of_string s) ->
             In c (list_ascii_of_string "0123456789abcdef")) ->
  PyStrip.strip s = s.
Proof.
  intros Hhex. apply strip_plain. intros c Hc. specialize (Hhex c Hc).
  simpl in Hhex.
  repeat (destruct Hhex as [<-|Hhex];
          [split; [vm_compute; reflexivity|reflexivity]|]).
  contradiction.
Qed.

Lemma stored_ledger_get (balances : dict Balance) (k : string) :
  dict_get k (map (fun kv => (fst kv, stored_of_balance (snd kv))) balances) =
  option_map stored_of_balance (dict_get k balances).
Proof.
  induction balances as [|[k' v] rest IH]; simpl; [reflexivity|].
  destruct (String.eqb k k'); [reflexivity|exact IH].
Qed.

(** X15.  What a run saves is what the next run starts from.  After
    [_check_balance_change] on a ledger that is not empty, with both writes
    going through, the object that [__init__] builds from the two files
    holds the hash of that ledger as the hash of the previous run, and for
    each key the amounts of that ledger as the ledger of the previous run;
    its own ledger is empty and its change flag is false.  (The digest is
    a text of 64 hexadecimal digits, which [strip] leaves as it is.) *)
Theorem saved_ledger_is_next_baseline (rt : PyRuntime) (env : Env)
  (s : State) :
  hex_digest rt ->
  current_balances (self s) <> [] ->
  env_write env (writes (world s)) = Ok tt ->
  env_write env (S (writes (world s))) = Ok tt ->
  let s' := snd (_check_balance_change rt env s) in
  let next := new_object (world s') in
  last_balance_hash next =
    Some (_generate_balance_hash rt (current_balances (self s))) /\
  (forall key,
     dict_get key (last_balance_data next) =
     option_map stored_of_balance (dict_get key (current_balances (self s)))) /\
  current_balances next = [] /\
  balance_changed next = false.
Proof.
  intros Hhex Hne Hw1 Hw2. cbv zeta. rewrite check_balance_change_run.
  destruct (current_balances (self s)) as [|entry rest] eqn:Hcur;
    [contradiction|]. cbn [dict_nonempty]. cbv zeta.
  set (h := _generate_balance_hash rt (entry :: rest)).
  match goal with |- context [bind _ _ ?s1] =>
    destruct (save_ledger_run env h s1) as (_ & _ & _ & H4 & H5) end.
  cbv zeta in H4, H5. cbn [self world current_balances] in H4, H5.
  specialize (H4 Hw1). specialize (H5 Hw2).
  unfold new_object, __init__. rewrite H4, H5.
  cbn [read_state_file _load_balance_hash _load_balance_data
       last_balance_hash last_balance_data current_balances balance_changed].
  split; [|split; [|split; reflexivity]].
  - f_equal. apply strip_hex.
    apply (generate_balance_hash_hex rt (entry :: rest) Hhex).
  - intros key. apply stored_ledger_get.
Qed.

(** X16.  A change of the used amounts alone is not a balance change.
    When the object holds the hash of a ledger of the previous run, and the
    current ledger has the same keys with, key by key, the same quota, then
    [_check_balance_change] sets the change flag to false, whatever the used
    amounts are and in whatever order the accounts were recorded. *)
Theorem used_amounts_do_not_flag (rt : PyRuntime) (env : Env) (s : State)
  (previous : dict Balance) :
  List.NoDup (dict_keys previous) ->
  List.NoDup (dict_keys (current_balances (self s))) ->
  current_balances (self s) <> [] ->
  last_balance_hash (self s) = Some (_generate_balance_hash rt previous) ->
  (forall key,
     option_map quota (dict_get key (current_balances (self s))) =
     option_map quota (dict_get key previous)) ->
  balance_changed (self (snd (_check_balance_change rt env s))) = false.
Proof.
  intros Hnd1 Hnd2 Hne Hlast Hsame. rewrite check_balance_change_run.
  destruct (current_balances (self s)) as [|entry rest] eqn:Hcur;
    [contradiction|]. cbn [dict_nonempty]. cbv zeta.
  match goal with |- context [bind _ _ ?s1] =>
    destruct (save_ledger_run env (_generate_balance_hash rt (entry :: rest)) s1)
      as (_ & H2 & _) end.
  cbv zeta in H2. rewrite H2. cbn [self balance_changed].
  rewrite Hlast.
  rewrite (generate_balance_hash_quota_only rt (entry :: rest) previous
             Hnd2 Hnd1 Hsame).
  rewrite String.eqb_refl. reflexivity.
Qed.


(** *** Watching the browser scripts *)

Ltac unfold_b :=
  unfold Browser.bind, Browser.ret, Browser.lift, Browser.try_except,
    Browser.and_then, Browser.returned in *.

Section MonitorRules.

Variable St : Type.
Variable step : list Browser.Call -> St -> Browser.Call -> option St.

Lemma observe_app (h : list Browser.Call) (st : St)
  (a b : list Browser.Call) :
  observe step h st (a ++ b) =
  match observe step h st a with
  | Some st' => observe step (h ++ a) st' b
  | None => None
  end.
Proof.
  revert h st. induction a as [|c a IH]; intros h st; cbn [observe app].
  - rewrite app_nil_r. reflexivity.
  - destruct (step h st c) as [st'|]; [|reflexivity].
    rewrite IH, <- app_assoc. reflexivity.
Qed.

Lemma moves_weaken {A : Type} (pre pre' : St -> Prop) (m : Browser.B A)
  (post post' : result A -> St -> Prop) :
  moves step pre m post ->
  (forall st, pre' st -> pre st) ->
  (forall r st, post r st -> post' r st) ->
  moves step pre' m post'.
Proof.
  intros Hm Hpre Hpost h st Hst.
  destruct (Hm h st (Hpre st Hst)) as (added & st' & H1 & H2 & H3).
  exists added, st'. auto.
Qed.

Lemma moves_ret {A : Type} (pre : St -> Prop) (a : A)
  (post : result A -> St -> Prop) :
  (forall st, pre st -> post (Ok a) st) ->
  moves step pre (Browser.ret a) post.
Proof.
  intros H h st Hst. exists [], st. cbn [Browser.ret fst snd observe].
  rewrite app_nil_r. auto.
Qed.

Lemma moves_lift {A : Type} (pre : St -> Prop) (r : result A)
  (post : result A -> St -> Prop) :
  (forall st, pre st -> post r st) ->
  moves step pre (Browser.lift r) post.
Proof.
  intros H h st Hst. exists [], st. cbn [Browser.lift fst snd observe].
  rewrite app_nil_r. auto.
Qed.

Lemma moves_bind {A C : Type} (pre : St -> Prop) (m : Browser.B A)
  (k : A -> Browser.B C) (mid : result A -> St -> Prop)
  (post : result C -> St -> Prop) :
  moves step pre m mid ->
  (forall a, moves step (mid (Ok a)) (k a) post) ->
  (forall e st, mid (Raise e) st -> post (Raise e) st) ->
  moves step pre (Browser.bind m k) post.
Proof.
  intros Hm Hk Hraise h st Hst. unfold Browser.bind.
  destruct (Hm h st Hst) as (a1 & st1 & H1 & H2 & H3).
  destruct (m h) as [[a|e] h1]; cbn [fst snd] in *.
  - destruct (Hk a h1 st1 H3) as (a2 & st2 & K1 & K2 & K3).
    exists (a1 ++ a2)%list, st2. split; [|split; [|exact K3]].
    + rewrite K1, H1, app_assoc. reflexivity.
    + rewrite observe_app, H2, <- H1. exact K2.
  - exists a1, st1. auto.
Qed.

Lemma moves_try_except {A : Type} (pre : St -> Prop) (m : Browser.B A)
  (handler : exn -> Browser.B A) (mid post : result A -> St -> Prop) :
  moves step pre m mid ->
  (forall a st, mid (Ok a) st -> post (Ok a) st) ->
  (forall e, moves step (mid (Raise e)) (handler e) post) ->
  moves step pre (Browser.try_except m handler) post.
Proof.
  intros Hm Hok Hh h st Hst. unfold Browser.try_except.
  destruct (Hm h st Hst) as (a1 & st1 & H1 & H2 & H3).
  destruct (m h) as [[a|e] h1]; cbn [fst snd] in *.
  - exists a1, st1. auto.
  - destruct (Hh e h1 st1 H3) as (a2 & st2 & K1 & K2 & K3).
    exists (a1 ++ a2)%list, st2. split; [|split; [|exact K3]].
    + rewrite K1, H1, app_assoc. reflexivity.
    + rewrite observe_app, H2, <- H1. exact K2.
Qed.

Lemma moves_and_then {R A C : Type} (pre : St -> Prop)
  (m : Browser.B (R + A)) (k : A -> Browser.B (R + C))
  (mid : result (R + A) -> St -> Prop)
  (post : result (R + C) -> St -> Prop) :
  moves step pre m mid ->
  (forall r st, mid (Ok (inl r)) st -> post (Ok (inl r)) st) ->
  (forall a, moves step (mid (Ok (inr a))) (k a) post) ->
  (forall e st, mid (Raise e) st -> post (Raise e) st) ->
  moves step pre (Browser.and_then m k) post.
Proof.
  intros Hm Hearly Hk Hraise. unfold Browser.and_then.
  eapply moves_bind; [exact Hm| |exact Hraise].
  intros [r|a]; [apply moves_ret; apply Hearly|apply Hk].
Qed.

(** A single call: [answer] is what it gives. *)
Lemma moves_single {A : Type} (pre : St -> Prop)
  (answer : list Browser.Call -> result A) (c : Browser.Call)
  (post : result A -> St -> Prop) :
  (forall h st, pre st ->
     exists st', step h st c = Some st' /\ post (answer h) st') ->
  moves step pre (fun h => (answer h, (h ++ [c])%list)) post.
Proof.
  intros H h st Hst. destruct (H h st Hst) as (st' & Hstep & Hpost).
  exists [c], st'. cbn [fst snd observe]. rewrite Hstep. auto.
Qed.

End MonitorRules.

(** *** Closing the browser context *)

Lemma observe_close (page : Browser.Page) (added : list Browser.Call) :
  forall h closed,
  observe (close_monitor page) h false added = Some closed ->
  closed_last page h added /\
  (closed = true -> closed_at_end page h added) /\
  (closed = false -> never_closed page h added).
Proof.
  induction added as [|c rest IH]; intros h closed Hobs.
  - cbn [observe] in Hobs. injection Hobs as <-.
    split; [|split].
    + intros before after H. destruct before; discriminate H.
    + discriminate.
    + intros _ before after H. destruct before; discriminate H.
  - cbn [observe] in Hobs.
    destruct (close_monitor page h false c) as [closed1|] eqn:Hstep;
      [|discriminate].
    destruct closed1.
    + (* the call was a close that went through: nothing may follow *)
      destruct rest as [|c' rest']; [|cbn [observe close_monitor] in Hobs;
                                      discriminate].
      cbn [observe] in Hobs. injection Hobs as <-.
      unfold close_monitor in Hstep. destruct c; try discriminate.
      injection Hstep as Hok.
      split; [|split; [|discriminate]].
      * intros before after H Hwent.
        destruct before as [|b before].
        -- cbn [app] in H. injection H as <-. reflexivity.
        -- cbn [app] in H. injection H as _ H. destruct before; discriminate H.
      * intros _. exists []. split; [reflexivity|].
        rewrite app_nil_r. exact Hok.
    + destruct (IH (h ++ [c])%list closed Hobs) as (Hlast & Hend & Hnever).
      assert (Hhead : c = Browser.Close ->
                is_ok (Browser.does page h Browser.Close) = false).
      { intros ->. unfold close_monitor in Hstep.
        injection Hstep as Hok. exact Hok. }
      split; [|split].
      * intros before after H Hwent. destruct before as [|b before].
        -- cbn [app] in H. injection H as Hc _. rewrite app_nil_r in Hwent.
           rewrite (Hhead Hc) in Hwent. discriminate.
        -- cbn [app] in H. injection H as <- H.
           apply (Hlast before after H).
           rewrite <- app_assoc. exact Hwent.
      * intros Hclosed. destruct (Hend Hclosed) as (before & -> & Hwent).
        exists (c :: before). split; [reflexivity|].
        rewrite <- app_assoc in Hwent. exact Hwent.
      * intros Hclosed before after H. destruct before as [|b before].
        -- cbn [app] in H. injection H as Hc _. rewrite app_nil_r.
           exact (Hhead Hc).
        -- cbn [app] in H. injection H as <- H.
           specialize (Hnever Hclosed before after H).
           rewrite <- app_assoc in Hnever. exact Hnever.
Qed.


Section Closing.

Variable rt : PyRuntime.
Variable page : Browser.Page.

Lemma keeps_open_ret {A : Type} (a : A) : keeps_open page (Browser.ret a).
Proof. apply moves_ret. intros st H. exact H. Qed.

Lemma keeps_open_lift {A : Type} (r : result A) :
  keeps_open page (Browser.lift r).
Proof. apply moves_lift. intros st H. exact H. Qed.

Lemma keeps_open_bind {A C : Type} (m : Browser.B A) (k : A -> Browser.B C) :
  keeps_open page m -> (forall a, keeps_open page (k a)) ->
  keeps_open page (Browser.bind m k).
Proof.
  intros Hm Hk. eapply moves_bind; [exact Hm|exact Hk|].
  intros e st H. exact H.
Qed.

Lemma keeps_open_try_except {A : Type} (m : Browser.B A)
  (handler : exn -> Browser.B A) :
  keeps_open page m -> (forall e, keeps_open page (handler e)) ->
  keeps_open page (Browser.try_except m handler).
Proof.
  intros Hm Hh. eapply moves_try_except; [exact Hm| |exact Hh].
  intros a st H. exact H.
Qed.

Lemma keeps_open_single {A : Type} (answer : list Browser.Call -> result A)
  (c : Browser.Call) :
  c <> Browser.Close ->
  keeps_open page (fun h => (answer h, (h ++ [c])%list)).
Proof.
  intros Hc. apply moves_single. intros h st ->. exists false.
  split; [|reflexivity]. destruct c; try reflexivity. contradiction.
Qed.

Lemma keeps_open_call (c : Browser.Call) :
  c <> Browser.Close -> keeps_open page (Browser.call page c).
Proof. apply keeps_open_single. Qed.

Lemma keeps_open_query_selector (selector : string) :
  keeps_open page (Browser.query_selector page selector).
Proof. apply keeps_open_single. discriminate. Qed.

Lemma keeps_open_page_url : keeps_open page (Browser.page_url page).
Proof. apply keeps_open_single. discriminate. Qed.

Lemma keeps_open_context_cookies :
  keeps_open page (Browser.context_cookies page).
Proof. apply keeps_open_single. discriminate. Qed.

Lemma keeps_open_evaluate (script : string) :
  keeps_open page (Browser.evaluate page script).
Proof. apply keeps_open_single. discriminate. Qed.

Ltac keeps_open_tac :=
  repeat first
    [ apply keeps_open_ret
    | apply keeps_open_lift
    | apply keeps_open_query_selector
    | apply keeps_open_page_url
    | apply keeps_open_context_cookies
    | apply keeps_open_evaluate
    | apply keeps_open_call; discriminate
    | apply keeps_open_bind; [|intros ?]
    | apply keeps_open_try_except; [|intros ?]
    | match goal with
      | |- keeps_open _ (if ?b then _ else _) => destruct b
      | |- keeps_open _ (match ?x with _ => _ end) => destruct x
      end ].

Lemma keeps_open_find_login_page (urls : list string) :
  keeps_open page (Browser.find_login_page page urls).
Proof.
  induction urls as [|url rest IH]; cbn [Browser.find_login_page].
  - apply keeps_open_ret.
  - apply keeps_open_bind; [keeps_open_tac|].
    intros found. destruct found; [apply keeps_open_ret|exact IH].
Qed.

Lemma keeps_open_first_success (attempt : string -> Browser.Call)
  (selectors : list string) :
  (forall selector, attempt selector <> Browser.Close) ->
  keeps_open page (Browser.first_success page attempt selectors).
Proof.
  intros Hattempt.
  induction selectors as [|selector rest IH]; cbn [Browser.first_success].
  - apply keeps_open_ret.
  - apply keeps_open_bind.
    + apply keeps_open_try_except; [|intros e; apply keeps_open_ret].
      apply keeps_open_bind; [|intros _; apply keeps_open_ret].
      apply keeps_open_call, Hattempt.
    + intros done. destruct done; [apply keeps_open_ret|exact IH].
Qed.

Lemma keeps_open_fetch_user_id :
  keeps_open page (Browser.fetch_user_id rt page).
Proof. unfold Browser.fetch_user_id. keeps_open_tac. Qed.

(** From an open context, after [m], which keeps it open, comes [k]. *)
Lemma open_then {A C : Type} (m : Browser.B A) (k : A -> Browser.B C)
  (post : result C -> bool -> Prop) :
  keeps_open page m ->
  (forall a, moves (close_monitor page) still_open (k a) post) ->
  (forall e, post (Raise e) false) ->
  moves (close_monitor page) still_open (Browser.bind m k) post.
Proof.
  intros Hm Hk Hraise. eapply moves_bind; [exact Hm|exact Hk|].
  intros e st ->. apply Hraise.
Qed.

(** [await context.close()] and then [return a]. *)
Lemma close_and_return {A : Type} (a : A) :
  moves (close_monitor page) still_open
    (Browser.bind (Browser.call page Browser.Close)
                  (fun _ => Browser.ret a))
    closed_iff_returned.
Proof.
  intros h st ->. unfold Browser.bind, Browser.call, Browser.ret.
  exists [Browser.Close].
  destruct (Browser.does page h Browser.Close) as [[]|e] eqn:Hclose;
    cbn [fst snd observe close_monitor]; rewrite Hclose; cbn [is_ok];
    eexists; repeat split.
Qed.

Lemma close_and_end {R A : Type} (r : R) :
  moves (close_monitor page) still_open
    (Browser.bind (Browser.call page Browser.Close)
                  (fun _ => Browser.ret (@inl R A r)))
    closed_iff_ended.
Proof.
  intros h st ->. unfold Browser.bind, Browser.call, Browser.ret.
  exists [Browser.Close].
  destruct (Browser.does page h Browser.Close) as [[]|e] eqn:Hclose;
    cbn [fst snd observe close_monitor]; rewrite Hclose; cbn [is_ok];
    eexists; repeat split.
Qed.

End Closing.

Section ClosingScripts.

Variable rt : PyRuntime.
Variable page : Browser.Page.

Ltac open_steps :=
  repeat first
    [ apply (close_and_return page)
    | apply (close_and_end page)
    | apply open_then;
        [solve [ apply keeps_open_call; discriminate
               | apply keeps_open_context_cookies
               | apply keeps_open_page_url
               | apply keeps_open_fetch_user_id
               | apply keeps_open_find_login_page
               | apply keeps_open_first_success; discriminate
               | apply keeps_open_try_except;
                   [apply keeps_open_call; discriminate
                   |intros ?; first [apply keeps_open_call; discriminate
                                    |apply keeps_open_ret]] ]
        |intros ?|intros ?; reflexivity]
    | progress cbv zeta ].

Lemma get_waf_cookies_closes (account_name url : string) (timeout : Z) :
  moves (close_monitor page) still_open
    (Browser._get_waf_cookies page account_name url timeout)
        closed_iff_returned.
Proof.
  unfold Browser._get_waf_cookies.
  apply open_then; [apply keeps_open_call; discriminate|intros _|reflexivity].
  apply open_then; [apply keeps_open_call; discriminate|intros _|reflexivity].
  apply moves_try_except with (mid := closed_iff_returned).
  - open_steps.
  - intros a st H. exact H.
  - intros e. apply (close_and_return page).
Qed.

Lemma fill_form_closes (email password : string) :
  moves (close_monitor page) still_open
    (Browser.fill_form page email password) closed_iff_ended.
Proof.
  unfold Browser.fill_form.
  apply moves_try_except with (mid := closed_iff_ended).
  - apply open_then;
      [apply keeps_open_first_success; discriminate|intros email_filled
      |reflexivity].
    destruct email_filled; cbn [negb]; [|apply (close_and_end page)].
    apply open_then;
      [apply keeps_open_first_success; discriminate|intros password_filled
      |reflexivity].
    destruct password_filled; cbn [negb]; [|apply (close_and_end page)].
    apply open_then; [apply keeps_open_call; discriminate|intros _|reflexivity].
    apply moves_ret. intros st H. exact H.
  - intros a st H. exact H.
  - intros e. apply (close_and_end page).
Qed.

Lemma submit_form_closes :
  moves (close_monitor page) still_open
    (Browser.submit_form page) closed_iff_ended.
Proof.
  unfold Browser.submit_form.
  apply moves_try_except with (mid := closed_iff_ended).
  - apply open_then;
      [apply keeps_open_first_success; discriminate|intros clicked
      |reflexivity].
    destruct clicked; cbn [negb]; [|apply (close_and_end page)].
    apply moves_ret. intros st H. exact H.
  - intros a st H. exact H.
  - intros e. apply (close_and_end page).
Qed.

Lemma wait_for_console_closes :
  moves (close_monitor page) still_open
    (Browser.wait_for_console page) closed_iff_ended.
Proof.
  unfold Browser.wait_for_console.
  apply moves_try_except with (mid := closed_iff_ended).
  - apply open_then; [apply keeps_open_call; discriminate|intros _|reflexivity].
    apply moves_ret. intros st H. exact H.
  - intros a st H. exact H.
  - intros e.
    apply open_then; [apply keeps_open_call; discriminate|intros _|reflexivity].
    apply open_then; [apply keeps_open_page_url|intros current_url|reflexivity].
    destruct (PyStr.contains "/login" current_url
              || PyStr.contains "#/login" current_url).
    + apply open_then; [|intros _; apply (close_and_end page)|reflexivity].
      apply keeps_open_try_except;
        [apply keeps_open_call; discriminate|intros ?; apply keeps_open_ret].
    + apply moves_ret. intros st H. exact H.
Qed.

Lemma collect_session_closes :
  moves (close_monitor page) still_open
    (Browser.collect_session rt page) closed_at_return.
Proof.
  unfold Browser.collect_session.
  apply open_then; [apply keeps_open_context_cookies|intros cookies|reflexivity].
  cbv zeta.
  assert (Hend : forall r : option Browser.Session,
            moves (close_monitor page) still_open
    (Browser.bind (Browser.call page Browser.Close)
                     (fun _ => Browser.ret (inl r)))
                  (@closed_at_return (option Browser.Session))).
  { intros r h st ->. unfold Browser.bind, Browser.call, Browser.ret.
    exists [Browser.Close].
    destruct (Browser.does page h Browser.Close) as [[]|e] eqn:Hclose;
      cbn [fst snd observe close_monitor]; rewrite Hclose; cbn [is_ok];
      eexists; repeat split. }
  destruct (negb _); [apply Hend|].
  apply open_then; [apply keeps_open_fetch_user_id|intros api_user|reflexivity].
  apply Hend.
Qed.

End ClosingScripts.

Lemma login_steps_close (rt : PyRuntime) (page : Browser.Page)
  (email password : string) :
  moves (close_monitor page) still_open
    (Browser.returned
       (Browser.and_then (Browser.fill_form page email password) (fun _ =>
        Browser.and_then (Browser.submit_form page) (fun _ =>
        Browser.and_then (Browser.wait_for_console page) (fun _ =>
        Browser.collect_session rt page)))))
    closed_iff_returned.
Proof.
  unfold Browser.returned.
  apply moves_bind with (mid := closed_at_return).
  - apply moves_and_then with (mid := closed_iff_ended);
      [apply fill_form_closes|intros r st H; exact H| |intros e st H; exact H].
    intros ?.
    apply moves_and_then with (mid := closed_iff_ended);
      [apply submit_form_closes|intros r st H; exact H|
      |intros e st H; exact H].
    intros ?.
    apply moves_and_then with (mid := closed_iff_ended);
      [apply wait_for_console_closes|intros r st H; exact H|
      |intros e st H; exact H].
    intros ?. apply collect_session_closes.
  - intros [r|r]; apply moves_ret; intros st H; [exact H|destruct H].
  - intros e st H. exact H.
Qed.

Lemma login_closes (rt : PyRuntime) (page : Browser.Page)
  (email password : string) :
  moves (close_monitor page) still_open
    (Browser._login_agentrouter rt page email password)
    (fun r closed =>
       exists answer,
         r = Ok answer /\ (answer <> None -> closed = true)).
Proof.
  unfold Browser._login_agentrouter.
  apply moves_try_except with (mid := closed_iff_returned).
  - apply open_then; [apply keeps_open_call; discriminate|intros _|reflexivity].
    apply open_then; [apply keeps_open_call; discriminate|intros _|reflexivity].
    apply open_then;
      [apply keeps_open_find_login_page|intros login_success|reflexivity].
    destruct login_success; cbn [negb];
      [apply login_steps_close|apply close_and_return].
  - intros a st H. exists a. split; [reflexivity|]. intros _. exact H.
  - intros e. apply moves_ret. intros st _. exists None.
    split; [reflexivity|]. intros H. contradiction.
Qed.

(** X17.  Closing the browser context.  In both browser scripts a
    [context.close()] that went through is the last call to the browser.
    [_get_waf_cookies] returns exactly when the context was closed: its last
    call is then a close that went through, and when it raises no close
    went through.  [_login_agentrouter] never raises, and when it returns a
    session its last call is a close that went through. *)
Theorem browser_context_closed (rt : PyRuntime) (page : Browser.Page)
  (h : list Browser.Call) (account_name url : string) (timeout : Z)
  (email password : string) :
  (exists added,
     let run := Browser._get_waf_cookies page account_name url timeout h in
     snd run = (h ++ added)%list /\
     closed_last page h added /\
     (is_ok (fst run) = true -> closed_at_end page h added) /\
     (is_ok (fst run) = false -> never_closed page h added)) /\
  (exists added answer,
     Browser._login_agentrouter rt page email password h =
       (Ok answer, (h ++ added)%list) /\
     closed_last page h added /\
     (answer <> None -> closed_at_end page h added)).
Proof.
  split.
  - destruct (get_waf_cookies_closes page account_name url timeout h false
                eq_refl) as (added & closed & Hrun & Hobs & Hpost).
    exists added. cbv zeta. split; [exact Hrun|].
    destruct (observe_close page added h closed Hobs) as (H1 & H2 & H3).
    unfold closed_iff_returned in Hpost. rewrite <- Hpost.
    split; [exact H1|]. split; assumption.
  - destruct (login_closes rt page email password h false eq_refl)
      as (added & closed & Hrun & Hobs & answer & Hanswer & Hclosed).
    exists added, answer.
    destruct (observe_close page added h closed Hobs) as (H1 & H2 & _).
    split; [rewrite (surjective_pairing
                       (Browser._login_agentrouter rt page email password h)),
                    Hanswer, Hrun; reflexivity|].
    split; [exact H1|].
    intros Hsome. apply H2, Hclosed, Hsome.
Qed.

(** *** The browser session of [_get_waf_cookies] *)

Ltac split_calls page :=
  repeat match goal with
         | |- context [Browser.does page ?h ?c] =>
             destruct (Browser.does page h c) as [[]|?]
         | |- context [Browser.cookies_are page ?h] =>
             destruct (Browser.cookies_are page h) as [?|?]
         end.

(** A page that answers every call of a kind in the same way. *)
Lemma page_for_session (session : BrowseResult) (account_name url : string)
  (timeout : Z) :
  exists page,
    fst (Browser._get_waf_cookies page account_name url timeout []) =
    match session with
    | BrLaunchError e => Raise e
    | BrPageError e => Ok None
    | BrCookies cookies =>
        Ok (let waf_cookies := fold_left keep_waf_cookie cookies [] in
            if dict_nonempty waf_cookies then Some waf_cookies else None)
    end.
Proof.
  destruct session as [e|e|cookies].
  - exists {| Browser.does := fun _ c => match c with
                                         | Browser.Launch => Raise e
                                         | _ => Ok tt
                                         end;
              Browser.finds := fun _ _ => Ok false;
              Browser.url_is := fun _ => Ok EmptyString;
              Browser.cookies_are := fun _ => Ok [];
              Browser.evaluates := fun _ _ => Ok JNull |}.
    reflexivity.
  - exists {| Browser.does := fun _ c => match c with
                                         | Browser.Goto _ _ => Raise e
                                         | _ => Ok tt
                                         end;
              Browser.finds := fun _ _ => Ok false;
              Browser.url_is := fun _ => Ok EmptyString;
              Browser.cookies_are := fun _ => Ok [];
              Browser.evaluates := fun _ _ => Ok JNull |}.
    reflexivity.
  - exists {| Browser.does := fun _ _ => Ok tt;
              Browser.finds := fun _ _ => Ok false;
              Browser.url_is := fun _ => Ok EmptyString;
              Browser.cookies_are := fun _ => Ok cookies;
              Browser.evaluates := fun _ _ => Ok JNull |}.
    reflexivity.
Qed.

(** X18.  The browser session, call by call, is the browser session of the
    check-in.  Whatever the browser answers to the calls of
    [_get_waf_cookies] (launch, new page, navigation, the wait for the page
    and the pause when that wait fails, reading the cookies, closing the
    context, and closing it again in the handler), the function does one of
    three things: it raises, it returns [None], or it returns the WAF
    cookies among the cookies the browser reported, [None] when there is
    none.  These are the three answers of a browser session that the
    check-in is verified against, and each of them is the outcome of some
    browser. *)
Theorem browser_session_covered (account_name url : string) (timeout : Z) :
  (forall page h,
   exists session,
     forall env name s,
       env_browse env (browses (world s)) = session ->
       fst (_get_waf_cookies env name url timeout s) =
       fst (Browser._get_waf_cookies page account_name url timeout h)) /\
  (forall session,
   exists page,
     forall env name s,
       env_browse env (browses (world s)) = session ->
       fst (_get_waf_cookies env name url timeout s) =
       fst (Browser._get_waf_cookies page account_name url timeout [])).
Proof.
  split.
  - intros page h.
    assert (Hcoarse : forall session env name s,
              env_browse env (browses (world s)) = session ->
              fst (_get_waf_cookies env name url timeout s) =
              match session with
              | BrLaunchError e => Raise e
              | BrPageError e => Ok None
              | BrCookies cookies =>
                  Ok (let waf_cookies := fold_left keep_waf_cookie cookies [] in
                      if dict_nonempty waf_cookies then Some waf_cookies
                      else None)
              end).
    { intros session env name s Hsession.
      unfold _get_waf_cookies, browse. unfold_m. cbn [fst snd].
      rewrite Hsession. destruct session; reflexivity. }
    unfold Browser._get_waf_cookies, Browser.call, Browser.context_cookies.
    unfold_b. split_calls page; cbn [fst snd];
      first
        [ match goal with
          | |- context [Raise ?e] =>
              exists (BrLaunchError e); intros env name s Hs;
              rewrite (Hcoarse _ env name s Hs); reflexivity
          end
        | exists (BrPageError (Exn EmptyString None)); intros env name s Hs;
          rewrite (Hcoarse _ env name s Hs); reflexivity
        | match goal with
          | |- context [fold_left keep_waf_cookie ?cookies []] =>
              exists (BrCookies cookies); intros env name s Hs;
              rewrite (Hcoarse _ env name s Hs); reflexivity
          end ].
  - intros session.
    destruct (page_for_session session account_name url timeout)
      as [page Hpage].
    exists page. intros env name s Hsession. rewrite Hpage.
    unfold _get_waf_cookies, browse. unfold_m. cbn [fst snd].
    rewrite Hsession. destruct session; reflexivity.
Qed.

(** *** What the login returns *)

Lemma gives_ret {A : Type} (P : A -> Prop) (a : A) :
  P a -> gives P (Browser.ret a).
Proof. intros H h a' Ha. injection Ha as <-. exact H. Qed.

Lemma gives_bind {A C : Type} (P : C -> Prop) (m : Browser.B A)
  (k : A -> Browser.B C) :
  (forall a, gives P (k a)) -> gives P (Browser.bind m k).
Proof.
  intros Hk h c. unfold Browser.bind. destruct (m h) as [[a|e] h'].
  - apply Hk.
  - discriminate.
Qed.

Lemma gives_bind_with {A C : Type} (Q : A -> Prop) (P : C -> Prop)
  (m : Browser.B A) (k : A -> Browser.B C) :
  gives Q m -> (forall a, Q a -> gives P (k a)) ->
  gives P (Browser.bind m k).
Proof.
  intros Hm Hk h c. unfold Browser.bind. specialize (Hm h).
  destruct (m h) as [[a|e] h']; cbn [fst] in *.
  - apply Hk. apply Hm. reflexivity.
  - discriminate.
Qed.

Lemma gives_try_except {A : Type} (P : A -> Prop) (m : Browser.B A)
  (handler : exn -> Browser.B A) :
  gives P m -> (forall e, gives P (handler e)) ->
  gives P (Browser.try_except m handler).
Proof.
  intros Hm Hh h a. unfold Browser.try_except. specialize (Hm h).
  destruct (m h) as [[a'|e] h']; cbn [fst] in *.
  - exact (Hm a).
  - apply Hh.
Qed.

Lemma gives_and_then {R A C : Type} (P : R + C -> Prop)
  (m : Browser.B (R + A)) (k : A -> Browser.B (R + C)) :
  gives (fun x => match x with inl r => P (inl r) | inr _ => True end) m ->
  (forall a, gives P (k a)) ->
  gives P (Browser.and_then m k).
Proof.
  intros Hm Hk. unfold Browser.and_then.
  eapply gives_bind_with; [exact Hm|].
  intros [r|a] H; [apply gives_ret; exact H|apply Hk].
Qed.

Ltac gives_tac :=
  repeat first
    [ apply gives_ret; first [reflexivity|exact I]
    | apply gives_bind; intros ?
    | apply gives_try_except; [|intros ?]
    | match goal with
      | |- gives _ (if ?b then _ else _) => destruct b
      end ].

Lemma fill_form_gives (page : Browser.Page) (email password : string) :
  gives ends_with_none (Browser.fill_form page email password).
Proof. unfold Browser.fill_form. gives_tac. Qed.

Lemma submit_form_gives (page : Browser.Page) :
  gives ends_with_none (Browser.submit_form page).
Proof. unfold Browser.submit_form. gives_tac. Qed.

Lemma wait_for_console_gives (page : Browser.Page) :
  gives ends_with_none (Browser.wait_for_console page).
Proof. unfold Browser.wait_for_console. gives_tac. Qed.

Lemma dict_set_fresh {V : Type} (k : string) (v : V) (d : dict V) :
  ~ In k (dict_keys d) -> dict_set k v d = (d ++ [(k, v)])%list.
Proof.
  unfold dict_keys. induction d as [|[k' v'] rest IH]; simpl; intros Hk.
  - reflexivity.
  - destruct (String.eqb_spec k k') as [->|Hne].
    + exfalso. apply Hk. left. reflexivity.
    + rewrite IH; [reflexivity|]. intros H. apply Hk. right. exact H.
Qed.

Lemma dict_merge_fresh {V : Type} (d2 : dict V) :
  forall d1 : dict V,
  List.NoDup (dict_keys d2) ->
  (forall k, In k (dict_keys d2) -> ~ In k (dict_keys d1)) ->
  dict_merge d1 d2 = (d1 ++ d2)%list.
Proof.
  unfold dict_merge, dict_keys.
  induction d2 as [|[k v] rest IH]; intros d1 Hnd Hfresh; cbn [fold_left].
  - rewrite app_nil_r. reflexivity.
  - cbn [map fst] in Hnd. inversion Hnd as [|? ? Hnotin Hrest]; subst.
    cbn [fst snd]. rewrite dict_set_fresh by (apply Hfresh; left; reflexivity).
    rewrite IH; [rewrite <- app_assoc; reflexivity|exact Hrest|].
    intros k' Hk' Hin. rewrite map_app in Hin. apply in_app_or in Hin.
    destruct Hin as [Hin|[<-|[]]].
    + apply (Hfresh k'); [right; exact Hk'|exact Hin].
    + contradiction.
Qed.

Lemma scan_cookie_fold (all : list BrowserCookie) :
  forall (cookies : list BrowserCookie)
         (found : option string * dict (option string)),
  incl cookies all ->
  (forall value, fst found = Some value ->
     In {| cookie_name := Some "session"; cookie_value := Some value |} all) ->
  List.NoDup (dict_keys (snd found)) ->
  (forall name v, In (name, v) (snd found) ->
     In name WAF_COOKIE_NAMES /\
     In {| cookie_name := Some name; cookie_value := v |} all) ->
  let final := fold_left Browser.scan_cookie cookies found in
  (forall value, fst final = Some value ->
     In {| cookie_name := Some "session"; cookie_value := Some value |} all) /\
  List.NoDup (dict_keys (snd final)) /\
  (forall name v, In (name, v) (snd final) ->
     In name WAF_COOKIE_NAMES /\
     In {| cookie_name := Some name; cookie_value := v |} all).
Proof.
  induction cookies as [|cookie rest IH]; intros found Hincl Hs Hnd Hwaf;
    cbn [fold_left]; cbv zeta.
  - split; [exact Hs|split; [exact Hnd|exact Hwaf]].
  - assert (Hcookie : In cookie all) by (apply Hincl; left; reflexivity).
    assert (Hrest : incl rest all)
      by (intros x Hx; apply Hincl; right; exact Hx).
    apply IH; [exact Hrest| | |]; unfold Browser.scan_cookie;
      destruct cookie as [[name|] value]; cbn [cookie_name cookie_value];
      try assumption;
      destruct (String.eqb_spec name "session") as [->|Hne];
      cbn [fst snd]; try assumption.
    + intros v ->. exact Hcookie.
    + destruct (existsb _ _); assumption.
    + destruct (existsb _ _); cbn [snd];
        [apply dict_set_nodup|]; assumption.
    + destruct (existsb (String.eqb name) WAF_COOKIE_NAMES) eqn:Hlisted;
        cbn [snd]; [|assumption].
      intros n v Hin. destruct (dict_set_in _ _ _ _ _ Hin) as [Heq|Hold];
        [|apply Hwaf; exact Hold].
      injection Heq as -> ->. split; [|exact Hcookie].
      apply existsb_exists in Hlisted. destruct Hlisted as (x & Hx & Heq).
      apply String.eqb_eq in Heq. subst x. exact Hx.
Qed.

Lemma fetch_user_id_gives (rt : PyRuntime) (page : Browser.Page) :
  gives (fun api_user =>
           user_id_from_page page (or_default api_user EmptyString))
        (Browser.fetch_user_id rt page).
Proof.
  intros h api_user. unfold Browser.fetch_user_id, Browser.evaluate.
  unfold_b. cbn [fst snd].
  assert (Hnone : Ok (@None string) = Ok api_user ->
                  user_id_from_page page (or_default api_user EmptyString)).
  { intros H. injection H as <-. intros Hne. contradiction. }
  destruct (Browser.evaluates page h Browser.FETCH_SELF) as [value|e]
    eqn:Hvalue; [|exact Hnone].
  destruct value as [| |z|f|t|l|fields];
    try (destruct (Py.truthy _); exact Hnone).
  cbn [Py.truthy Py.get Py.get_default].
  destruct (dict_nonempty fields); [|exact Hnone].
  destruct (Py.truthy match dict_get "success" fields with
                      | Some x => x
                      | None => JNull
                      end) eqn:Hsuccess; [|exact Hnone].
  destruct (Py.get_default _ "id" (JStr EmptyString)) as [id|e];
    [|exact Hnone].
  cbn [fst]. intros H. injection H as <-. intros _.
  exists h, fields. split; [exact Hvalue|exact Hsuccess].
Qed.

Lemma collect_session_gives (rt : PyRuntime) (page : Browser.Page) :
  gives (fun x =>
           forall session,
             match x with inl r => r | inr r => r end = Some session ->
             session_made_of page session /\
             user_id_from_page page (Browser.session_api_user session))
        (Browser.collect_session rt page).
Proof.
  unfold Browser.collect_session.
  apply gives_bind_with
    with (Q := fun cookies => exists h, Browser.cookies_are page h = Ok cookies).
  { intros h cookies H. exists h. exact H. }
  intros cookies [h Hcookies]. cbv zeta.
  destruct (scan_cookie_fold cookies cookies (None, []) (incl_refl _))
    as (Hsession & Hnd & Hwaf);
    [discriminate|constructor|intros ? ? []|].
  destruct (fold_left Browser.scan_cookie cookies (None, []))
    as [session_cookie waf_cookies]. cbn [fst snd] in *.
  destruct session_cookie as [value|]; cbn [Browser.session_truthy negb];
    [|apply gives_bind; intros _; apply gives_ret; discriminate].
  destruct (String.eqb_spec value EmptyString) as [->|Hvalue]; cbn [negb];
    [apply gives_bind; intros _; apply gives_ret; discriminate|].
  eapply gives_bind_with; [apply fetch_user_id_gives|].
  intros api_user Huser. apply gives_bind. intros _. apply gives_ret.
  intros session H. injection H as <-. cbn [Browser.session_api_user].
  split; [|exact Huser].
  exists h, cookies, value, waf_cookies.
  split; [exact Hcookies|]. split; [apply Hsession; reflexivity|].
  split; [exact Hvalue|]. split; [|split; [exact Hnd|exact Hwaf]].
  cbn [Browser.session_cookies].
  apply (dict_merge_fresh waf_cookies [("session", Some value)] Hnd).
  intros k Hk [<-|[]]. unfold dict_keys in Hk. apply in_map_iff in Hk.
  destruct Hk as ([n v] & Hn & Hin). cbn [fst] in Hn. subst n.
  destruct (Hwaf _ _ Hin) as [Hlisted _]. simpl in Hlisted.
  destruct Hlisted as [H|[H|[H|[]]]]; discriminate H.
Qed.

Lemma login_gives_session (rt : PyRuntime) (page : Browser.Page)
  (email password : string) :
  gives (fun answer =>
           forall session, answer = Some session ->
             session_made_of page session /\
             user_id_from_page page (Browser.session_api_user session))
        (Browser._login_agentrouter rt page email password).
Proof.
  unfold Browser._login_agentrouter.
  apply gives_try_except; [|intros e; apply gives_ret; discriminate].
  apply gives_bind. intros _. apply gives_bind. intros _.
  apply gives_bind. intros login_success.
  destruct login_success; cbn [negb];
    [|apply gives_bind; intros _; apply gives_ret; discriminate].
  unfold Browser.returned.
  eapply gives_bind_with
    with (Q := fun x => forall session,
                 match x with inl r => r | inr r => r end = Some session ->
                 session_made_of page session /\
                 user_id_from_page page (Browser.session_api_user session)).
  - apply gives_and_then.
    { intros h0 [r|[]] H0; [|exact I].
      pose proof (fill_form_gives page email password h0 _ H0) as Hn.
      cbn [ends_with_none] in Hn. subst r. discriminate. }
    intros _. apply gives_and_then.
    { intros h0 [r|[]] H0; [|exact I].
      pose proof (submit_form_gives page h0 _ H0) as Hn.
      cbn [ends_with_none] in Hn. subst r. discriminate. }
    intros _. apply gives_and_then.
    { intros h0 [r|[]] H0; [|exact I].
      pose proof (wait_for_console_gives page h0 _ H0) as Hn.
      cbn [ends_with_none] in Hn. subst r. discriminate. }
    intros _. apply collect_session_gives.
  - intros x Hx. apply gives_ret. exact Hx.
Qed.

(** X19.  What the login returns.  [_login_agentrouter] never raises.  A
    session it returns holds a cookie [session] whose value is not empty,
    in the first place, and after it WAF cookies only, each name once; all
    of them are cookies the browser reported after the login.  Its user id
    is empty unless the script evaluated in the page gave an object whose
    [success] is true. *)
Theorem login_session_shape (rt : PyRuntime) (page : Browser.Page)
  (email password : string) (h : list Browser.Call) :
  (exists answer,
     fst (Browser._login_agentrouter rt page email password h) = Ok answer) /\
  (forall session,
     fst (Browser._login_agentrouter rt page email password h)
       = Ok (Some session) ->
     session_made_of page session /\
     user_id_from_page page (Browser.session_api_user session)).
Proof.
  split.
  - destruct (login_closes rt page email password h false eq_refl)
      as (added & closed & _ & _ & answer & Hanswer & _).
    exists answer. exact Hanswer.
  - intros session Hrun.
    exact (login_gives_session rt page email password h _ Hrun session
             eq_refl).
Qed.

(** X20.  The login, call by call, is the login of the check-in.  When
    every cookie the browser reports has a value, as the cookies of
    Playwright have, a session that [_login_agentrouter] returns is a
    mapping from names to texts with a text as user id: the answer of a
    login that [checkin_agentrouter] is verified against.  Its session
    cookie is not empty. *)
Theorem login_session_is_login_result (rt : PyRuntime) (page : Browser.Page)
  (email password : string) (h : list Browser.Call)
  (session : Browser.Session) :
  (forall h' cookies cookie,
     Browser.cookies_are page h' = Ok cookies -> In cookie cookies ->
     cookie_value cookie <> None) ->
  fst (Browser._login_agentrouter rt page email password h)
    = Ok (Some session) ->
  exists l : LoginResult,
    Browser.session_cookies session =
      map (fun kv => (fst kv, Some (snd kv))) (login_cookies l) /\
    Browser.session_api_user session = login_api_user l /\
    exists value,
      dict_get "session" (login_cookies l) = Some value /\
      value <> EmptyString.
Proof.
  intros Hvalues Hrun.
  destruct (login_gives_session rt page email password h _ Hrun session
              eq_refl)
    as [(h' & cookies & value & waf & Hcookies & _ & Hvalue & Hshape & _
         & Hwaf) _].
  exists {| login_cookies :=
              ("session", value)
              :: map (fun kv => (fst kv, or_default (snd kv) EmptyString)) waf;
            login_api_user := Browser.session_api_user session |}.
  cbn [login_cookies login_api_user]. split; [|split; [reflexivity|]].
  - rewrite Hshape. cbn [map fst snd]. f_equal.
    rewrite List.map_map. cbn [fst snd].
    rewrite <- (map_id waf) at 1. apply map_ext_in.
    intros [name v] Hin. destruct (Hwaf name v Hin) as [_ Hreported].
    specialize (Hvalues h' cookies _ Hcookies Hreported).
    cbn [cookie_value] in Hvalues. destruct v; [reflexivity|contradiction].
  - exists value. split; [reflexivity|exact Hvalue].
Qed.

(** *** The order of the login form *)

Section Form.

Variable rt : PyRuntime.
Variable page : Browser.Page.
Variables email password : string.

Lemma form_stays_ret (stage : Progress) {A : Type} (a : A) :
  moves (form_monitor page email password) (at_stage stage)
    (Browser.ret a) (stays_at stage).
Proof. apply moves_ret. intros st H. exact H. Qed.

Lemma form_stays_bind (stage : Progress) {A C : Type} (m : Browser.B A)
  (k : A -> Browser.B C) :
  moves (form_monitor page email password) (at_stage stage) m
    (stays_at stage) ->
  (forall a, moves (form_monitor page email password) (at_stage stage) (k a)
               (stays_at stage)) ->
  moves (form_monitor page email password) (at_stage stage)
    (Browser.bind m k) (stays_at stage).
Proof.
  intros Hm Hk. eapply moves_bind; [exact Hm|exact Hk|].
  intros e st H. exact H.
Qed.

Lemma form_stays_try_except (stage : Progress) {A : Type} (m : Browser.B A)
  (handler : exn -> Browser.B A) :
  moves (form_monitor page email password) (at_stage stage) m
    (stays_at stage) ->
  (forall e, moves (form_monitor page email password) (at_stage stage)
               (handler e) (stays_at stage)) ->
  moves (form_monitor page email password) (at_stage stage)
    (Browser.try_except m handler) (stays_at stage).
Proof.
  intros Hm Hh. eapply moves_try_except; [exact Hm| |exact Hh].
  intros a st H. exact H.
Qed.

Lemma form_stays_single (stage : Progress) {A : Type}
  (answer : list Browser.Call -> result A) (c : Browser.Call) :
  (forall h, form_monitor page email password h stage c = Some stage) ->
  moves (form_monitor page email password) (at_stage stage)
    (fun h => (answer h, (h ++ [c])%list)) (stays_at stage).
Proof.
  intros Hc. apply moves_single. intros h st ->. exists stage.
  split; [apply Hc|reflexivity].
Qed.

Lemma form_stays_call (stage : Progress) (c : Browser.Call) :
  (forall h, form_monitor page email password h stage c = Some stage) ->
  moves (form_monitor page email password) (at_stage stage)
    (Browser.call page c) (stays_at stage).
Proof. apply form_stays_single. Qed.

Ltac form_stays :=
  repeat first
    [ apply form_stays_ret
    | apply form_stays_call; intros ?; reflexivity
    | apply form_stays_single; intros ?; reflexivity
    | apply form_stays_bind; [|intros ?]
    | apply form_stays_try_except; [|intros ?]
    | apply moves_lift; intros ? H; exact H
    | match goal with
      | |- moves _ _ (if ?b then _ else _) _ => destruct b
      | |- moves _ _ (match ?x with _ => _ end) _ => destruct x
      end ].

(** From a form at [stage], after [m], which leaves it there, comes
    [k]. *)
Lemma form_then (stage : Progress) {A C : Type} (m : Browser.B A)
  (k : A -> Browser.B C) (post : result C -> Progress -> Prop) :
  moves (form_monitor page email password) (at_stage stage) m
    (stays_at stage) ->
  (forall a, moves (form_monitor page email password) (at_stage stage) (k a)
               post) ->
  (forall e, post (Raise e) stage) ->
  moves (form_monitor page email password) (at_stage stage)
    (Browser.bind m k) post.
Proof.
  intros Hm Hk Hraise. eapply moves_bind; [exact Hm|exact Hk|].
  intros e st ->. apply Hraise.
Qed.

(** [await context.close()] and a return are accepted at every stage. *)
Lemma form_close_and_return {A : Type} (pre : Progress -> Prop) (a : A)
  (post : result A -> Progress -> Prop) :
  (forall r p, post r p) ->
  moves (form_monitor page email password) pre
    (Browser.bind (Browser.call page Browser.Close) (fun _ => Browser.ret a))
    post.
Proof.
  intros Hpost h st _. exists [Browser.Close], st.
  unfold Browser.bind, Browser.call, Browser.ret.
  destruct (Browser.does page h Browser.Close) as [[]|e];
    cbn [fst snd observe form_monitor]; repeat split; apply Hpost.
Qed.

Lemma form_close_and_end {R A : Type} (pre : Progress -> Prop)
  (stage : Progress) (r : R) :
  moves (form_monitor page email password) pre
    (Browser.bind (Browser.call page Browser.Close)
                  (fun _ => Browser.ret (@inl R A r)))
    (reaches stage).
Proof.
  intros h st _. exists [Browser.Close], st.
  unfold Browser.bind, Browser.call, Browser.ret.
  destruct (Browser.does page h Browser.Close) as [[]|e];
    cbn [fst snd observe form_monitor]; repeat split.
Qed.

Lemma find_login_page_order (urls : list string) :
  moves (form_monitor page email password) (at_stage Searching)
    (Browser.find_login_page page urls) (tried Searching AtForm).
Proof.
  induction urls as [|url rest IH]; cbn [Browser.find_login_page].
  - apply moves_ret. intros st H. exact H.
  - apply moves_bind with (mid := tried Searching AtForm).
    + apply moves_try_except
        with (mid := fun r p => match r with
                                | Ok true => p = AtForm
                                | _ => p = Searching
                                end).
      * apply (form_then Searching);
          [apply form_stays_call; intros ?; reflexivity|
          |intros ?; reflexivity].
        intros _.
        apply (form_then Searching);
          [apply form_stays_call; intros ?; reflexivity|
          |intros ?; reflexivity].
        intros _. unfold Browser.query_selector.
        apply moves_single. intros h st ->. cbn [form_monitor].
        eexists. split; [reflexivity|].
        destruct (Browser.finds page h Browser.EMAIL_INPUT) as [[|]|e];
          reflexivity.
      * intros [|] st H; exact H.
      * intros e. apply moves_ret. intros st H. exact H.
    + intros found. destruct found.
      * apply moves_ret. intros st H. exact H.
      * exact IH.
    + intros e st [].
Qed.

Lemma first_success_tried (attempt : string -> Browser.Call)
  (before after : Progress) (selectors : list string) :
  (forall selector h, In selector selectors ->
     form_monitor page email password h before (attempt selector) =
     Some (if is_ok (Browser.does page h (attempt selector))
           then after else before)) ->
  moves (form_monitor page email password) (at_stage before)
    (Browser.first_success page attempt selectors) (tried before after).
Proof.
  induction selectors as [|selector rest IH]; intros Hstep;
    cbn [Browser.first_success].
  - apply moves_ret. intros st H. exact H.
  - apply moves_bind with (mid := tried before after).
    + intros h st ->. exists [attempt selector].
      unfold Browser.try_except, Browser.bind, Browser.call, Browser.ret.
      cbn [observe]. rewrite (Hstep selector h (or_introl eq_refl)).
      destruct (Browser.does page h (attempt selector)) as [[]|e];
        cbn [is_ok fst snd]; eexists; repeat split.
    + intros done. destruct done.
      * apply moves_ret. intros st H. exact H.
      * apply IH. intros s h Hs. apply Hstep. right. exact Hs.
    + intros e st [].
Qed.

Lemma fill_form_order :
  moves (form_monitor page email password) (at_stage AtForm)
    (Browser.fill_form page email password) (reaches PasswordIn).
Proof.
  unfold Browser.fill_form.
  apply moves_try_except with (mid := reaches PasswordIn).
  - apply moves_bind with (mid := tried AtForm EmailIn).
    + apply first_success_tried. intros selector h Hin.
      cbn [form_monitor]. simpl in Hin.
      repeat (destruct Hin as [<-|Hin];
              [rewrite String.eqb_refl; reflexivity|]).
      contradiction.
    + intros email_filled. destruct email_filled; cbn [negb];
        [|apply form_close_and_end].
      apply moves_bind with (mid := tried EmailIn PasswordIn).
      * apply first_success_tried. intros selector h Hin.
        cbn [form_monitor]. simpl in Hin.
        repeat (destruct Hin as [<-|Hin];
                [rewrite String.eqb_refl; reflexivity|]).
        contradiction.
      * intros password_filled. destruct password_filled; cbn [negb];
          [|apply form_close_and_end].
        apply (form_then PasswordIn);
          [apply form_stays_call; intros ?; reflexivity| |intros e; exact I].
        intros _. apply moves_ret. intros st H. exact H.
      * intros e st [].
    + intros e st [].
  - intros a st H. exact H.
  - intros e. apply form_close_and_end.
Qed.

Lemma submit_form_order :
  moves (form_monitor page email password) (at_stage PasswordIn)
    (Browser.submit_form page) (reaches Submitted).
Proof.
  unfold Browser.submit_form.
  apply moves_try_except with (mid := reaches Submitted).
  - apply moves_bind with (mid := tried PasswordIn Submitted).
    + apply first_success_tried. intros selector h Hin. reflexivity.
    + intros clicked. destruct clicked; cbn [negb];
        [|apply form_close_and_end].
      apply moves_ret. intros st H. exact H.
    + intros e st [].
  - intros a st H. exact H.
  - intros e. apply form_close_and_end.
Qed.

Lemma wait_for_console_order :
  moves (form_monitor page email password) (at_stage Submitted)
    (Browser.wait_for_console page) (reaches Submitted).
Proof.
  unfold Browser.wait_for_console.
  apply moves_try_except with (mid := stays_at Submitted).
  - form_stays.
  - intros [r|a] st H; [exact I|exact H].
  - intros e.
    apply (form_then Submitted);
      [apply form_stays_call; intros ?; reflexivity| |intros ?; exact I].
    intros _.
    apply (form_then Submitted);
      [apply form_stays_single; intros ?; reflexivity| |intros ?; exact I].
    intros current_url.
    destruct (PyStr.contains "/login" current_url
              || PyStr.contains "#/login" current_url).
    + apply (form_then Submitted); [form_stays| |intros ?; exact I].
      intros _. apply form_close_and_end.
    + apply moves_ret. intros st H. exact H.
Qed.

Lemma fetch_user_id_order :
  moves (form_monitor page email password) (at_stage Submitted)
    (Browser.fetch_user_id rt page) (stays_at Submitted).
Proof.
  unfold Browser.fetch_user_id, Browser.evaluate.
  apply form_stays_try_except; [|intros e; apply form_stays_ret].
  apply form_stays_bind;
    [apply form_stays_single; intros ?; reflexivity|].
  intros value. form_stays.
Qed.

Lemma collect_session_order :
  moves (form_monitor page email password) (at_stage Submitted)
    (Browser.collect_session rt page) (stays_at Submitted).
Proof.
  unfold Browser.collect_session, Browser.context_cookies.
  apply form_stays_bind;
    [apply form_stays_single; intros ?; reflexivity|].
  intros cookies. cbv zeta. destruct (negb _); [form_stays|].
  apply form_stays_bind; [apply fetch_user_id_order|].
  intros api_user. form_stays.
Qed.

Lemma login_order :
  moves (form_monitor page email password) (at_stage Searching)
    (Browser._login_agentrouter rt page email password)
    (fun _ _ => True).
Proof.
  unfold Browser._login_agentrouter.
  apply moves_try_except with (mid := fun _ _ => True);
    [|intros; exact I|intros e; apply moves_ret; intros; exact I].
  apply (form_then Searching);
    [apply form_stays_call; intros ?; reflexivity| |intros ?; exact I].
  intros _.
  apply (form_then Searching);
    [apply form_stays_call; intros ?; reflexivity| |intros ?; exact I].
  intros _.
  apply moves_bind with (mid := tried Searching AtForm);
    [apply find_login_page_order| |intros; exact I].
  intros login_success. destruct login_success; cbn [negb];
    [|apply form_close_and_return; intros; exact I].
  unfold Browser.returned.
  apply moves_bind with (mid := fun _ _ => True);
    [|intros x; apply moves_ret; intros; exact I|intros; exact I].
  apply moves_and_then with (mid := reaches PasswordIn);
    [apply fill_form_order|intros; exact I| |intros; exact I].
  intros ?.
  apply moves_and_then with (mid := reaches Submitted);
    [apply submit_form_order|intros; exact I| |intros; exact I].
  intros ?.
  apply moves_and_then with (mid := reaches Submitted);
    [apply wait_for_console_order|intros; exact I| |intros; exact I].
  intros ?.
  eapply moves_weaken; [apply collect_session_order|auto|intros; exact I].
Qed.

End Form.

Lemma form_monitor_fills (page : Browser.Page) (email password : string)
  (added : list Browser.Call) :
  forall h p p',
  observe (form_monitor page email password) h p added = Some p' ->
  forall selector value timeout,
    In (Browser.Fill selector value timeout) added ->
    (In selector Browser.EMAIL_SELECTORS /\ value = email) \/
    (In selector Browser.PASSWORD_SELECTORS /\ value = password).
Proof.
  induction added as [|c rest IH]; intros h p p' Hobs selector value timeout
    Hin; [destruct Hin|].
  cbn [observe] in Hobs.
  destruct (form_monitor page email password h p c) as [p1|] eqn:Hstep;
    [|discriminate].
  destruct Hin as [->|Hin]; [|exact (IH _ _ _ Hobs _ _ _ Hin)].
  cbn [form_monitor] in Hstep.
  destruct (existsb (String.eqb selector) Browser.EMAIL_SELECTORS) eqn:He.
  - left. apply existsb_exists in He. destruct He as (x & Hx & Heq).
    apply String.eqb_eq in Heq. subst x. split; [exact Hx|].
    destruct p; try discriminate.
    destruct (String.eqb_spec value email); [assumption|discriminate].
  - destruct (existsb (String.eqb selector) Browser.PASSWORD_SELECTORS)
      eqn:Hp; [|discriminate].
    right. apply existsb_exists in Hp. destruct Hp as (x & Hx & Heq).
    apply String.eqb_eq in Heq. subst x. split; [exact Hx|].
    destruct p; try discriminate.
    destruct (String.eqb_spec value password); [assumption|discriminate].
Qed.

(** X21.  The login form is filled in order.  The calls of
    [_login_agentrouter] are accepted by [form_monitor]: the script
    navigates and looks for the form only until a page shows it; nothing is
    typed before that; then the e-mail address is filled into fields of the
    e-mail selectors until one fill goes through and never again; after
    that, and not before, the password is filled into fields of the
    password selectors until one fill goes through and never again; after
    that, and not before, the button is clicked until one click goes
    through and never again; and only after that the script waits for the
    console, reads the cookies and evaluates the script that asks for the
    user id.  In particular whatever is typed is the e-mail address into an
    e-mail field or the password into a password field. *)
Theorem login_form_in_order (rt : PyRuntime) (page : Browser.Page)
  (email password : string) (h : list Browser.Call) :
  exists added stage,
    snd (Browser._login_agentrouter rt page email password h)
      = (h ++ added)%list /\
    observe (form_monitor page email password) h Searching added
      = Some stage /\
    forall selector value timeout,
      In (Browser.Fill selector value timeout) added ->
      (In selector Browser.EMAIL_SELECTORS /\ value = email) \/
      (In selector Browser.PASSWORD_SELECTORS /\ value = password).
Proof.
  destruct (login_order rt page email password h Searching eq_refl)
    as (added & stage & Hrun & Hobs & _).
  exists added, stage. split; [exact Hrun|]. split; [exact Hobs|].
  exact (form_monitor_fills page email password added h Searching stage Hobs).
Qed.

(** *** The loops over selectors *)

(** X22.  A loop over selectors tries them in the order of the list and
    stops at the first one for which the call goes through.  The calls it
    makes are the attempts for a first part of the list.  When it reports
    success, the last of these attempts went through and all before it
    raised; when it reports failure, every selector of the list was tried
    and raised.  It never raises.  The loops that fill the e-mail address,
    fill the password and click the button are of this kind. *)
Theorem selectors_tried_in_order (page : Browser.Page)
  (attempt : string -> Browser.Call) (selectors : list string)
  (h : list Browser.Call) :
  exists found tried rest,
    Browser.first_success page attempt selectors h =
      (Ok found, (h ++ map attempt tried)%list) /\
    selectors = (tried ++ rest)%list /\
    (forall before selector after,
       tried = (before ++ selector :: after)%list ->
       is_ok (Browser.does page (h ++ map attempt before)%list
                (attempt selector)) =
       match after with
       | [] => found
       | _ => false
       end) /\
    (found = true -> tried <> []) /\
    (found = false -> rest = []).
Proof.
  revert h. induction selectors as [|selector more IH]; intros h.
  - exists false, [], []. cbn [Browser.first_success Browser.ret map].
    rewrite app_nil_r. split; [reflexivity|]. split; [reflexivity|].
    split; [intros [|? ?] ? ? H; discriminate H|].
    split; [discriminate|reflexivity].
  - cbn [Browser.first_success].
    unfold Browser.bind, Browser.try_except, Browser.call, Browser.ret.
    destruct (Browser.does page h (attempt selector)) as [[]|e] eqn:Hcall.
    + exists true, [selector], more. split; [reflexivity|].
      split; [reflexivity|]. split; [|split; [discriminate|discriminate]].
      intros before s after H. destruct before as [|b before].
      * cbn [app] in H. injection H as <- <-. cbn [map].
        rewrite app_nil_r, Hcall. reflexivity.
      * cbn [app] in H. injection H as _ H. destruct before; discriminate H.
    + destruct (IH (h ++ [attempt selector])%list)
        as (found & tried & rest & Hrun & Hsplit & Hattempts & Hfound & Hrest).
      exists found, (selector :: tried), rest.
      split; [rewrite Hrun; cbn [map]; rewrite <- app_assoc; reflexivity|].
      split; [rewrite Hsplit; reflexivity|].
      split; [|split; [discriminate|exact Hrest]].
      intros before s after H. destruct before as [|b before].
      * cbn [app] in H. injection H as <- <-. cbn [map].
        rewrite app_nil_r, Hcall. cbn [is_ok].
        destruct tried; [|reflexivity].
        destruct found; [|reflexivity].
        exfalso. apply Hfound; reflexivity.
      * cbn [app] in H. injection H as <- H. cbn [map].
        specialize (Hattempts before s after H).
        rewrite <- app_assoc in Hattempts. exact Hattempts.
Qed.

(** * Further examples *)

(** The session cookie of the account replaces the one the page set, and
    the WAF cookie is kept. *)
Lemma merged_cookies_prefer_user_witness :
  let waf := [("acw_tc", "t1"); ("session", "old")] in
  let user := [("session", "s1")] in
  dict_get "session" (dict_merge waf user) = Some "s1" /\
  dict_get "acw_tc" (dict_merge waf user) = Some "t1".
Proof.
  cbv zeta.
  assert (Hnd : List.NoDup (dict_keys [("session", "s1")]))
    by (repeat constructor; intros []; discriminate).
  split.
  - exact (merged_cookies_prefer_user [("acw_tc", "t1"); ("session", "old")]
             [("session", "s1")] "session" Hnd).
  - exact (merged_cookies_prefer_user [("acw_tc", "t1"); ("session", "old")]
             [("session", "s1")] "acw_tc" Hnd).
Defined.

(** The page of the examples sets a WAF cookie and a theme cookie: one
    cookie is kept. *)
Lemma waf_cookies_whitelisted_witness :
  fst (_get_waf_cookies Cases.env_accepted "a" ANYROUTER_LOGIN_URL 30000
         Sample.start) = Ok (Some [("acw_tc", "t1")]) /\
  (length [("acw_tc", "t1")] <= 3)%nat /\
  forall name value, In (name, value) [("acw_tc", "t1")] ->
    In name WAF_COOKIE_NAMES /\ value <> EmptyString.
Proof.
  destruct (waf_cookies_whitelisted Cases.env_accepted "a" ANYROUTER_LOGIN_URL
              30000 Sample.start [("acw_tc", "t1")] eq_refl)
    as (_ & Hlen & _ & cookies & _ & Hall).
  split; [reflexivity|]. split; [exact Hlen|].
  intros name value Hin. destruct (Hall name value Hin) as (H1 & H2 & _).
  split; assumption.
Defined.

(** The GET timed out and the POST was accepted: a success, answered with
    200. *)
Lemma anyrouter_success_means_witness :
  fst (_do_anyrouter_checkin Sample.rt Sample.env_get_times_out "a" [] "42"
         Sample.start) = Ok (true, MSG_CHECKIN_OK, None) /\
  exists response,
    env_post Sample.env_get_times_out (posts (world Sample.start))
      = Ok response /\
    status_code response = 200%Z.
Proof.
  split; [reflexivity|].
  exact (proj2 (proj2 (anyrouter_success_means Sample.rt
                         Sample.env_get_times_out "a" [] "42" Sample.start
                         MSG_CHECKIN_OK None eq_refl))).
Defined.

(** The POST was answered with 404 and step 1 obtained a balance: the
    keep-alive. *)
Lemma agentrouter_success_means_witness :
  fst (_do_agentrouter_checkin Sample.rt Sample.env_404 "a" [] "42"
         Sample.start)
    = Ok (true, MSG_KEEPALIVE_OK, Some Sample.balance_10_2) /\
  Some Sample.balance_10_2 =
    step1_balance Sample.rt Sample.env_404 (gets (world Sample.start)).
Proof.
  split; [reflexivity|].
  exact (proj1 (agentrouter_success_means Sample.rt Sample.env_404 "a" []
                  "42" Sample.start MSG_KEEPALIVE_OK
                  (Some Sample.balance_10_2) eq_refl)).
Defined.

(** The GET of one run timed out, the GET of the other gave a balance; both
    POSTs were accepted. *)
Lemma anyrouter_verdict_ignores_step1_witness :
  exists success message balance1 balance2,
    fst (_do_anyrouter_checkin Sample.rt Sample.env_get_times_out "a" [] "42"
           Sample.start) = Ok (success, message, balance1) /\
    fst (_do_anyrouter_checkin Sample.rt Cases.env_accepted "a" [] "42"
           Sample.start) = Ok (success, message, balance2).
Proof.
  exact (anyrouter_verdict_ignores_step1 Sample.rt Sample.env_get_times_out
           Cases.env_accepted "a" "a" [] [] "42" "42" Sample.start
           Sample.start eq_refl).
Defined.

(** The page sets no WAF cookie: AnyRouter reports the failure, for
    AgentRouter the requests are sent with the session cookie alone. *)
Lemma without_waf_cookies_witness :
  let account := Sample.account "a" in
  fst (checkin_anyrouter Sample.rt Cases.env_no_waf account 0 Sample.start)
    = Ok {| o_platform := "AnyRouter"; o_name := "a"; o_success := false;
            o_message := MSG_NO_WAF; o_timestamp := "2024-01-01T00:00:00";
            o_balance := None |} /\
  exists rest,
    events_since Sample.start
      (snd (checkin_agentrouter Sample.rt Cases.env_no_waf account 0
              Sample.start)) =
    ([EvProcessing "AgentRouter" "a";
      EvBrowse "https://agentrouter.org" 20000;
      EvBrowse "https://agentrouter.org/console" 20000;
      EvClientOpen;
      EvGet AGENTROUTER_SELF_URL [("session", "s1")] "42";
      EvPost AGENTROUTER_SIGN_IN_URL [("session", "s1")] "42";
      EvClientClose] ++ rest)%list.
Proof.
  cbv zeta.
  destruct (without_waf_cookies Sample.rt Cases.env_no_waf (Sample.account "a")
              0 Sample.start "42" [("session", "s1")] eq_refl
              ltac:(discriminate) eq_refl ltac:(discriminate) eq_refl)
    as [(s1 & Hany & _) Hagent].
  split; [rewrite Hany; reflexivity|].
  destruct (Hagent (or_introl eq_refl) eq_refl)
    as (success & message & balance & s2 & Hrun & _ & Hevents).
  rewrite Hrun. cbn [snd]. rewrite Hevents. eexists. reflexivity.
Defined.

(** An account with a password: the login gives a session, and the requests
    carry its cookie and its user id. *)
Lemma agentrouter_login_mode_witness :
  exists rest,
    events_since Sample.start
      (snd (checkin_agentrouter Sample.rt Cases.env_login_ok
              Cases.account_with_password 0 Sample.start)) =
    ([EvProcessing "AgentRouter" "b"; EvLogin "b@example.org" "secret";
      EvClientOpen;
      EvGet AGENTROUTER_SELF_URL [("session", "s9")] "7";
      EvPost AGENTROUTER_SIGN_IN_URL [("session", "s9")] "7";
      EvClientClose] ++ rest)%list.
Proof.
  destruct (proj2 (agentrouter_login_mode Sample.rt Cases.env_login_ok
                     Cases.account_with_password 0 Sample.start
                     "b@example.org" "secret" eq_refl ltac:(discriminate)
                     eq_refl ltac:(discriminate))
              Cases.session eq_refl)
    as (success & message & balance & s' & Hrun & _ & Hevents).
  rewrite Hrun. cbn [snd]. rewrite Hevents. eexists. reflexivity.
Defined.

Lemma rt_hex_digest : hex_digest Cases.rt_hex.
Proof.
  intros text. cbn [sha256_hexdigest Cases.rt_hex]. unfold Cases.digest_hex.
  destruct (Nat.even (String.length text)); (split; [reflexivity|]);
    intros c Hc; simpl in Hc; simpl;
    repeat (destruct Hc as [<-|Hc]; [tauto|]); contradiction.
Qed.

(** The ledger of [Sample.second_run] is saved, and the next object starts
    from it. *)
Lemma saved_ledger_is_next_baseline_witness :
  let s' :=
    snd (_check_balance_change Cases.rt_hex Cases.env_accepted
           Sample.second_run) in
  last_balance_hash (new_object (world s')) =
    Some (_generate_balance_hash Cases.rt_hex
            [("anyrouter_a", Sample.balance_10_2)]) /\
  dict_get "anyrouter_a" (last_balance_data (new_object (world s'))) =
    Some (stored_of_balance Sample.balance_10_2).
Proof.
  cbv zeta.
  destruct (saved_ledger_is_next_baseline Cases.rt_hex Cases.env_accepted
              Sample.second_run rt_hex_digest ltac:(discriminate) eq_refl
              eq_refl) as (Hhash & Hdata & _).
  split; [exact Hhash|]. exact (Hdata "anyrouter_a").
Defined.

(** The quota is 10.0 as before and the used amount went from 2.0 to 3.0:
    the flag, which was true, is set to false. *)
Lemma used_amounts_do_not_flag_witness :
  balance_changed (self Cases.more_used) = true /\
  balance_changed
    (self (snd (_check_balance_change Sample.rt Cases.env_accepted
                  Cases.more_used))) = false.
Proof.
  split; [reflexivity|].
  apply (used_amounts_do_not_flag Sample.rt Cases.env_accepted Cases.more_used
           [("anyrouter_a", Sample.balance_10_2)]).
  - repeat constructor. intros [].
  - repeat constructor. intros [].
  - discriminate.
  - reflexivity.
  - intros key. simpl. destruct (String.eqb key "anyrouter_a"); reflexivity.
Defined.


(** An account without a user id is turned away by both platforms. *)
Lemma config_errors_reported_offline_witness :
  fst (checkin_anyrouter Sample.rt Cases.env_accepted
         Cases.account_without_user 0 Sample.start)
    = Ok {| o_platform := "AnyRouter"; o_name := "c"; o_success := false;
            o_message := MSG_NO_API_USER;
            o_timestamp := "2024-01-01T00:00:00"; o_balance := None |} /\
  events_since Sample.start
    (snd (checkin_agentrouter Sample.rt Cases.env_accepted
            Cases.account_without_user 0 Sample.start))
    = [EvProcessing "AgentRouter" "c"].
Proof.
  destruct (proj1 (config_errors_reported_offline Sample.rt Cases.env_accepted
                     Cases.account_without_user 0 Sample.start) eq_refl)
    as [(s1 & Hany & _) Hagent].
  split; [rewrite Hany; reflexivity|].
  destruct (Hagent (or_introl eq_refl)) as (s2 & Hrun & Hevents & _).
  rewrite Hrun. exact Hevents.
Defined.

(** Three results, one success, two of them with a balance: the totals are
    20.0 and 5.0. *)
Lemma platform_summary_counts_witness :
  summary_if_any "AnyRouter" Cases.three_results Sample.start =
  (Ok tt,
   after_event
     (EvSummary "AnyRouter" 3 1 2
        (Some (PyFloat.of_int 20, PyFloat.of_int 5))) Sample.start).
Proof.
  destruct (proj2 (platform_summary_counts "AnyRouter" Cases.three_results
                     Sample.start) ltac:(discriminate))
    as (success_count & failed_count & totals & Hrun & -> & -> & _ & ->).
  exact Hrun.
Defined.

(** With a browser in which everything goes through, the login returns the
    session cookie, the WAF cookie and the user id. *)
Lemma login_session_shape_witness :
  fst (Browser._login_agentrouter Sample.rt Cases.friendly_page
         "b@example.org" "secret" []) = Ok (Some Cases.friendly_session) /\
  session_made_of Cases.friendly_page Cases.friendly_session.
Proof.
  split; [reflexivity|].
  exact (proj1 (proj2 (login_session_shape Sample.rt Cases.friendly_page
                         "b@example.org" "secret" [])
                  Cases.friendly_session eq_refl)).
Defined.

(** The calls of that login: thirteen, in the order of the script. *)
Lemma login_form_in_order_witness :
  snd (Browser._login_agentrouter Sample.rt Cases.friendly_page
         "b@example.org" "secret" []) =
    [Browser.Launch; Browser.NewPage;
     Browser.Goto "https://agentrouter.org/login" 20000;
     Browser.WaitForTimeout 2000;
     Browser.QuerySelector Browser.EMAIL_INPUT;
     Browser.Fill (Browser.dq_attr "input[type=" "email") "b@example.org" 3000;
     Browser.Fill (Browser.dq_attr "input[type=" "password") "secret" 3000;
     Browser.WaitForTimeout 1000;
     Browser.Click (Browser.dq_attr "button[type=" "submit") 3000;
     Browser.WaitForUrl Browser.CONSOLE_PATTERN 15000;
     Browser.GetCookies;
     Browser.Evaluate Browser.FETCH_SELF;
     Browser.Close] /\
  exists added stage,
    snd (Browser._login_agentrouter Sample.rt Cases.friendly_page
           "b@example.org" "secret" []) = added /\
    observe (form_monitor Cases.friendly_page "b@example.org" "secret")
            [] Searching added = Some stage.
Proof.
  split; [reflexivity|].
  destruct (login_form_in_order Sample.rt Cases.friendly_page "b@example.org"
              "secret" []) as (added & stage & Hrun & Hobs & _).
  exists added, stage. split; [exact Hrun|exact Hobs].
Defined.

(** When the first close raises, [_get_waf_cookies] closes again in its
    handler and returns [None], although the browser reported a WAF
    cookie. *)
Lemma browser_context_closed_witness :
  Browser._get_waf_cookies Cases.sticky_page "a" ANYROUTER_LOGIN_URL 30000 []
  = (Ok None,
     [Browser.Launch; Browser.NewPage;
      Browser.Goto ANYROUTER_LOGIN_URL 30000;
      Browser.WaitForFunction Browser.READY_STATE 3000;
      Browser.GetCookies; Browser.Close; Browser.Close]) /\
  exists added,
    closed_last Cases.sticky_page [] added /\
    closed_at_end Cases.sticky_page [] added.
Proof.
  split; [reflexivity|].
  destruct (proj1 (browser_context_closed Sample.rt Cases.sticky_page []
                     "a" ANYROUTER_LOGIN_URL 30000 EmptyString EmptyString))
    as (added & _ & Hlast & Hend & _).
  exists added. split; [exact Hlast|]. apply Hend. reflexivity.
Defined.

(** The session of the friendly browser, as the answer of a login. *)
Lemma login_session_is_login_result_witness :
  exists l : LoginResult,
    Browser.session_cookies Cases.friendly_session =
      map (fun kv => (fst kv, Some (snd kv))) (login_cookies l) /\
    Browser.session_api_user Cases.friendly_session = login_api_user l /\
    exists value,
      dict_get "session" (login_cookies l) = Some value /\
      value <> EmptyString.
Proof.
  apply (login_session_is_login_result Sample.rt Cases.friendly_page
           "b@example.org" "secret" [] Cases.friendly_session).
  - intros h' cookies cookie Hcookies Hin.
    cbn [Browser.cookies_are Cases.friendly_page] in Hcookies.
    injection Hcookies as <-. simpl in Hin.
    destruct Hin as [<-|[<-|[<-|[]]]]; discriminate.
  - reflexivity.
Defined.
